(** * Authifi: the device registry, its YAML persistence, the RADIUS
      decision pipeline and the bounded correlation cache

    A shallow embedding of the Go packages [database], [memorydatabase],
    [yamldatabase], [lru], [radiusserver], [config], [logging] and
    [telegram], with the properties of the specification stated over it.

    Conventions of the embedding.
    - A Go [map[string]*T] whose pointees are never written through the
      pointer is a [gmap string T].  Every write in the registry replaces
      the map slot ([d.vlans[v.ID] = &v]); no method assigns to a field of a
      stored struct, so sharing of the pointee is unobservable.
    - A method with a pointer receiver that returns [error] is a function
      from the receiver's state to the returned error ([None] is [nil]) and
      the state the receiver is left in.  The state is returned on the error
      path as well, so that a mutation made before a failing check is seen.
    - [fmt.Errorf("...: %w", err)] wraps a sentinel; only the sentinel is
      kept.
    - [uint32] fields are [Z]; they are only compared with 0 and copied. *)

From Stdlib Require Import ZArith String Ascii List Permutation.
From stdpp Require Import base option list gmap strings sorting.

Local Open Scope string_scope.

(** ** Package [database]: the data model and the sentinel errors *)

Module database.

Record VLAN := mkVLAN {
  ID : string;
  Name : string;
  Default : bool;
  TunnelType : Z;
  TunnelMediumType : Z
}.

Record User := mkUser {
  Username : string;
  Password : string;
  VlanID : string;
  Description : string
}.

Record BlockedUser := mkBlockedUser {
  bu_Username : string
}.

Inductive Error :=
| ErrUserNotFound
| ErrUserAlreadyExists
| ErrVLANNotFound
| ErrVLANAlreadyExists
| ErrDefaultVLANNotFound
| ErrDefaultVLANAlreadyExists
| ErrBlockedUserNotFound
| ErrUserAlreadyBlocked
| ErrRelativeFile
| ErrOpenFile
| ErrCreateFile
| ErrDecodeFile
| ErrEncodeFile.

(** A Go result pair [(T, error)]. *)
Inductive result (A : Type) :=
| Ok (a : A)
| Err (e : Error).

Arguments Ok {A} a.
Arguments Err {A} e.

Definition is_Ok {A} (r : result A) : Prop :=
  match r with Ok _ => True | Err _ => False end.

Definition is_Err {A} (r : result A) : Prop :=
  match r with Ok _ => False | Err _ => True end.

#[global] Instance VLAN_eq_dec : EqDecision VLAN.
Proof. solve_decision. Defined.

#[global] Instance User_eq_dec : EqDecision User.
Proof. solve_decision. Defined.

#[global] Instance BlockedUser_eq_dec : EqDecision BlockedUser.
Proof. solve_decision. Defined.

#[global] Instance Error_eq_dec : EqDecision Error.
Proof. solve_decision. Defined.

End database.

Import database.

(** ** What the registry uses of the Go runtime and standard library *)

(** [cmp.Compare] returns -1, 0 or +1; these are [Lt], [Eq] and [Gt]. *)
Definition cmp_Compare_int (a b : Z) : comparison := Z.compare a b.

(** [cmp.Compare] on strings is the byte-wise lexicographic order. *)
Definition cmp_Compare_string (a b : string) : comparison := String.compare a b.

(** The order a comparison function induces: [a] may stand before [b]. *)
Definition cmp_le {A} (cmp : A → A → comparison) (a b : A) : Prop :=
  cmp a b ≠ Gt.

(** [slices.SortFunc] asks its comparison to be a strict weak ordering. *)
Record StrictWeakOrdering {A} (cmp : A → A → comparison) : Prop := {
  swo_total : ∀ a b, cmp a b = Gt → cmp b a = Lt;
  swo_trans : ∀ a b c, cmp_le cmp a b → cmp_le cmp b c → cmp_le cmp a c
}.

(** [strconv.Atoi]: an optional sign and at least one decimal digit.  On a
    syntax error the value is 0; a value outside the 64-bit range is clamped
    to the nearest bound.  The caller drops the error. *)
Definition digit_of (c : ascii) : option Z :=
  let n := Z.of_N (N_of_ascii c) in
  if (48 <=? n)%Z && (n <=? 57)%Z then Some (n - 48)%Z else None.

Fixpoint parse_digits (acc : Z) (s : string) : option Z :=
  match s with
  | EmptyString => Some acc
  | String c s' =>
      match digit_of c with
      | Some d => parse_digits (acc * 10 + d)%Z s'
      | None => None
      end
  end.

Definition parse_int (s : string) : option Z :=
  match s with
  | EmptyString => None
  | String c s' =>
      if Ascii.eqb c "-" then
        match s' with
        | EmptyString => None
        | _ => Z.opp <$> parse_digits 0 s'
        end
      else if Ascii.eqb c "+" then
        match s' with
        | EmptyString => None
        | _ => parse_digits 0 s'
        end
      else parse_digits 0 s
  end.

Definition clamp_int64 (n : Z) : Z :=
  Z.max (- 2 ^ 63) (Z.min (2 ^ 63 - 1) n).

Definition Atoi (s : string) : Z :=
  match parse_int s with
  | Some n => clamp_int64 n
  | None => 0%Z
  end.

(** The parts of the runtime that the source leaves open: the order in which
    [for ... range] visits a map (unspecified by the language), the
    permutation [slices.SortFunc] settles on (any sorted one: the sort is
    not promised to be stable), and the case tables of [strings.ToLower]. *)
Class GoRuntime := {
  ToLower : string → string;
  mapRange : ∀ {A : Type}, gmap string A → list A;
  mapRange_perm : ∀ {A : Type} (m : gmap string A),
    mapRange m ≡ₚ (map_to_list m).*2;
  SortFunc : ∀ {A : Type}, (A → A → comparison) → list A → list A;
  SortFunc_perm : ∀ {A : Type} (cmp : A → A → comparison) (l : list A),
    SortFunc cmp l ≡ₚ l;
  SortFunc_sorted : ∀ {A : Type} (cmp : A → A → comparison) (l : list A),
    StrictWeakOrdering cmp → StronglySorted (cmp_le cmp) (SortFunc cmp l)
}.

(** ** Package [memorydatabase]: the in-memory registry

    The sources hold two revisions of this package.  The embedding follows
    the later one, the one the specification describes: its listings are
    sorted, [DeleteUser] clears the blocklist entry and [UnblockUser]
    creates the missing device. *)

Module memorydatabase.

Record MemoryDatabase := mkMemoryDatabase {
  users : gmap string User;
  vlans : gmap string VLAN;
  blockedUsers : gmap string BlockedUser;
  defaultVLAN : option VLAN
}.

Definition NewMemoryDatabase : MemoryDatabase :=
  {| users := ∅; vlans := ∅; blockedUsers := ∅; defaultVLAN := None |}.

Definition set_users (f : gmap string User → gmap string User)
    (d : MemoryDatabase) : MemoryDatabase :=
  {| users := f (users d); vlans := vlans d;
     blockedUsers := blockedUsers d; defaultVLAN := defaultVLAN d |}.

Definition set_vlans (f : gmap string VLAN → gmap string VLAN)
    (d : MemoryDatabase) : MemoryDatabase :=
  {| users := users d; vlans := f (vlans d);
     blockedUsers := blockedUsers d; defaultVLAN := defaultVLAN d |}.

Definition set_blockedUsers
    (f : gmap string BlockedUser → gmap string BlockedUser)
    (d : MemoryDatabase) : MemoryDatabase :=
  {| users := users d; vlans := vlans d;
     blockedUsers := f (blockedUsers d); defaultVLAN := defaultVLAN d |}.

Definition set_defaultVLAN (o : option VLAN) (d : MemoryDatabase)
    : MemoryDatabase :=
  {| users := users d; vlans := vlans d;
     blockedUsers := blockedUsers d; defaultVLAN := o |}.

(** The comparison functions handed to [slices.SortFunc]. *)
Definition cmpVLAN (a b : VLAN) : comparison :=
  cmp_Compare_int (Atoi (ID a)) (Atoi (ID b)).

Definition cmpUser `{GoRuntime} (a b : User) : comparison :=
  cmp_Compare_string (ToLower (Username a)) (ToLower (Username b)).

Definition cmpBlockedUser `{GoRuntime} (a b : BlockedUser) : comparison :=
  cmp_Compare_string (ToLower (bu_Username a)) (ToLower (bu_Username b)).

Definition GetVLANs `{GoRuntime} (d : MemoryDatabase) : result (list VLAN) :=
  Ok (SortFunc cmpVLAN (mapRange (vlans d))).

Definition GetVLAN (id : string) (d : MemoryDatabase) : result VLAN :=
  match vlans d !! id with
  | None => Err ErrVLANNotFound
  | Some vlan => Ok vlan
  end.

Definition CreateVLAN (v : VLAN) (d : MemoryDatabase)
    : option Error * MemoryDatabase :=
  match vlans d !! ID v with
  | Some _ => (Some ErrVLANAlreadyExists, d)
  | None =>
      if Default v then
        match defaultVLAN d with
        | Some _ => (Some ErrDefaultVLANAlreadyExists, d)
        | None =>
            (None, set_vlans (insert (ID v) v) (set_defaultVLAN (Some v) d))
        end
      else (None, set_vlans (insert (ID v) v) d)
  end.

Definition UpdateVLAN (v : VLAN) (d : MemoryDatabase)
    : option Error * MemoryDatabase :=
  match vlans d !! ID v with
  | None => (Some ErrVLANNotFound, d)
  | Some _ => (None, set_vlans (insert (ID v) v) d)
  end.

Definition DeleteVLAN (id : string) (d : MemoryDatabase)
    : option Error * MemoryDatabase :=
  match vlans d !! id with
  | None => (Some ErrVLANNotFound, d)
  | Some _ => (None, set_vlans (delete id) d)
  end.

Definition GetDefaultVLAN (d : MemoryDatabase) : result VLAN :=
  match defaultVLAN d with
  | None => Err ErrDefaultVLANNotFound
  | Some v => Ok v
  end.

Definition GetUsers `{GoRuntime} (d : MemoryDatabase) : result (list User) :=
  Ok (SortFunc cmpUser (mapRange (users d))).

Definition GetUser (username : string) (d : MemoryDatabase) : result User :=
  match users d !! username with
  | None => Err ErrUserNotFound
  | Some user => Ok user
  end.

(** The first user met in range order whose description matches. *)
Definition GetUserByDescription `{GoRuntime} (description : string)
    (d : MemoryDatabase) : result User :=
  match filter (λ u, Description u = description) (mapRange (users d)) with
  | user :: _ => Ok user
  | [] => Err ErrUserNotFound
  end.

Definition CreateUser (u : User) (d : MemoryDatabase)
    : option Error * MemoryDatabase :=
  match users d !! Username u with
  | Some _ => (Some ErrUserAlreadyExists, d)
  | None =>
      match GetVLAN (VlanID u) d with
      | Err e => (Some e, d)
      | Ok _ => (None, set_users (insert (Username u) u) d)
      end
  end.

Definition UpdateUser (u : User) (d : MemoryDatabase)
    : option Error * MemoryDatabase :=
  match users d !! Username u with
  | None => (Some ErrUserNotFound, d)
  | Some _ => (None, set_users (insert (Username u) u) d)
  end.

Definition DeleteUser (username : string) (d : MemoryDatabase)
    : option Error * MemoryDatabase :=
  match users d !! username with
  | None => (Some ErrUserNotFound, d)
  | Some _ =>
      (None, set_blockedUsers (delete username)
               (set_users (delete username) d))
  end.

Definition GetBlockedUsers `{GoRuntime} (d : MemoryDatabase)
    : result (list BlockedUser) :=
  Ok (SortFunc cmpBlockedUser (mapRange (blockedUsers d))).

Definition BlockUser (username : string) (d : MemoryDatabase)
    : option Error * MemoryDatabase :=
  match blockedUsers d !! username with
  | Some _ => (Some ErrUserAlreadyBlocked, d)
  | None =>
      (None, set_blockedUsers
               (insert username {| bu_Username := username |}) d)
  end.

(** The blocklist entry is deleted before the VLAN for the new device is
    looked for, exactly as in the source. *)
Definition UnblockUser `{GoRuntime} (username : string) (d : MemoryDatabase)
    : option Error * MemoryDatabase :=
  match blockedUsers d !! username with
  | None => (Some ErrBlockedUserNotFound, d)
  | Some _ =>
      let d1 := set_blockedUsers (delete username) d in
      match users d1 !! username with
      | Some _ => (None, d1)
      | None =>
          let create (vlan : VLAN) :=
            set_users (insert username
              {| Username := username; Password := username;
                 VlanID := ID vlan; Description := "" |}) d1 in
          match GetDefaultVLAN d1 with
          | Ok vlan => (None, create vlan)
          | Err _ =>
              match GetVLANs d1 with
              | Err e => (Some e, d1)
              | Ok [] => (Some ErrVLANNotFound, d1)
              | Ok (vlan :: _) => (None, create vlan)
              end
          end
      end
  end.

Definition IsUserBlocked (username : string) (d : MemoryDatabase)
    : result bool :=
  Ok (bool_decide (is_Some (blockedUsers d !! username))).

(** A sequence of calls to the three VLAN mutators.  A call that returns
    an error does not stop the sequence: the next call runs on the state the
    failed one left. *)
Inductive VLANMutation :=
| callCreateVLAN (v : VLAN)
| callUpdateVLAN (v : VLAN)
| callDeleteVLAN (id : string).

Definition callVLAN (m : VLANMutation) (d : MemoryDatabase)
    : option Error * MemoryDatabase :=
  match m with
  | callCreateVLAN v => CreateVLAN v d
  | callUpdateVLAN v => UpdateVLAN v d
  | callDeleteVLAN id => DeleteVLAN id d
  end.

Definition runVLAN (ms : list VLANMutation) (d : MemoryDatabase)
    : MemoryDatabase :=
  fold_left (λ d m, (callVLAN m d).2) ms d.

(** A call to any of the eight mutators. *)
Inductive Mutation :=
| mCreateVLAN (v : VLAN)
| mUpdateVLAN (v : VLAN)
| mDeleteVLAN (id : string)
| mCreateUser (u : User)
| mUpdateUser (u : User)
| mDeleteUser (username : string)
| mBlockUser (username : string)
| mUnblockUser (username : string).

Definition call `{GoRuntime} (m : Mutation) (d : MemoryDatabase)
    : option Error * MemoryDatabase :=
  match m with
  | mCreateVLAN v => CreateVLAN v d
  | mUpdateVLAN v => UpdateVLAN v d
  | mDeleteVLAN id => DeleteVLAN id d
  | mCreateUser u => CreateUser u d
  | mUpdateUser u => UpdateUser u d
  | mDeleteUser username => DeleteUser username d
  | mBlockUser username => BlockUser username d
  | mUnblockUser username => UnblockUser username d
  end.

(** The VLANs of the registry whose [Default] field is set. *)
Definition defaultFlagged (d : MemoryDatabase) : gmap string VLAN :=
  filter (λ kv, Default kv.2 = true) (vlans d).

End memorydatabase.


(** The earlier revision of [UnblockUser] (internal/database/memory/
    memory.go): the blocklist entry is deleted and nothing else happens. *)
Module memorydatabase_earlier.
Import memorydatabase.

Definition UnblockUser (username : string) (d : MemoryDatabase)
    : option Error * MemoryDatabase :=
  match blockedUsers d !! username with
  | None => (Some ErrBlockedUserNotFound, d)
  | Some _ => (None, set_blockedUsers (delete username) d)
  end.

End memorydatabase_earlier.

(** ** Package [yamldatabase]: the registry behind a YAML file *)

Module yamldatabase.
Import memorydatabase.

Record yamlFile := mkYamlFile {
  Users : list User;
  VLANs : list VLAN;
  BlockedUsers : list BlockedUser
}.

(** The file system as the package sees it.  The YAML codec is a library:
    a file holds either the document the decoder reads back from what the
    encoder wrote, or bytes the decoder rejects (an empty or half-written
    file among them).  [os.Create] fails on the paths in [createDenied];
    when [writeFails] is set the encoder's write to the created, truncated
    file fails. *)
Inductive FileData :=
| Document (yf : yamlFile)
| Undecodable.

Record Disk := mkDisk {
  files : gmap string FileData;
  createDenied : gset string;
  writeFails : bool
}.

Definition writeFile (filePath : string) (data : FileData) (disk : Disk)
    : Disk :=
  {| files := <[filePath := data]> (files disk);
     createDenied := createDenied disk;
     writeFails := writeFails disk |}.

(** [path.IsAbs]: the path starts with a slash. *)
Definition IsAbs (filePath : string) : bool :=
  match filePath with
  | String c _ => Ascii.eqb c "/"
  | EmptyString => false
  end.

(** A [for ... range] loop over a slice whose body returns on the first
    error. *)
Fixpoint forEach {A} (f : A → MemoryDatabase → option Error * MemoryDatabase)
    (l : list A) (db : MemoryDatabase) : option Error * MemoryDatabase :=
  match l with
  | [] => (None, db)
  | x :: l' =>
      match f x db with
      | (Some e, db') => (Some e, db')
      | (None, db') => forEach f l' db'
      end
  end.

Definition loadFile (filePath : string) (disk : Disk)
    : result MemoryDatabase :=
  if negb (IsAbs filePath) then Err ErrRelativeFile
  else
    match files disk !! filePath with
    | None => Err ErrOpenFile
    | Some Undecodable => Err ErrDecodeFile
    | Some (Document yf) =>
        let db := NewMemoryDatabase in
        match forEach CreateVLAN (VLANs yf) db with
        | (Some e, _) => Err e
        | (None, db) =>
            match forEach CreateUser (Users yf) db with
            | (Some e, _) => Err e
            | (None, db) =>
                match forEach (λ bu, BlockUser (bu_Username bu))
                        (BlockedUsers yf) db with
                | (Some e, _) => Err e
                | (None, db) => Ok db
                end
            end
        end
    end.

Definition dumpFile `{GoRuntime} (filePath : string) (db : MemoryDatabase)
    (disk : Disk) : option Error * Disk :=
  if negb (IsAbs filePath) then (Some ErrRelativeFile, disk)
  else if bool_decide (filePath ∈ createDenied disk)
  then (Some ErrCreateFile, disk)
  else
    let disk := writeFile filePath Undecodable disk in
    match GetUsers db with
    | Err e => (Some e, disk)
    | Ok users =>
        match GetVLANs db with
        | Err e => (Some e, disk)
        | Ok vlans =>
            match GetBlockedUsers db with
            | Err e => (Some e, disk)
            | Ok blockedUsers =>
                let yf := {| Users := users; VLANs := vlans;
                             BlockedUsers := blockedUsers |} in
                if writeFails disk then (Some ErrEncodeFile, disk)
                else (None, writeFile filePath (Document yf) disk)
            end
        end
    end.

(** The watcher field is left out: it is only used by the reload loop. *)
Record YAMLDatabase := mkYAMLDatabase {
  filePath : string;
  memory : MemoryDatabase
}.

Definition NewYAMLDatabase (filePath : string) : YAMLDatabase :=
  {| filePath := filePath; memory := NewMemoryDatabase |}.

Definition set_memory (m : MemoryDatabase) (d : YAMLDatabase) : YAMLDatabase :=
  {| filePath := filePath d; memory := m |}.

Definition load (d : YAMLDatabase) (disk : Disk)
    : option Error * YAMLDatabase :=
  match loadFile (filePath d) disk with
  | Err e => (Some e, d)
  | Ok db => (None, set_memory db d)
  end.

Definition save `{GoRuntime} (d : YAMLDatabase) (disk : Disk)
    : option Error * Disk :=
  dumpFile (filePath d) (memory d) disk.

(** The eight mutators.  Each calls the method of the same name on
    [d.memory], which has changed [d.memory] by the time it returns, and
    returns its error if there is one; else it calls [d.save()] and returns
    the error of that. *)
Definition CreateVLAN `{GoRuntime} (v : VLAN) (d : YAMLDatabase)
    (disk : Disk) : option Error * YAMLDatabase * Disk :=
  match memorydatabase.CreateVLAN v (memory d) with
  | (Some err, m) => (Some err, set_memory m d, disk)
  | (None, m) =>
      match save (set_memory m d) disk with
      | (Some err, disk) => (Some err, set_memory m d, disk)
      | (None, disk) => (None, set_memory m d, disk)
      end
  end.

Definition UpdateVLAN `{GoRuntime} (v : VLAN) (d : YAMLDatabase)
    (disk : Disk) : option Error * YAMLDatabase * Disk :=
  match memorydatabase.UpdateVLAN v (memory d) with
  | (Some err, m) => (Some err, set_memory m d, disk)
  | (None, m) =>
      match save (set_memory m d) disk with
      | (Some err, disk) => (Some err, set_memory m d, disk)
      | (None, disk) => (None, set_memory m d, disk)
      end
  end.

Definition DeleteVLAN `{GoRuntime} (id : string) (d : YAMLDatabase)
    (disk : Disk) : option Error * YAMLDatabase * Disk :=
  match memorydatabase.DeleteVLAN id (memory d) with
  | (Some err, m) => (Some err, set_memory m d, disk)
  | (None, m) =>
      match save (set_memory m d) disk with
      | (Some err, disk) => (Some err, set_memory m d, disk)
      | (None, disk) => (None, set_memory m d, disk)
      end
  end.

Definition CreateUser `{GoRuntime} (u : User) (d : YAMLDatabase)
    (disk : Disk) : option Error * YAMLDatabase * Disk :=
  match memorydatabase.CreateUser u (memory d) with
  | (Some err, m) => (Some err, set_memory m d, disk)
  | (None, m) =>
      match save (set_memory m d) disk with
      | (Some err, disk) => (Some err, set_memory m d, disk)
      | (None, disk) => (None, set_memory m d, disk)
      end
  end.

Definition UpdateUser `{GoRuntime} (u : User) (d : YAMLDatabase)
    (disk : Disk) : option Error * YAMLDatabase * Disk :=
  match memorydatabase.UpdateUser u (memory d) with
  | (Some err, m) => (Some err, set_memory m d, disk)
  | (None, m) =>
      match save (set_memory m d) disk with
      | (Some err, disk) => (Some err, set_memory m d, disk)
      | (None, disk) => (None, set_memory m d, disk)
      end
  end.

Definition DeleteUser `{GoRuntime} (username : string) (d : YAMLDatabase)
    (disk : Disk) : option Error * YAMLDatabase * Disk :=
  match memorydatabase.DeleteUser username (memory d) with
  | (Some err, m) => (Some err, set_memory m d, disk)
  | (None, m) =>
      match save (set_memory m d) disk with
      | (Some err, disk) => (Some err, set_memory m d, disk)
      | (None, disk) => (None, set_memory m d, disk)
      end
  end.

Definition BlockUser `{GoRuntime} (username : string) (d : YAMLDatabase)
    (disk : Disk) : option Error * YAMLDatabase * Disk :=
  match memorydatabase.BlockUser username (memory d) with
  | (Some err, m) => (Some err, set_memory m d, disk)
  | (None, m) =>
      match save (set_memory m d) disk with
      | (Some err, disk) => (Some err, set_memory m d, disk)
      | (None, disk) => (None, set_memory m d, disk)
      end
  end.

Definition UnblockUser `{GoRuntime} (username : string) (d : YAMLDatabase)
    (disk : Disk) : option Error * YAMLDatabase * Disk :=
  match memorydatabase.UnblockUser username (memory d) with
  | (Some err, m) => (Some err, set_memory m d, disk)
  | (None, m) =>
      match save (set_memory m d) disk with
      | (Some err, disk) => (Some err, set_memory m d, disk)
      | (None, disk) => (None, set_memory m d, disk)
      end
  end.

Definition GetVLAN (id : string) (d : YAMLDatabase) : result VLAN :=
  memorydatabase.GetVLAN id (memory d).
Definition GetUser (username : string) (d : YAMLDatabase) : result User :=
  memorydatabase.GetUser username (memory d).
Definition IsUserBlocked (username : string) (d : YAMLDatabase)
    : result bool :=
  memorydatabase.IsUserBlocked username (memory d).
Definition GetDefaultVLAN (d : YAMLDatabase) : result VLAN :=
  memorydatabase.GetDefaultVLAN (memory d).

Definition call `{GoRuntime} (m : Mutation)
    : YAMLDatabase → Disk → option Error * YAMLDatabase * Disk :=
  match m with
  | mCreateVLAN v => CreateVLAN v
  | mUpdateVLAN v => UpdateVLAN v
  | mDeleteVLAN id => DeleteVLAN id
  | mCreateUser u => CreateUser u
  | mUpdateUser u => UpdateUser u
  | mDeleteUser username => DeleteUser username
  | mBlockUser username => BlockUser username
  | mUnblockUser username => UnblockUser username
  end.

End yamldatabase.

(** ** Package [lru]: the bounded correlation cache

    [container/list] elements are heap cells known by their address.  The
    cache keeps two views of them: the map from key to element and the queue
    of elements, front first.  An element and the [entry] its [Value] points
    to are allocated together and never separated, so one heap cell holds
    both; [entry.value = value] is a write to that cell.  [Set] is a
    reserved word: the method is [Set_] here. *)

Module lru.

Section cache.
Context {K : Type} `{Countable K} {V : Type}.
(** The zero value of [V]. *)
Variable zeroValue : V.

Record entry := mkEntry {
  key : K;
  value : V
}.

Record Cache := mkCache {
  capacity : Z;
  cache : gmap K nat;
  queue : list nat;
  heap : gmap nat entry;
  nextAddr : nat
}.

Definition NewLRUCache (capacity : Z) : Cache :=
  {| capacity := capacity; cache := ∅; queue := [];
     heap := ∅; nextAddr := 0 |}.

(** [list.MoveToFront]: nothing happens when the element is not in the
    list or already at the front. *)
Definition MoveToFront (elem : nat) (q : list nat) : list nat :=
  if bool_decide (elem ∈ q) then elem :: filter (λ e, e ≠ elem) q else q.

(** [list.Remove]. *)
Definition Remove (elem : nat) (q : list nat) : list nat :=
  filter (λ e, e ≠ elem) q.

(** [list.Back]: the last element, or nil. *)
Definition Back (q : list nat) : option nat := last q.

Definition Get (k : K) (c : Cache) : V * bool * Cache :=
  match cache c !! k with
  | Some elem =>
      let c' := {| capacity := capacity c; cache := cache c;
                   queue := MoveToFront elem (queue c);
                   heap := heap c; nextAddr := nextAddr c |} in
      match heap c !! elem with
      | Some entry => (value entry, true, c')
      | None => (zeroValue, false, c')
      end
  | None => (zeroValue, false, c)
  end.

Definition Set_ (k : K) (v : V) (c : Cache) : Cache :=
  match cache c !! k with
  | Some elem =>
      {| capacity := capacity c; cache := cache c;
         queue := MoveToFront elem (queue c);
         heap := match heap c !! elem with
                 | Some entry =>
                     <[elem := {| key := key entry; value := v |}]> (heap c)
                 | None => heap c
                 end;
         nextAddr := nextAddr c |}
  | None =>
      let elem := nextAddr c in
      let heap1 := <[elem := {| key := k; value := v |}]> (heap c) in
      let queue1 := elem :: queue c in
      let cache1 := <[k := elem]> (cache c) in
      let c1 := {| capacity := capacity c; cache := cache1;
                   queue := queue1; heap := heap1;
                   nextAddr := S (nextAddr c) |} in
      if (capacity c <? Z.of_nat (length queue1))%Z then
        match Back queue1 with
        | Some oldest =>
            match heap1 !! oldest with
            | Some entry =>
                {| capacity := capacity c;
                   cache := delete (key entry) cache1;
                   queue := Remove oldest queue1;
                   heap := heap1; nextAddr := S (nextAddr c) |}
            | None => c1
            end
        | None => c1
        end
      else c1
  end.

(** The entries of the cache in order of use, most recent first. *)
Definition entries (c : Cache) : list (K * V) :=
  omap (λ elem, (λ e, (key e, value e)) <$> heap c !! elem) (queue c).

Inductive Op :=
| opSet (k : K) (v : V)
| opGet (k : K).

Definition step (c : Cache) (o : Op) : Cache :=
  match o with
  | opSet k v => Set_ k v c
  | opGet k => (Get k c).2
  end.

Definition run (ops : list Op) (c : Cache) : Cache := fold_left step ops c.

End cache.

Arguments entry : clear implicits.
Arguments Cache K {_ _} V.
Arguments Op : clear implicits.

End lru.

(** ** Package [radiusserver]: the Access-Request handler *)

Module radiusserver.

Inductive Code :=
| CodeAccessRequest
| CodeAccessAccept
| CodeAccessReject.

(** A RADIUS packet, as far as the handler reads and writes it: the code,
    the identifier and the attributes it touches.  An attribute is absent
    ([None]) or set once; the RFC 2868 attributes carry their tag. *)
Record Packet := mkPacket {
  pktCode : Code;
  pktIdentifier : Z;
  attrUserName : option string;
  attrUserPassword : option string;
  attrCallingStationID : option string;
  attrTunnelPrivateGroupID : option (Z * string);
  attrTunnelType : option (Z * Z);
  attrTunnelMediumType : option (Z * Z)
}.

Record Request := mkRequest {
  reqPacket : Packet
}.

(** [rfc2865.*_GetString]: the empty string when the attribute is absent. *)
Definition UserName_GetString (p : Packet) : string :=
  default "" (attrUserName p).
Definition UserPassword_GetString (p : Packet) : string :=
  default "" (attrUserPassword p).
Definition CallingStationID_GetString (p : Packet) : string :=
  default "" (attrCallingStationID p).

Definition TunnelPrivateGroupID_SetString (tag : Z) (value : string)
    (p : Packet) : Packet :=
  {| pktCode := pktCode p; pktIdentifier := pktIdentifier p;
     attrUserName := attrUserName p; attrUserPassword := attrUserPassword p;
     attrCallingStationID := attrCallingStationID p;
     attrTunnelPrivateGroupID := Some (tag, value);
     attrTunnelType := attrTunnelType p;
     attrTunnelMediumType := attrTunnelMediumType p |}.

Definition TunnelType_Set (tag : Z) (value : Z) (p : Packet) : Packet :=
  {| pktCode := pktCode p; pktIdentifier := pktIdentifier p;
     attrUserName := attrUserName p; attrUserPassword := attrUserPassword p;
     attrCallingStationID := attrCallingStationID p;
     attrTunnelPrivateGroupID := attrTunnelPrivateGroupID p;
     attrTunnelType := Some (tag, value);
     attrTunnelMediumType := attrTunnelMediumType p |}.

Definition TunnelMediumType_Set (tag : Z) (value : Z) (p : Packet) : Packet :=
  {| pktCode := pktCode p; pktIdentifier := pktIdentifier p;
     attrUserName := attrUserName p; attrUserPassword := attrUserPassword p;
     attrCallingStationID := attrCallingStationID p;
     attrTunnelPrivateGroupID := attrTunnelPrivateGroupID p;
     attrTunnelType := attrTunnelType p;
     attrTunnelMediumType := Some (tag, value) |}.

(** [r.Response(code)]: a new packet with the request's identifier and no
    attributes. *)
Definition Response (r : Request) (code : Code) : Packet :=
  {| pktCode := code; pktIdentifier := pktIdentifier (reqPacket r);
     attrUserName := None; attrUserPassword := None;
     attrCallingStationID := None; attrTunnelPrivateGroupID := None;
     attrTunnelType := None; attrTunnelMediumType := None |}.

Definition vlanTunnelType : Z := 13.
Definition TunnelMediumType_Value_IEEE802 : Z := 6.

Definition setPacketVLAN (packet : Packet) (vlan : VLAN) : Packet :=
  let packet := TunnelPrivateGroupID_SetString 0 (ID vlan) packet in
  let packet :=
    if bool_decide (TunnelType vlan ≠ 0%Z)
    then TunnelType_Set 0 (TunnelType vlan) packet
    else TunnelType_Set 0 vlanTunnelType packet in
  if bool_decide (TunnelMediumType vlan ≠ 0%Z)
  then TunnelMediumType_Set 0 (TunnelMediumType vlan) packet
  else TunnelMediumType_Set 0 TunnelMediumType_Value_IEEE802 packet.

(** The methods of the [database.Database] interface the handler calls. *)
Class Database (DB : Type) := {
  GetDefaultVLAN : DB → result VLAN;
  IsUserBlocked : string → DB → result bool;
  GetUser : string → DB → result User;
  GetVLAN : string → DB → result VLAN
}.

#[export] Instance MemoryDatabase_Database
    : Database memorydatabase.MemoryDatabase := {|
  GetDefaultVLAN := memorydatabase.GetDefaultVLAN;
  IsUserBlocked := memorydatabase.IsUserBlocked;
  GetUser := memorydatabase.GetUser;
  GetVLAN := memorydatabase.GetVLAN
|}.

#[export] Instance YAMLDatabase_Database
    : Database yamldatabase.YAMLDatabase := {|
  GetDefaultVLAN := yamldatabase.GetDefaultVLAN;
  IsUserBlocked := yamldatabase.IsUserBlocked;
  GetUser := yamldatabase.GetUser;
  GetVLAN := yamldatabase.GetVLAN
|}.

(** What the handler asks of the bot. *)
Inductive BotCall :=
| NotifyLoginAttempt (username password macAddress : string).

(** The handler up to the point where the response is written: the packet
    it writes and the calls it made to the bot, in order.  [response] is
    first set to the default response and then overwritten or kept by the
    branch taken. *)
Definition handler {DB} `{Database DB} (db : DB) (r : Request)
    : Packet * list BotCall :=
  let username := UserName_GetString (reqPacket r) in
  let password := UserPassword_GetString (reqPacket r) in
  let macAddress := CallingStationID_GetString (reqPacket r) in
  let response :=
    match GetDefaultVLAN db with
    | Err _ => Response r CodeAccessReject
    | Ok vlan => setPacketVLAN (Response r CodeAccessAccept) vlan
    end in
  match IsUserBlocked username db with
  | Err _ => (Response r CodeAccessReject, [])
  | Ok true => (Response r CodeAccessReject, [])
  | Ok false =>
      match GetUser username db with
      | Err _ =>
          (response, [NotifyLoginAttempt username password macAddress])
      | Ok user =>
          if bool_decide (Password user ≠ password)
          then (Response r CodeAccessReject, [])
          else
            match GetVLAN (VlanID user) db with
            | Err _ => (response, [])
            | Ok vlan =>
                (setPacketVLAN (Response r CodeAccessAccept) vlan, [])
            end
      end
  end.

End radiusserver.

(** ** A concrete runtime

    One resolution of the open choices, used to run the model: maps are
    visited in key order of the underlying trie, the sort is the insertion
    sort that [slices.SortFunc] runs on slices shorter than twelve elements,
    and [ToLower] folds the ASCII letters. *)

Module runtime.

(** [insertionSortCmpFunc]: each element moves left while it compares less
    than its predecessor.  The sorted prefix is kept reversed, so that the
    predecessor is at the head. *)
Fixpoint sift {A} (cmp : A → A → comparison) (x : A) (rprefix : list A)
    : list A :=
  match rprefix with
  | [] => [x]
  | y :: r =>
      match cmp x y with
      | Lt => y :: sift cmp x r
      | _ => x :: rprefix
      end
  end.

Definition insertionSort {A} (cmp : A → A → comparison) (l : list A)
    : list A :=
  reverse (fold_left (λ r x, sift cmp x r) l []).

Definition lower_ascii (c : ascii) : ascii :=
  let n := N_of_ascii c in
  if (65 <=? n)%N && (n <=? 90)%N then ascii_of_N (n + 32) else c.

Fixpoint lower_string (s : string) : string :=
  match s with
  | EmptyString => EmptyString
  | String c s' => String (lower_ascii c) (lower_string s')
  end.

Definition values {A} (m : gmap string A) : list A := (map_to_list m).*2.

End runtime.

(** ** The vocabulary of the specification *)

Module spec.
Import memorydatabase radiusserver.

(** Every map of the registry is keyed by the key field of its values.  All
    writes are of the form [d.vlans[v.ID] = &v], so this holds of every
    registry built through the methods. *)
Definition keyed (d : MemoryDatabase) : Prop :=
  (∀ k v, vlans d !! k = Some v → ID v = k) ∧
  (∀ k u, users d !! k = Some u → Username u = k) ∧
  (∀ k b, blockedUsers d !! k = Some b → bu_Username b = k).

(** V1: at most one VLAN of the registry has [default = true]. *)
Definition V1 (d : MemoryDatabase) : Prop :=
  (size (defaultFlagged d) ≤ 1)%nat.

(** V2: every device's [vlanId] names a VLAN of the registry. *)
Definition V2 (d : MemoryDatabase) : Prop :=
  ∀ k u, users d !! k = Some u → is_Some (vlans d !! VlanID u).

(** The VLAN [getDefaultVLAN] answers with is exactly the flagged one. *)
Definition defaultRecorded (d : MemoryDatabase) : Prop :=
  ∀ v, defaultVLAN d = Some v ↔
       ∃ k, vlans d !! k = Some v ∧ Default v = true.

(** The default response of the pipeline: Access-Accept with the default
    VLAN's attributes when there is a default VLAN, Access-Reject if not. *)
Definition defaultResponse {DB} `{Database DB} (db : DB) (r : Request)
    : Packet :=
  match GetDefaultVLAN db with
  | Ok vlan => setPacketVLAN (Response r CodeAccessAccept) vlan
  | Err _ => Response r CodeAccessReject
  end.

(** The byte-wise order on strings, as [cmp.Compare] sees it. *)
Definition string_le (s t : string) : Prop := String.compare s t ≠ Gt.

(** [out] keeps the order [input] gives to any two entries that compare
    equal: the stability of a sort. *)
Definition stableBetween {A} (cmp : A → A → comparison) (input out : list A)
    : Prop :=
  ∀ a b, cmp a b = Eq → a ≠ b →
    (∃ i j : nat, (i < j)%nat ∧ input !! i = Some a ∧ input !! j = Some b) →
    (∃ i j : nat, (i < j)%nat ∧ out !! i = Some a ∧ out !! j = Some b).

(** The device [UnblockUser] creates for [username] on VLAN [vlan]. *)
Definition unblocked (username : string) (vlan : VLAN) (d : MemoryDatabase)
    : MemoryDatabase :=
  set_users (insert username
    {| Username := username; Password := username;
       VlanID := ID vlan; Description := "" |})
    (set_blockedUsers (delete username) d).

End spec.

(** ** Registries, requests and disks used as examples *)

Module fixtures.
Import memorydatabase yamldatabase radiusserver.

Definition vlan1 : VLAN :=
  {| ID := "1"; Name := "Default"; Default := true;
     TunnelType := 0; TunnelMediumType := 0 |}.

Definition vlan20 : VLAN :=
  {| ID := "20"; Name := "IOT"; Default := false;
     TunnelType := 0; TunnelMediumType := 0 |}.

Definition withDefault (b : bool) (v : VLAN) : VLAN :=
  {| ID := ID v; Name := Name v; Default := b;
     TunnelType := TunnelType v; TunnelMediumType := TunnelMediumType v |}.

Definition accessRequest (username password mac : string) : Request :=
  {| reqPacket :=
       {| pktCode := CodeAccessRequest; pktIdentifier := 7;
          attrUserName := Some username;
          attrUserPassword := Some password;
          attrCallingStationID := Some mac;
          attrTunnelPrivateGroupID := None;
          attrTunnelType := None; attrTunnelMediumType := None |} |}.

(** Scenario S1 of the specification: VLAN 1 is the default, VLAN 20 is
    not, no device, nobody blocked. *)
Definition registryS1 : MemoryDatabase :=
  (memorydatabase.CreateVLAN vlan20
     (memorydatabase.CreateVLAN vlan1 NewMemoryDatabase).2).2.

Definition station : string := "aa:bb:cc:11:22:33".

Definition device (username vlanId : string) : User :=
  {| Username := username; Password := username;
     VlanID := vlanId; Description := "" |}.

(** A disk on which the registry file cannot be created. *)
Definition deniedDisk (path : string) : Disk :=
  {| files := ∅; createDenied := {[path]}; writeFails := false |}.

Definition vlanGuest : VLAN :=
  {| ID := "guest"; Name := "Guest"; Default := false;
     TunnelType := 0; TunnelMediumType := 0 |}.

Definition vlanIot : VLAN :=
  {| ID := "iot"; Name := "IOT"; Default := false;
     TunnelType := 0; TunnelMediumType := 0 |}.

(** Two VLANs whose ids are not integers. *)
Definition registryTies : MemoryDatabase :=
  (memorydatabase.CreateVLAN vlanIot
     (memorydatabase.CreateVLAN vlanGuest NewMemoryDatabase).2).2.

Definition emptyDisk : Disk :=
  {| files := ∅; createDenied := ∅; writeFails := false |}.

(** Scenario S3 with one more username on the blocklist. *)
Definition registryS3 : MemoryDatabase :=
  (memorydatabase.BlockUser "de:ad:be:ef:00:01"
     (memorydatabase.CreateUser
        {| Username := "aa:bb:cc:11:22:33"; Password := "aa:bb:cc:11:22:33";
           VlanID := "20"; Description := "" |}
        registryS1).2).2.

End fixtures.

(** ** The representation invariant of the cache *)

Module lru_spec.
Import lru.

Section invariant.
Context {K : Type} `{Countable K} {V : Type}.
Implicit Types (c : Cache K V) (e : nat) (h : gmap nat (entry K V)).

(** The key and value an element holds. *)
Definition cell h e : option (K * V) :=
  (λ en, (key en, value en)) <$> h !! e.

(** The representation invariant: the queue has no element twice, the map
    sends a key to the queued element that holds it, every queued element
    has its cell, and addresses not yet allocated are not queued. *)
Record wf c : Prop := {
  wf_nodup : NoDup (queue c);
  wf_cache : ∀ k e, cache c !! k = Some e ↔
               e ∈ queue c ∧ ∃ v, heap c !! e = Some {| key := k; value := v |};
  wf_heap : ∀ e, e ∈ queue c → is_Some (heap c !! e);
  wf_fresh : ∀ e, e ∈ queue c → e < nextAddr c
}.

(** The queue is not longer than the capacity (or empty, for a capacity
    below zero). *)
Definition bounded c : Prop :=
  (Z.of_nat (length (queue c)) ≤ Z.max 0 (capacity c))%Z.

End invariant.

End lru_spec.

(** ** Sequences of calls to the registry *)

Module registry_runs.
Import memorydatabase.

(** A sequence of calls to the mutators.  A call that returns an error does
    not stop the sequence. *)
Definition run `{GoRuntime} (ms : list Mutation) (d : MemoryDatabase)
    : MemoryDatabase :=
  fold_left (λ d m, (call m d).2) ms d.

Definition isUpdateVLAN (m : Mutation) : bool :=
  match m with mUpdateVLAN _ => true | _ => false end.

Definition isDeleteVLAN (m : Mutation) : bool :=
  match m with mDeleteVLAN _ => true | _ => false end.

Definition isUpdateUser (m : Mutation) : bool :=
  match m with mUpdateUser _ => true | _ => false end.

(** The calls that can take [u] off the blocklist. *)
Definition releases (u : string) (m : Mutation) : bool :=
  match m with
  | mUnblockUser n | mDeleteUser n => bool_decide (n = u)
  | _ => false
  end.

(** The flagged VLANs are the recorded default, and the maps are keyed. *)
Definition flaggedIsDefault (d : MemoryDatabase) : Prop :=
  spec.keyed d ∧
  ∀ k v, vlans d !! k = Some v → Default v = true → defaultVLAN d = Some v.

(** Every device and the recorded default VLAN name a VLAN of the
    registry, and the maps are keyed. *)
Definition referencesResolve (d : MemoryDatabase) : Prop :=
  spec.keyed d ∧ spec.V2 d ∧
  ∀ v, defaultVLAN d = Some v → is_Some (vlans d !! ID v).

(** The recorded default VLAN is a VLAN of the registry, stored under its
    id with [default = true]. *)
Definition defaultListed (d : MemoryDatabase) : Prop :=
  ∀ v, defaultVLAN d = Some v → vlans d !! ID v = Some v ∧ Default v = true.

End registry_runs.

(** ** Package [config]: the configuration and its validation *)

Module config.

Definition VerboseLevel := Z.
Definition VerboseLevelQuiet : VerboseLevel := (-1)%Z.
Definition VerboseLevelInfo : VerboseLevel := 0%Z.
Definition VerboseLevelAccessLogs : VerboseLevel := 1%Z.
Definition VerboseLevelDebug : VerboseLevel := 2%Z.

Definition DefaultProd : bool := false.
Definition DefaultHost : string := "localhost".
Definition DefaultPort : string := "1812".
Definition DefaultDatabaseFilePath : string := "database.yaml".
Definition DefaultVerbose : VerboseLevel := VerboseLevelInfo.
Definition DefaultQuiet : bool := false.

Record Config := mkConfig {
  Prod : bool;
  Debug : bool;
  Host : string;
  Port : string;
  DatabaseFilePath : string;
  RadiusSecret : string;
  Verbose : VerboseLevel;
  Quiet : bool;
  TelegramBotToken : string;
  TelegramChatIDs : list string
}.

(** The fields the literal does not name have their zero value. *)
Definition NewConfig : Config :=
  {| Prod := DefaultProd; Debug := false; Host := DefaultHost;
     Port := DefaultPort; DatabaseFilePath := DefaultDatabaseFilePath;
     RadiusSecret := ""; Verbose := DefaultVerbose; Quiet := DefaultQuiet;
     TelegramBotToken := ""; TelegramChatIDs := [] |}.

Definition set_Debug (b : bool) (c : Config) : Config :=
  {| Prod := Prod c; Debug := b; Host := Host c; Port := Port c;
     DatabaseFilePath := DatabaseFilePath c; RadiusSecret := RadiusSecret c;
     Verbose := Verbose c; Quiet := Quiet c;
     TelegramBotToken := TelegramBotToken c;
     TelegramChatIDs := TelegramChatIDs c |}.

Definition set_Verbose (v : VerboseLevel) (c : Config) : Config :=
  {| Prod := Prod c; Debug := Debug c; Host := Host c; Port := Port c;
     DatabaseFilePath := DatabaseFilePath c; RadiusSecret := RadiusSecret c;
     Verbose := v; Quiet := Quiet c;
     TelegramBotToken := TelegramBotToken c;
     TelegramChatIDs := TelegramChatIDs c |}.

(** [ErrInvalidConfig] as [Validate] wraps it: one constructor for each
    message. *)
Inductive ConfigError :=
| InvalidHostPort
| InvalidVerbosity (level : VerboseLevel)
| VerboseAndQuiet
| EmptyDatabaseFilePath
| EmptyRadiusSecret
| InvalidChatID (chatID : string).

(** The error [strconv.Atoi] returns beside its value: a syntax error, or a
    value outside the 64-bit range. *)
Definition Atoi_fails (s : string) : bool :=
  match parse_int s with
  | None => true
  | Some n => negb ((- 2 ^ 63 <=? n)%Z && (n <=? 2 ^ 63 - 1)%Z)
  end.

Section validate.
(** [net.JoinHostPort], and whether [url.ParseRequestURI] returns without
    error: both are the standard library's. *)
Variable JoinHostPort : string → string → string.
Variable ParseRequestURI : string → bool.

Definition GetAddr (c : Config) : string := JoinHostPort (Host c) (Port c).

(** [Validate] writes [c.Debug] and [c.Verbose] before its last three
    checks: the configuration it leaves is returned with the error. *)
Definition Validate (c : Config) : option ConfigError * Config :=
  if negb (ParseRequestURI ("http://" ++ JoinHostPort (Host c) (Port c)))
  then (Some InvalidHostPort, c)
  else if (Verbose c <? VerboseLevelInfo)%Z
          || (VerboseLevelDebug <? Verbose c)%Z
  then (Some (InvalidVerbosity (Verbose c)), c)
  else if negb (Verbose c =? VerboseLevelInfo)%Z && Quiet c
  then (Some VerboseAndQuiet, c)
  else
    let c := if (VerboseLevelDebug <=? Verbose c)%Z
             then set_Debug true c else c in
    let c := if Quiet c then set_Verbose VerboseLevelQuiet c else c in
    if bool_decide (DatabaseFilePath c = "")
    then (Some EmptyDatabaseFilePath, c)
    else if bool_decide (RadiusSecret c = "")
    then (Some EmptyRadiusSecret, c)
    else
      match List.find Atoi_fails (TelegramChatIDs c) with
      | Some chatID => (Some (InvalidChatID chatID), c)
      | None => (None, c)
      end.

End validate.

(** The default configuration with a secret, two chat ids and [-q]. *)
Definition quietConfig : Config :=
  {| Prod := false; Debug := false; Host := "localhost"; Port := "1812";
     DatabaseFilePath := "database.yaml"; RadiusSecret := "secret";
     Verbose := VerboseLevelInfo; Quiet := true;
     TelegramBotToken := "123456:abcdefghij";
     TelegramChatIDs := ["42"; "-1001234"] |}.

End config.

(** ** Package [logging]: the logger a configuration selects *)

Module logging.
Import config.

(** [slog.Level]. *)
Inductive Level := LevelDebug | LevelInfo | LevelWarn | LevelError.

Inductive HandlerKind := JSONHandler | TextHandler.

(** A [slog.Logger] as far as [NewLogger] decides it: the handler and its
    options.  The writer is left out. *)
Record Logger := mkLogger {
  handler : HandlerKind;
  level : Level;
  addSource : bool
}.

Definition NewLogger (cfg : Config) : Logger :=
  let level := LevelInfo in
  let addSource := false in
  let '(level, addSource) :=
    if (VerboseLevelDebug <=? Verbose cfg)%Z then (LevelDebug, true)
    else (level, addSource) in
  let level :=
    if (Verbose cfg <=? VerboseLevelQuiet)%Z then LevelError else level in
  if Prod cfg
  then {| handler := JSONHandler; level := level; addSource := addSource |}
  else {| handler := TextHandler; level := level; addSource := addSource |}.

End logging.

(** ** Package [telegram]: the approval flows of the bot

    The handlers of the new-device flow and of the edit-device flow, as
    functions of the bot's state.  What the chat library does is kept to
    what the handlers use of it:
    - [bot.Handle(&tele.InlineButton{Unique: u}, h)] makes [h] run when a
      button made with unique [u] is pressed, with [c.Data()] the data the
      button was made with;
    - [c.Send] and [c.Edit] deliver a message or fail, as the context
      says; a call that is delivered is appended to the [outbox];
    - the texts are [fmt.Sprintf] templates: a message is the template and
      its arguments, a button caption the literal or the VLAN name;
    - [createRandomID] reads [crypto/rand]: the n-th id read is
      [randomID n], whatever that is;
    - the two expressions in [regexp] are the library's: the handlers get
      what [FindStringSubmatch] makes of the text. *)

Module telegram.
Import lru.

Definition btnAddUnique : string := "add".
Definition btnSelectVLANUnique : string := "select-vlan".
Definition btnBackAddUnique : string := "back-add".
Definition btnIgnoreUnique : string := "ignore".
Definition btnBlocklistUnique : string := "blocklist".

Definition btnEditChangeVLANUnique : string := "edit-change-vlan".
Definition btnEditBlockUnique : string := "edit-block".
Definition btnEditUnblockUnique : string := "edit-unblock".
Definition btnEditDeleteUnique : string := "edit-delete".
Definition btnEditBackUnique : string := "edit-back".
Definition btnEditSelectVLANUnique : string := "edit-select-vlan".

Definition newDeviceDataCacheSize : Z := 100.
Definition editDeviceDataCacheSize : Z := 10.

Record newDeviceData := mkNewDeviceData {
  nd_Username : string;
  nd_Password : string;
  nd_VlanID : string;
  nd_MacAddress : string;
  nd_Description : string
}.

Record editDeviceData := mkEditDeviceData {
  ed_Username : string;
  ed_VlanID : string
}.

(** The caches hold pointers; a miss returns nil, which no handler reads. *)
Definition nilNewDeviceData : newDeviceData :=
  {| nd_Username := ""; nd_Password := ""; nd_VlanID := "";
     nd_MacAddress := ""; nd_Description := "" |}.

Definition nilEditDeviceData : editDeviceData :=
  {| ed_Username := ""; ed_VlanID := "" |}.

(** [database.User{}] and [database.VLAN{}]. *)
Definition zeroUser : User :=
  {| Username := ""; Password := ""; VlanID := ""; Description := "" |}.

Definition zeroVLAN : VLAN :=
  {| ID := ""; Name := ""; Default := false;
     TunnelType := 0; TunnelMediumType := 0 |}.

Inductive Caption :=
| capAddDevice
| capIgnoreRequest
| capBlockDevice
| capBack
| capChangeVLAN
| capBlock
| capUnblock
| capDelete
| capVLAN (name : string).

Record InlineButton := mkInlineButton {
  Text : Caption;
  Unique : string;
  Data : string
}.

(** A [tele.ReplyMarkup], of which only [InlineKeyboard] is used. *)
Definition ReplyMarkup := list (list InlineButton).

Inductive Message :=
| msgNewDevice (username macAddress time : string)
| msgSelectNetwork (username : string)
| msgAdded (username vlanName : string)
| msgSavedName (description username : string)
| msgIgnored (username : string)
| msgBlocked (username : string)
| msgUserNotFound (username : string)
| msgEditDevice (blocked : bool) (description username vlanName : string)
| msgEditUsage
| msgSelectNewVLAN (username : string)
| msgDeleted (username : string).

Inductive Action :=
| Send (msg : Message) (markup : option ReplyMarkup)
| Edit (msg : Message) (markup : option ReplyMarkup)
| SendTo (chatID : Z) (msg : Message) (markup : option ReplyMarkup).

Inductive BotError :=
| ErrFailedToReadData
| ErrDatabase (e : Error)
| ErrChat.

(** [err != nil]. *)
Definition failed {A} (r : result A) : bool :=
  match r with Err _ => true | Ok _ => false end.

(** How a handler ends: it returns, with an error or nil, or it panics. *)
Inductive Outcome :=
| Returned (err : option BotError)
| Panicked.

(** What a handler reads of its [tele.Context]: the data of the button
    pressed, the payload and the text of the message, the text of the
    message it replies to if it is a reply, the time of the call, and
    whether a call to [c.Send] or [c.Edit] fails, given the number of calls
    delivered before it. *)
Record Context := mkContext {
  cData : string;
  cPayload : string;
  cText : string;
  cReplyTo : option string;
  cNow : string;
  cFails : nat → bool
}.

(** The methods of [database.Database] that the flows call.  A getter that
    returns an error returns the zero value beside it. *)
Class Database (DB : Type) := {
  GetVLANs : DB → result (list VLAN);
  GetVLAN : string → DB → result VLAN;
  GetUser : string → DB → result User;
  GetUserByDescription : string → DB → result User;
  IsUserBlocked : string → DB → result bool;
  CreateUser : User → DB → option Error * DB;
  UpdateUser : User → DB → option Error * DB;
  DeleteUser : string → DB → option Error * DB;
  BlockUser : string → DB → option Error * DB;
  UnblockUser : string → DB → option Error * DB
}.

#[export] Instance MemoryDatabase_Database `{GoRuntime}
    : Database memorydatabase.MemoryDatabase := {|
  GetVLANs := memorydatabase.GetVLANs;
  GetVLAN := memorydatabase.GetVLAN;
  GetUser := memorydatabase.GetUser;
  GetUserByDescription := memorydatabase.GetUserByDescription;
  IsUserBlocked := memorydatabase.IsUserBlocked;
  CreateUser := memorydatabase.CreateUser;
  UpdateUser := memorydatabase.UpdateUser;
  DeleteUser := memorydatabase.DeleteUser;
  BlockUser := memorydatabase.BlockUser;
  UnblockUser := memorydatabase.UnblockUser
|}.

Section flows.
Context {DB : Type} `{Database DB}.
Variable randomID : nat → string.
Variable extractUsernameFromNewDeviceMessage : string → string.
Variable extractUsernameFromEditDeviceMessage : string → string.

(** The bot: the database, the allowed chats, the caches of the two flows,
    the number of ids read so far and the calls to the chat delivered so
    far, oldest first. *)
Record Bot := mkBot {
  db : DB;
  chatIDs : list Z;
  newDeviceCache : Cache string newDeviceData;
  editDeviceCache : Cache string editDeviceData;
  drawn : nat;
  outbox : list Action
}.

Definition set_db (d : DB) (b : Bot) : Bot :=
  {| db := d; chatIDs := chatIDs b; newDeviceCache := newDeviceCache b;
     editDeviceCache := editDeviceCache b; drawn := drawn b;
     outbox := outbox b |}.

Definition set_newDeviceCache (c : Cache string newDeviceData) (b : Bot)
    : Bot :=
  {| db := db b; chatIDs := chatIDs b; newDeviceCache := c;
     editDeviceCache := editDeviceCache b; drawn := drawn b;
     outbox := outbox b |}.

Definition set_editDeviceCache (c : Cache string editDeviceData) (b : Bot)
    : Bot :=
  {| db := db b; chatIDs := chatIDs b; newDeviceCache := newDeviceCache b;
     editDeviceCache := c; drawn := drawn b; outbox := outbox b |}.

Definition set_drawn (n : nat) (b : Bot) : Bot :=
  {| db := db b; chatIDs := chatIDs b; newDeviceCache := newDeviceCache b;
     editDeviceCache := editDeviceCache b; drawn := n;
     outbox := outbox b |}.

Definition set_outbox (o : list Action) (b : Bot) : Bot :=
  {| db := db b; chatIDs := chatIDs b; newDeviceCache := newDeviceCache b;
     editDeviceCache := editDeviceCache b; drawn := drawn b;
     outbox := o |}.

(** The bot as [NewBotServer] leaves it. *)
Definition newBot (d : DB) (chats : list Z) : Bot :=
  {| db := d; chatIDs := chats;
     newDeviceCache := NewLRUCache newDeviceDataCacheSize;
     editDeviceCache := NewLRUCache editDeviceDataCacheSize;
     drawn := 0; outbox := [] |}.

Definition createRandomID (b : Bot) : string * Bot :=
  (randomID (drawn b), set_drawn (S (drawn b)) b).

(** [c.Send] and [c.Edit], and what the handlers return after them. *)
Definition deliver (c : Context) (a : Action) (b : Bot) : Outcome * Bot :=
  if cFails c (length (outbox b)) then (Returned (Some ErrChat), b)
  else (Returned None, set_outbox (outbox b ++ [a]) b).

(** The body of the loop that lays the VLAN buttons out: a new row for
    every third button, else the button joins the last row, which has to
    exist. *)
Definition appendButton (i : nat) (btn : InlineButton) (kb : ReplyMarkup)
    : option ReplyMarkup :=
  if (i mod 3 =? 0)%nat then Some (kb ++ [[btn]])%list
  else
    match kb !! (length kb - 1)%nat with
    | None => None
    | Some row => Some (<[(length kb - 1)%nat := (row ++ [btn])%list]> kb)
    end.

(** The loop over the VLANs, from index [i] on.  [getDataID] stores what
    the button stands for and returns the id it stored it under. *)
Fixpoint vlanButtons (unique : string)
    (getDataID : string → Bot → string * Bot)
    (i : nat) (vlans : list VLAN) (kb : ReplyMarkup) (b : Bot)
    : option ReplyMarkup * Bot :=
  match vlans with
  | [] => (Some kb, b)
  | vlan :: rest =>
      let '(selectedDataID, b) := getDataID (ID vlan) b in
      let btn := {| Text := capVLAN (Name vlan); Unique := unique;
                    Data := selectedDataID |} in
      match appendButton i btn kb with
      | None => (None, b)
      | Some kb => vlanButtons unique getDataID (S i) rest kb b
      end
  end.

Definition buildVLANSelectMenu (selectVLANUnique : string)
    (getDataID : string → Bot → string * Bot) (b : Bot)
    : option (result ReplyMarkup) * Bot :=
  match GetVLANs (db b) with
  | Err e => (Some (Err e), b)
  | Ok vlans =>
      match vlanButtons selectVLANUnique getDataID 0 vlans [] b with
      | (None, b) => (None, b)
      | (Some m, b) => (Some (Ok m), b)
      end
  end.

(** *** The new-device flow *)

Definition createNotifyMessage (now : string) (data : newDeviceData)
    (b : Bot) : Message * ReplyMarkup * Bot :=
  let '(dataID, b) := createRandomID b in
  let b := set_newDeviceCache (Set_ dataID data (newDeviceCache b)) b in
  let btnAdd :=
    {| Text := capAddDevice; Unique := btnAddUnique; Data := dataID |} in
  let btnIgnore :=
    {| Text := capIgnoreRequest; Unique := btnIgnoreUnique;
       Data := dataID |} in
  let btnBlock :=
    {| Text := capBlockDevice; Unique := btnBlocklistUnique;
       Data := dataID |} in
  (msgNewDevice (nd_Username data) (nd_MacAddress data) now,
   [[btnAdd]; [btnIgnore]; [btnBlock]], b).

(** What the Add handler stores for the button of a VLAN. *)
Definition storeSelection (data : newDeviceData) (vlanID : string) (b : Bot)
    : string * Bot :=
  let selectedData :=
    {| nd_Username := nd_Username data; nd_Password := nd_Password data;
       nd_VlanID := vlanID; nd_MacAddress := nd_MacAddress data;
       nd_Description := "" |} in
  let '(selectedDataID, b) := createRandomID b in
  (selectedDataID,
   set_newDeviceCache (Set_ selectedDataID selectedData (newDeviceCache b))
     b).

Definition onAdd (c : Context) (b : Bot) : Outcome * Bot :=
  let dataID := cData c in
  let '(data, ok, cache) :=
    Get nilNewDeviceData dataID (newDeviceCache b) in
  let b := set_newDeviceCache cache b in
  if negb ok then (Returned (Some ErrFailedToReadData), b)
  else
    match GetVLANs (db b) with
    | Err e => (Returned (Some (ErrDatabase e)), b)
    | Ok vlans =>
        match vlanButtons btnSelectVLANUnique (storeSelection data)
                0 vlans [] b with
        | (None, b) => (Panicked, b)
        | (Some m, b) =>
            let btn :=
              {| Text := capBack; Unique := btnBackAddUnique;
                 Data := dataID |} in
            let m := (m ++ [[btn]])%list in
            deliver c (Edit (msgSelectNetwork (nd_Username data)) (Some m)) b
        end
    end.

Definition onSelectVLAN (c : Context) (b : Bot) : Outcome * Bot :=
  let '(data, ok, cache) :=
    Get nilNewDeviceData (cData c) (newDeviceCache b) in
  let b := set_newDeviceCache cache b in
  if negb ok then (Returned (Some ErrFailedToReadData), b)
  else
    match GetVLAN (nd_VlanID data) (db b) with
    | Err e => (Returned (Some (ErrDatabase e)), b)
    | Ok vlan =>
        match CreateUser {| Username := nd_Username data;
                            Password := nd_Password data;
                            VlanID := ID vlan; Description := "" |}
                (db b) with
        | (Some e, d) => (Returned (Some (ErrDatabase e)), set_db d b)
        | (None, d) =>
            deliver c (Edit (msgAdded (nd_Username data) (Name vlan)) None)
              (set_db d b)
        end
    end.

(** The first of the two handlers of text messages: a reply to the message
    that confirms an addition names the device. *)
Definition onReplyToNewDevice (c : Context) (b : Bot) : Outcome * Bot :=
  match cReplyTo c with
  | None => (Returned None, b)
  | Some original =>
      let username := extractUsernameFromNewDeviceMessage original in
      if bool_decide (username = "") then (Returned None, b)
      else
        match GetUser username (db b) with
        | Err _ => (Returned None, b)
        | Ok user =>
            let user :=
              {| Username := Username user; Password := Password user;
                 VlanID := VlanID user; Description := cText c |} in
            match UpdateUser user (db b) with
            | (Some e, d) => (Returned (Some (ErrDatabase e)), set_db d b)
            | (None, d) =>
                deliver c
                  (Send (msgSavedName (Description user) (Username user))
                     None)
                  (set_db d b)
            end
        end
  end.

Definition onBackAdd (c : Context) (b : Bot) : Outcome * Bot :=
  let '(data, ok, cache) :=
    Get nilNewDeviceData (cData c) (newDeviceCache b) in
  let b := set_newDeviceCache cache b in
  if negb ok then (Returned (Some ErrFailedToReadData), b)
  else
    let '(msg, markup, b) := createNotifyMessage (cNow c) data b in
    deliver c (Edit msg (Some markup)) b.

Definition onIgnore (c : Context) (b : Bot) : Outcome * Bot :=
  let '(data, ok, cache) :=
    Get nilNewDeviceData (cData c) (newDeviceCache b) in
  let b := set_newDeviceCache cache b in
  if negb ok then (Returned (Some ErrFailedToReadData), b)
  else deliver c (Edit (msgIgnored (nd_Username data)) None) b.

Definition onBlocklist (c : Context) (b : Bot) : Outcome * Bot :=
  let '(data, ok, cache) :=
    Get nilNewDeviceData (cData c) (newDeviceCache b) in
  let b := set_newDeviceCache cache b in
  if negb ok then (Returned (Some ErrFailedToReadData), b)
  else
    match BlockUser (nd_Username data) (db b) with
    | (Some e, d) => (Returned (Some (ErrDatabase e)), set_db d b)
    | (None, d) =>
        deliver c (Edit (msgBlocked (nd_Username data)) None) (set_db d b)
    end.

(** *** The edit-device flow *)

Definition buildEditMessage (username : string) (b : Bot)
    : result (Message * option ReplyMarkup) * Bot :=
  match IsUserBlocked username (db b) with
  | Err e => (Err e, b)
  | Ok blocked =>
      let found := GetUser username (db b) in
      if failed found && negb blocked
      then (Ok (msgUserNotFound username, None), b)
      else
        let user := match found with Ok user => user | Err _ => zeroUser end in
        let finish (vlan : VLAN) :=
          let '(dataID, b) := createRandomID b in
          let b :=
            set_editDeviceCache
              (Set_ dataID {| ed_Username := username; ed_VlanID := "" |}
                 (editDeviceCache b)) b in
          let btnChangeVLAN :=
            {| Text := capChangeVLAN; Unique := btnEditChangeVLANUnique;
               Data := dataID |} in
          let btnBlock :=
            {| Text := capBlock; Unique := btnEditBlockUnique;
               Data := dataID |} in
          let btnUnblock :=
            {| Text := capUnblock; Unique := btnEditUnblockUnique;
               Data := dataID |} in
          let btnDelete :=
            {| Text := capDelete; Unique := btnEditDeleteUnique;
               Data := dataID |} in
          let m :=
            if blocked then [[btnUnblock]; [btnDelete]]
            else [[btnChangeVLAN]; [btnBlock]; [btnDelete]] in
          (Ok (msgEditDevice blocked (Description user) username (Name vlan),
               Some m), b) in
        match GetVLAN (VlanID user) (db b) with
        | Ok vlan => finish vlan
        | Err e =>
            if bool_decide (VlanID user = "") then finish zeroVLAN
            else (Err e, b)
        end
  end.

Definition onEditCommand (c : Context) (b : Bot) : Outcome * Bot :=
  let username := cPayload c in
  if bool_decide (username = "") then deliver c (Send msgEditUsage None) b
  else
    let username :=
      match GetUserByDescription username (db b) with
      | Ok user => Username user
      | Err _ => username
      end in
    match buildEditMessage username b with
    | (Err e, b) => (Returned (Some (ErrDatabase e)), b)
    | (Ok (msg, markup), b) => deliver c (Send msg markup) b
    end.

(** What the change-VLAN handler stores for the button of a VLAN. *)
Definition storeEditSelection (data : editDeviceData) (vlanID : string)
    (b : Bot) : string * Bot :=
  let '(dataID, b) := createRandomID b in
  (dataID,
   set_editDeviceCache
     (Set_ dataID {| ed_Username := ed_Username data; ed_VlanID := vlanID |}
        (editDeviceCache b)) b).

Definition onEditChangeVLAN (c : Context) (b : Bot) : Outcome * Bot :=
  let dataID := cData c in
  let '(data, ok, cache) :=
    Get nilEditDeviceData dataID (editDeviceCache b) in
  let b := set_editDeviceCache cache b in
  if negb ok then (Returned (Some ErrFailedToReadData), b)
  else
    match buildVLANSelectMenu btnEditSelectVLANUnique
            (storeEditSelection data) b with
    | (None, b) => (Panicked, b)
    | (Some (Err e), b) => (Returned (Some (ErrDatabase e)), b)
    | (Some (Ok markup), b) =>
        let btn :=
          {| Text := capBack; Unique := btnEditBackUnique;
             Data := dataID |} in
        let markup := (markup ++ [[btn]])%list in
        deliver c (Edit (msgSelectNewVLAN (ed_Username data)) (Some markup)) b
    end.

(** The tail the block, unblock, back and select handlers share: the edit
    message is built anew and the message edited. *)
Definition showEditMessage (c : Context) (username : string) (b : Bot)
    : Outcome * Bot :=
  match buildEditMessage username b with
  | (Err e, b) => (Returned (Some (ErrDatabase e)), b)
  | (Ok (msg, markup), b) => deliver c (Edit msg markup) b
  end.

Definition onEditBlock (c : Context) (b : Bot) : Outcome * Bot :=
  let '(data, ok, cache) :=
    Get nilEditDeviceData (cData c) (editDeviceCache b) in
  let b := set_editDeviceCache cache b in
  if negb ok then (Returned (Some ErrFailedToReadData), b)
  else
    match BlockUser (ed_Username data) (db b) with
    | (Some e, d) => (Returned (Some (ErrDatabase e)), set_db d b)
    | (None, d) => showEditMessage c (ed_Username data) (set_db d b)
    end.

Definition onEditUnblock (c : Context) (b : Bot) : Outcome * Bot :=
  let '(data, ok, cache) :=
    Get nilEditDeviceData (cData c) (editDeviceCache b) in
  let b := set_editDeviceCache cache b in
  if negb ok then (Returned (Some ErrFailedToReadData), b)
  else
    match UnblockUser (ed_Username data) (db b) with
    | (Some e, d) => (Returned (Some (ErrDatabase e)), set_db d b)
    | (None, d) => showEditMessage c (ed_Username data) (set_db d b)
    end.

Definition onEditDelete (c : Context) (b : Bot) : Outcome * Bot :=
  let '(data, ok, cache) :=
    Get nilEditDeviceData (cData c) (editDeviceCache b) in
  let b := set_editDeviceCache cache b in
  if negb ok then (Returned (Some ErrFailedToReadData), b)
  else
    match DeleteUser (ed_Username data) (db b) with
    | (Some e, d) => (Returned (Some (ErrDatabase e)), set_db d b)
    | (None, d) =>
        deliver c (Edit (msgDeleted (ed_Username data)) None) (set_db d b)
    end.

(** The second handler of text messages: a reply to an edit message names
    the device.  A blocked username without a device is unblocked, which
    creates the device, and blocked again. *)
Definition onReplyToEditDevice (c : Context) (b : Bot) : Outcome * Bot :=
  match cReplyTo c with
  | None => (Returned None, b)
  | Some original =>
      let username := extractUsernameFromEditDeviceMessage original in
      if bool_decide (username = "") then (Returned None, b)
      else
        let rename (user : User) (b : Bot) :=
          let user :=
            {| Username := Username user; Password := Password user;
               VlanID := VlanID user; Description := cText c |} in
          match UpdateUser user (db b) with
          | (Some e, d) => (Returned (Some (ErrDatabase e)), set_db d b)
          | (None, d) =>
              deliver c
                (Send (msgSavedName (Description user) (Username user)) None)
                (set_db d b)
          end in
        match GetUser username (db b) with
        | Ok user => rename user b
        | Err _ =>
            match IsUserBlocked username (db b) with
            | Err _ | Ok false => (Returned None, b)
            | Ok true =>
                match UnblockUser username (db b) with
                | (Some e, d) =>
                    (Returned (Some (ErrDatabase e)), set_db d b)
                | (None, d) =>
                    let b := set_db d b in
                    match BlockUser username (db b) with
                    | (Some e, d) =>
                        (Returned (Some (ErrDatabase e)), set_db d b)
                    | (None, d) =>
                        let b := set_db d b in
                        match GetUser username (db b) with
                        | Err e => (Returned (Some (ErrDatabase e)), b)
                        | Ok user => rename user b
                        end
                    end
                end
            end
        end
  end.

Definition onEditBack (c : Context) (b : Bot) : Outcome * Bot :=
  let '(data, ok, cache) :=
    Get nilEditDeviceData (cData c) (editDeviceCache b) in
  let b := set_editDeviceCache cache b in
  if negb ok then (Returned (Some ErrFailedToReadData), b)
  else showEditMessage c (ed_Username data) b.

Definition onEditSelectVLAN (c : Context) (b : Bot) : Outcome * Bot :=
  let '(data, ok, cache) :=
    Get nilEditDeviceData (cData c) (editDeviceCache b) in
  let b := set_editDeviceCache cache b in
  if negb ok then (Returned (Some ErrFailedToReadData), b)
  else
    match GetVLAN (ed_VlanID data) (db b) with
    | Err e => (Returned (Some (ErrDatabase e)), b)
    | Ok vlan =>
        match GetUser (ed_Username data) (db b) with
        | Err e => (Returned (Some (ErrDatabase e)), b)
        | Ok user =>
            let user :=
              {| Username := Username user; Password := Password user;
                 VlanID := ID vlan; Description := Description user |} in
            match UpdateUser user (db b) with
            | (Some e, d) => (Returned (Some (ErrDatabase e)), set_db d b)
            | (None, d) => showEditMessage c (ed_Username data) (set_db d b)
            end
        end
    end.

(** *** What the bot registers *)

(** The handler of [tele.OnText]: the text handlers in the order they were
    registered, up to the first error. *)
Definition onText (c : Context) (b : Bot) : Outcome * Bot :=
  match onReplyToNewDevice c b with
  | (Returned None, b) => onReplyToEditDevice c b
  | r => r
  end.

(** The handler a button's unique is registered with, if any. *)
Definition handlerOf (unique : string)
    : option (Context → Bot → Outcome * Bot) :=
  if bool_decide (unique = btnAddUnique) then Some onAdd
  else if bool_decide (unique = btnSelectVLANUnique) then Some onSelectVLAN
  else if bool_decide (unique = btnBackAddUnique) then Some onBackAdd
  else if bool_decide (unique = btnIgnoreUnique) then Some onIgnore
  else if bool_decide (unique = btnBlocklistUnique) then Some onBlocklist
  else if bool_decide (unique = btnEditChangeVLANUnique)
  then Some onEditChangeVLAN
  else if bool_decide (unique = btnEditBlockUnique) then Some onEditBlock
  else if bool_decide (unique = btnEditUnblockUnique) then Some onEditUnblock
  else if bool_decide (unique = btnEditDeleteUnique) then Some onEditDelete
  else if bool_decide (unique = btnEditBackUnique) then Some onEditBack
  else if bool_decide (unique = btnEditSelectVLANUnique)
  then Some onEditSelectVLAN
  else None.

(** A press of a button: the handler of its unique runs with its data. *)
Definition press (btn : InlineButton) (now : string) (fails : nat → bool)
    (b : Bot) : Outcome * Bot :=
  match handlerOf (Unique btn) with
  | Some handler =>
      handler {| cData := Data btn; cPayload := ""; cText := "";
                 cReplyTo := None; cNow := now; cFails := fails |} b
  | None => (Returned None, b)
  end.

(** [NotifyLoginAttempt]: a message of its own for every chat, each with a
    fresh id.  A send that fails is logged and the loop goes on; [now] and
    [fails] are indexed by the position in [chatIDs]. *)
Fixpoint notifyChats (now : nat → string) (fails : nat → bool) (i : nat)
    (chats : list Z) (data : newDeviceData) (b : Bot) : Bot :=
  match chats with
  | [] => b
  | chatID :: rest =>
      let '(msg, markup, b) := createNotifyMessage (now i) data b in
      let b :=
        if fails i then b
        else set_outbox (outbox b ++ [SendTo chatID msg (Some markup)]) b in
      notifyChats now fails (S i) rest data b
  end.

Definition NotifyLoginAttempt (now : nat → string) (fails : nat → bool)
    (username password macAddress : string) (b : Bot) : Bot :=
  let data :=
    {| nd_Username := username; nd_Password := password; nd_VlanID := "";
       nd_MacAddress := macAddress; nd_Description := "" |} in
  notifyChats now fails 0 (chatIDs b) data b.

End flows.

Arguments Bot : clear implicits.

(** The chat allowlist as [NewBotServer] converts it: the first id that
    [strconv.Atoi] refuses makes it return an error. *)
Fixpoint allowedChats (ids : list string) : option (list Z) :=
  match ids with
  | [] => Some []
  | id :: rest =>
      if config.Atoi_fails id then None
      else (λ l, Atoi id :: l) <$> allowedChats rest
  end.

End telegram.

(** ** What the flows are measured against *)

Module telegram_spec.
Import lru telegram.

(** Rows of three, the last one of what is left. *)
Fixpoint chunk3 {A} (l : list A) : list (list A) :=
  match l with
  | a :: b :: c :: rest => [a; b; c] :: chunk3 rest
  | [] => []
  | _ => [l]
  end.

Section flows.
Context {DB : Type} `{Database DB}.

(** The buttons of the VLAN menu in the order of the listing, and the bot
    after [getDataID] has stored what each stands for. *)
Fixpoint buttonsOf (unique : string)
    (getDataID : string → Bot DB → string * Bot DB)
    (vlans : list VLAN) (b : Bot DB) : list InlineButton * Bot DB :=
  match vlans with
  | [] => ([], b)
  | vlan :: rest =>
      let '(selectedDataID, b) := getDataID (ID vlan) b in
      let '(btns, b) := buttonsOf unique getDataID rest b in
      ({| Text := capVLAN (Name vlan); Unique := unique;
          Data := selectedDataID |} :: btns, b)
  end.

End flows.

(** The calls to [Set] that store [vs] under the ids drawn from the
    [d0]-th on. *)
Fixpoint setsOf {V} (randomID : nat → string) (d0 : nat) (vs : list V)
    : list (Op string V) :=
  match vs with
  | [] => []
  | v :: vs => opSet (randomID d0) v :: setsOf randomID (S d0) vs
  end.

(** What the button of a VLAN stands for in the new-device flow. *)
Definition selected (data : newDeviceData) (vlan : VLAN) : newDeviceData :=
  {| nd_Username := nd_Username data; nd_Password := nd_Password data;
     nd_VlanID := ID vlan; nd_MacAddress := nd_MacAddress data;
     nd_Description := "" |}.

(** The buttons under a notification, and the buttons of the menu. *)
Definition notifyMarkup (dataID : string) : ReplyMarkup :=
  [[{| Text := capAddDevice; Unique := btnAddUnique; Data := dataID |}];
   [{| Text := capIgnoreRequest; Unique := btnIgnoreUnique;
       Data := dataID |}];
   [{| Text := capBlockDevice; Unique := btnBlocklistUnique;
       Data := dataID |}]].

Definition vlanButton (vlan : VLAN) (dataID : string) : InlineButton :=
  {| Text := capVLAN (Name vlan); Unique := btnSelectVLANUnique;
     Data := dataID |}.

Definition backButton (dataID : string) : InlineButton :=
  {| Text := capBack; Unique := btnBackAddUnique; Data := dataID |}.

(** The n-th id is the letter "a" n times: a stand-in for the ids read
    from [crypto/rand], pairwise different like them. *)
Fixpoint idOf (n : nat) : string :=
  match n with
  | 0 => ""
  | S n => String "a" (idOf n)
  end.

(** Scenario S1 at the bot: two chats are allowed, nothing is pending. *)
Definition botS1 : Bot memorydatabase.MemoryDatabase :=
  newBot fixtures.registryS1 [42%Z; 43%Z].

Definition requestS1 : radiusserver.Request :=
  fixtures.accessRequest fixtures.station fixtures.station fixtures.station.

(** The station of S1 with VLAN 20 chosen, pending under the token "tok". *)
Definition pendingS1 : newDeviceData :=
  {| nd_Username := fixtures.station; nd_Password := fixtures.station;
     nd_VlanID := "20"; nd_MacAddress := fixtures.station;
     nd_Description := "" |}.

Definition botPending : Bot memorydatabase.MemoryDatabase :=
  set_newDeviceCache
    (Set_ "tok" pendingS1 (NewLRUCache newDeviceDataCacheSize)) botS1.

(** A username is blocked that has no device; an operator replies to
    its edit message with a name. *)
Definition botBlocked : Bot memorydatabase.MemoryDatabase :=
  set_db (memorydatabase.BlockUser "de:ad:be:ef:00:01" fixtures.registryS1).2
    botS1.

Definition replyS1 : Context :=
  {| cData := ""; cPayload := ""; cText := "printer";
     cReplyTo := Some "Username: de:ad:be:ef:00:01";
     cNow := "Mon, 02 Jan 2006 15:04:05 MST"; cFails := λ _, false |}.

(** The device of S3 is being edited, VLAN 1 chosen, under "tok". *)
Definition botEditing : Bot memorydatabase.MemoryDatabase :=
  set_editDeviceCache
    (Set_ "tok" {| ed_Username := fixtures.station; ed_VlanID := "1" |}
       (NewLRUCache editDeviceDataCacheSize))
    (set_db fixtures.registryS3 botS1).

Definition pressedS1 (token : string) : Context :=
  {| cData := token; cPayload := ""; cText := ""; cReplyTo := None;
     cNow := "Mon, 02 Jan 2006 15:04:05 MST"; cFails := λ _, false |}.

End telegram_spec.

(** ** Documents of the registry file *)

Module documents.
Import memorydatabase.

(** What [loadFile] asks of a decoded document: VLAN ids are pairwise
    different, at most one VLAN has [default = true], usernames of devices
    are pairwise different, every device names a VLAN of the document, and
    blocked usernames are pairwise different. *)
Definition accepted (yf : yamldatabase.yamlFile) : Prop :=
  NoDup (ID <$> yamldatabase.VLANs yf) ∧
  (∀ v w, v ∈ yamldatabase.VLANs yf → w ∈ yamldatabase.VLANs yf →
          Default v = true → Default w = true → v = w) ∧
  NoDup (Username <$> yamldatabase.Users yf) ∧
  (∀ u, u ∈ yamldatabase.Users yf →
        VlanID u ∈ ID <$> yamldatabase.VLANs yf) ∧
  NoDup (bu_Username <$> yamldatabase.BlockedUsers yf).

(** The document [dumpFile] encodes for a registry. *)
Definition document `{GoRuntime} (db : MemoryDatabase)
    : yamldatabase.yamlFile :=
  {| yamldatabase.Users := SortFunc cmpUser (mapRange (users db));
     yamldatabase.VLANs := SortFunc cmpVLAN (mapRange (vlans db));
     yamldatabase.BlockedUsers :=
       SortFunc cmpBlockedUser (mapRange (blockedUsers db)) |}.

(** Scenario S3 as a file, with one username on the blocklist. *)
Definition documentS3 : yamldatabase.yamlFile :=
  {| yamldatabase.Users := [fixtures.device fixtures.station "20"];
     yamldatabase.VLANs := [fixtures.vlan1; fixtures.vlan20];
     yamldatabase.BlockedUsers := [mkBlockedUser "de:ad:be:ef:00:01"] |}.

Definition diskS3 : yamldatabase.Disk :=
  yamldatabase.writeFile "/db.yaml" (yamldatabase.Document documentS3)
    fixtures.emptyDisk.

End documents.

(** * Properties *)

Import memorydatabase.

(** ** The concrete runtime meets the contract of [GoRuntime] *)

Module runtime_facts.
Import runtime.

Lemma sift_perm {A} (cmp : A → A → comparison) x r :
  sift cmp x r ≡ₚ x :: r.
Proof.
  induction r as [|y r IH]; simpl; [done|].
  destruct (cmp x y); try done.
  rewrite IH. apply Permutation_swap.
Qed.

Lemma fold_sift_perm {A} (cmp : A → A → comparison) l r :
  fold_left (λ r x, sift cmp x r) l r ≡ₚ l ++ r.
Proof.
  revert r. induction l as [|x l IH]; intros r; simpl; [done|].
  rewrite IH, sift_perm. symmetry. apply Permutation_middle.
Qed.

Lemma insertionSort_perm {A} (cmp : A → A → comparison) l :
  insertionSort cmp l ≡ₚ l.
Proof.
  unfold insertionSort.
  rewrite reverse_Permutation, fold_sift_perm. by rewrite app_nil_r.
Qed.

Section sorted.
Context {A : Type} (cmp : A → A → comparison).
Hypothesis Hswo : StrictWeakOrdering cmp.

Lemma cmp_le_of_not_Lt x y : cmp x y ≠ Lt → cmp_le cmp y x.
Proof.
  intros Hxy Hgt. apply Hxy. by apply (swo_total cmp Hswo).
Qed.

Lemma cmp_le_of_Lt x y : cmp x y = Lt → cmp_le cmp x y.
Proof. unfold cmp_le. congruence. Qed.

Lemma sift_HdRel x z r :
  cmp_le cmp x z → HdRel (flip (cmp_le cmp)) z r →
  HdRel (flip (cmp_le cmp)) z (sift cmp x r).
Proof.
  intros Hxz Hr. destruct r as [|y r]; simpl.
  - by constructor.
  - inversion_clear Hr. destruct (cmp x y); by constructor.
Qed.

Lemma sift_sorted x r :
  Sorted (flip (cmp_le cmp)) r → Sorted (flip (cmp_le cmp)) (sift cmp x r).
Proof.
  induction 1 as [|y r Hr IH Hhd]; simpl.
  - repeat constructor.
  - destruct (cmp x y) eqn:Hc.
    + constructor; [by constructor|]. constructor.
      apply cmp_le_of_not_Lt. congruence.
    + constructor; [done|].
      apply sift_HdRel; [|done]. by apply cmp_le_of_Lt.
    + constructor; [by constructor|]. constructor.
      apply cmp_le_of_not_Lt. congruence.
Qed.

Lemma fold_sift_sorted l r :
  Sorted (flip (cmp_le cmp)) r →
  Sorted (flip (cmp_le cmp)) (fold_left (λ r x, sift cmp x r) l r).
Proof.
  revert r. induction l as [|x l IH]; intros r Hr; simpl; [done|].
  apply IH. by apply sift_sorted.
Qed.

Lemma insertionSort_sorted l :
  StronglySorted (cmp_le cmp) (insertionSort cmp l).
Proof.
  apply Sorted.Sorted_StronglySorted.
  - intros a b c. apply (swo_trans cmp Hswo).
  - unfold insertionSort.
    apply (Sorted_reverse (flip (cmp_le cmp))).
    apply fold_sift_sorted. constructor.
Qed.
End sorted.

#[export] Instance trieOrder : GoRuntime := {|
  ToLower := lower_string;
  mapRange := @values;
  mapRange_perm := λ A m, reflexivity _;
  SortFunc := @insertionSort;
  SortFunc_perm := @insertionSort_perm;
  SortFunc_sorted := λ A cmp l H, insertionSort_sorted cmp H l
|}.

End runtime_facts.

(** ** The registry *)

Module registry_facts.
Import runtime runtime_facts spec fixtures.

(** Ranging over an empty map visits nothing, and sorting nothing gives
    nothing, whatever the runtime. *)
Lemma mapRange_empty `{GoRuntime} {A} : mapRange (∅ : gmap string A) = [].
Proof.
  apply Permutation_nil_r. rewrite mapRange_perm.
  by rewrite map_to_list_empty.
Qed.

Lemma SortFunc_nil `{GoRuntime} {A} (cmp : A → A → comparison) :
  SortFunc cmp [] = [].
Proof. apply Permutation_nil_r, SortFunc_perm. Qed.

Lemma GetVLANs_no_vlans `{GoRuntime} (d : MemoryDatabase) :
  vlans d = ∅ → GetVLANs d = Ok [].
Proof.
  intros Hv. unfold GetVLANs. by rewrite Hv, mapRange_empty, SortFunc_nil.
Qed.

(** The seven mutators other than [UnblockUser] check before they write:
    when they return an error the registry is the one they were given. *)
Lemma error_leaves_registry `{GoRuntime} (m : Mutation) (d d' : MemoryDatabase)
    (e : Error) :
  (∀ u, m ≠ mUnblockUser u) → call m d = (Some e, d') → d' = d.
Proof.
  intros Hm. destruct m; simpl;
    unfold CreateVLAN, UpdateVLAN, DeleteVLAN, CreateUser, UpdateUser,
      DeleteUser, BlockUser, GetVLAN;
    repeat case_match; intros [=]; subst; try done.
  by destruct (Hm username).
Qed.

(** [UnblockUser] on a username that is not blocked changes nothing. *)
Lemma UnblockUser_not_blocked `{GoRuntime} (u : string) (d : MemoryDatabase) :
  blockedUsers d !! u = None →
  UnblockUser u d = (Some ErrBlockedUserNotFound, d).
Proof. intros Hb. unfold UnblockUser. by rewrite Hb. Qed.

(** [UnblockUser] with nothing to assign the new device to: the error is
    returned from the state in which the entry is already deleted. *)
Lemma UnblockUser_no_vlan `{GoRuntime} (u : string) (d : MemoryDatabase) :
  is_Some (blockedUsers d !! u) → users d !! u = None →
  defaultVLAN d = None → vlans d = ∅ →
  UnblockUser u d = (Some ErrVLANNotFound, set_blockedUsers (delete u) d).
Proof.
  intros [b Hb] Hu Hd Hv. unfold UnblockUser. rewrite Hb. simpl users.
  rewrite Hu. unfold GetDefaultVLAN. simpl defaultVLAN. rewrite Hd.
  by rewrite GetVLANs_no_vlans.
Qed.

(** What the three listings return: the values of the map, in some
    order. *)
Lemma sorted_range_perm `{GoRuntime} {A} (cmp : A → A → comparison)
    (m : gmap string A) :
  SortFunc cmp (mapRange m) ≡ₚ (map_to_list m).*2.
Proof. by rewrite SortFunc_perm, mapRange_perm. Qed.

Lemma elem_of_values {A} (m : gmap string A) (x : A) :
  x ∈ (map_to_list m).*2 ↔ ∃ k, m !! k = Some x.
Proof.
  rewrite list_elem_of_fmap. split.
  - intros [[k y] [-> Hin]]. exists k. by apply elem_of_map_to_list.
  - intros [k Hk]. exists (k, x). split; [done|].
    by apply elem_of_map_to_list.
Qed.

(** The three ways [UnblockUser] ends for a blocked username without a
    device. *)
Lemma UnblockUser_cases `{GoRuntime} (u : string) (d : MemoryDatabase) :
  is_Some (blockedUsers d !! u) → users d !! u = None →
  (∃ v, defaultVLAN d = Some v ∧ UnblockUser u d = (None, unblocked u v d)) ∨
  (defaultVLAN d = None ∧ vlans d = ∅ ∧
   UnblockUser u d = (Some ErrVLANNotFound, set_blockedUsers (delete u) d)) ∨
  (defaultVLAN d = None ∧
   ∃ k v, vlans d !! k = Some v ∧ UnblockUser u d = (None, unblocked u v d)).
Proof.
  intros Hb Hu. destruct (defaultVLAN d) as [v|] eqn:Hd.
  - left. exists v. split; [done|]. destruct Hb as [b Hb].
    unfold UnblockUser. rewrite Hb. simpl users. rewrite Hu.
    unfold GetDefaultVLAN. simpl defaultVLAN. by rewrite Hd.
  - right. destruct (map_choose_or_empty (vlans d)) as [Hne | He].
    + right. split; [done|]. destruct Hb as [b Hb].
      unfold UnblockUser. rewrite Hb. simpl users. rewrite Hu.
      unfold GetDefaultVLAN. simpl defaultVLAN. rewrite Hd.
      unfold GetVLANs. simpl vlans.
      destruct (SortFunc cmpVLAN (mapRange (vlans d))) as [|v l] eqn:Hl.
      * exfalso. destruct Hne as (k & v & Hk).
        assert (Hin : v ∈ SortFunc cmpVLAN (mapRange (vlans d))).
        { rewrite sorted_range_perm. apply elem_of_values. eauto. }
        rewrite Hl in Hin. by apply not_elem_of_nil in Hin.
      * assert (Hin : v ∈ SortFunc cmpVLAN (mapRange (vlans d))).
        { rewrite Hl. by left. }
        rewrite sorted_range_perm in Hin.
        apply elem_of_values in Hin as [k Hk]. by exists k, v.
    + left. split; [done|]. split; [done|]. by apply UnblockUser_no_vlan.
Qed.

(** Every registry built by the methods is keyed by the key fields. *)
Lemma keyed_New : keyed NewMemoryDatabase.
Proof. repeat split; intros ? ?; simpl; by rewrite lookup_empty. Qed.

Lemma keyed_insert {A} (key : A → string) (m : gmap string A) (x : A) :
  (∀ k v, m !! k = Some v → key v = k) →
  ∀ k v, <[key x := x]> m !! k = Some v → key v = k.
Proof.
  intros Hm k v [[<- <-]|[_ Hk]]%lookup_insert_Some; [done|by apply Hm].
Qed.

Lemma keyed_delete {A} (key : A → string) (m : gmap string A) (i : string) :
  (∀ k v, m !! k = Some v → key v = k) →
  ∀ k v, delete i m !! k = Some v → key v = k.
Proof. intros Hm k v [_ Hk]%lookup_delete_Some. by apply Hm. Qed.

Ltac keyed_map :=
  first
    [ done
    | apply (keyed_insert ID); done
    | apply (keyed_delete ID); done
    | apply (keyed_insert Username); done
    | apply (keyed_insert Username _ (mkUser _ _ _ _)); done
    | apply (keyed_delete Username); done
    | apply (keyed_insert bu_Username _ (mkBlockedUser _)); done
    | apply (keyed_delete bu_Username); done ].

Lemma keyed_call `{GoRuntime} (m : Mutation) (d : MemoryDatabase) :
  keyed d → keyed (call m d).2.
Proof.
  intros Hk. pose proof Hk as (Kv & Ku & Kb).
  destruct m; simpl;
    unfold CreateVLAN, UpdateVLAN, DeleteVLAN, CreateUser, UpdateUser,
      DeleteUser, BlockUser, UnblockUser, GetVLAN, GetDefaultVLAN, GetVLANs;
    repeat case_match; simpl; (split; [|split]); simpl; keyed_map.
Qed.

(** C10.  A successful [UpdateVLAN] or [DeleteVLAN] leaves the answer of
    [GetDefaultVLAN] as it was, also when the VLAN updated or deleted is the
    default one: neither method writes [defaultVLAN]. *)
Theorem update_delete_keep_default (d d' : MemoryDatabase) (v : VLAN)
    (id : string) :
  UpdateVLAN v d = (None, d') ∨ DeleteVLAN id d = (None, d') →
  GetDefaultVLAN d' = GetDefaultVLAN d.
Proof.
  unfold UpdateVLAN, DeleteVLAN.
  intros [Hop | Hop]; case_match; inversion Hop; done.
Qed.

(** The default VLAN is deleted, or updated with [default = false]:
    [GetDefaultVLAN] still answers with the record that was created. *)
Lemma update_delete_keep_default_witness :
  let d := (CreateVLAN vlan1 NewMemoryDatabase).2 in
  GetDefaultVLAN (DeleteVLAN "1" d).2 = Ok vlan1 ∧
  GetDefaultVLAN (UpdateVLAN (withDefault false vlan1) d).2 = Ok vlan1.
Proof.
  set (d := (CreateVLAN vlan1 NewMemoryDatabase).2).
  split.
  - transitivity (GetDefaultVLAN d); [|reflexivity].
    apply (update_delete_keep_default d _ vlan1 "1").
    right. vm_compute. reflexivity.
  - transitivity (GetDefaultVLAN d); [|reflexivity].
    apply (update_delete_keep_default d _ (withDefault false vlan1) "1").
    left. vm_compute. reflexivity.
Defined.

(** C3 does not hold of the code: a sequence of VLAN mutations on the empty
    registry that ends with two default VLANs.  Two VLANs are created
    without the default flag and then each is updated with [default = true];
    every call returns nil and the registry ends with two VLANs flagged
    default, while [GetDefaultVLAN] knows of none.  [CreateVLAN] guards the
    invariant, [UpdateVLAN] does not. *)
Theorem UpdateVLAN_two_defaults :
  let a := withDefault false vlan1 in
  let b := vlan20 in
  let d1 := (CreateVLAN a NewMemoryDatabase).2 in
  let d2 := (CreateVLAN b d1).2 in
  let d3 := (UpdateVLAN (withDefault true a) d2).2 in
  let d4 := (UpdateVLAN (withDefault true b) d3).2 in
  (CreateVLAN a NewMemoryDatabase).1 = None ∧
  (CreateVLAN b d1).1 = None ∧
  (UpdateVLAN (withDefault true a) d2).1 = None ∧
  (UpdateVLAN (withDefault true b) d3).1 = None ∧
  runVLAN [callCreateVLAN a; callCreateVLAN b;
           callUpdateVLAN (withDefault true a);
           callUpdateVLAN (withDefault true b)] NewMemoryDatabase = d4 ∧
  vlans d4 !! "1" = Some (withDefault true a) ∧
  vlans d4 !! "20" = Some (withDefault true b) ∧
  size (defaultFlagged d4) = 2 ∧
  ¬ V1 d4 ∧
  GetDefaultVLAN d4 = Err ErrDefaultVLANNotFound.
Proof.
  cbv zeta. unfold V1.
  assert (Hsz : size (defaultFlagged
            (UpdateVLAN (withDefault true vlan20)
               (UpdateVLAN (withDefault true (withDefault false vlan1))
                  (CreateVLAN vlan20
                     (CreateVLAN (withDefault false vlan1)
                        NewMemoryDatabase).2).2).2).2) = 2)
    by (vm_compute; reflexivity).
  rewrite Hsz. repeat split; try (vm_compute; reflexivity). lia.
Qed.

(** The same sequence, then a dump and a load under the concrete runtime:
    the loader refuses the file the registry wrote. *)
Lemma two_defaults_do_not_load :
  let d := runVLAN [callCreateVLAN (withDefault false vlan1);
                    callCreateVLAN vlan20;
                    callUpdateVLAN vlan1;
                    callUpdateVLAN (withDefault true vlan20)]
             NewMemoryDatabase in
  let disk := {| yamldatabase.files := ∅; yamldatabase.createDenied := ∅;
                 yamldatabase.writeFails := false |} in
  ∃ disk', yamldatabase.dumpFile "/db.yaml" d disk = (None, disk') ∧
    yamldatabase.loadFile "/db.yaml" disk' = Err ErrDefaultVLANAlreadyExists.
Proof. eexists. split; vm_compute; reflexivity. Qed.

(** C4 does not hold of [UnblockUser]: an error that leaves the registry
    changed.  In a registry with no VLAN and no default VLAN where [u] is
    blocked and has no device, [UnblockUser] returns [ErrVLANNotFound] after
    it has deleted the blocklist entry: the error comes back and [u] is no
    longer blocked. *)
Theorem UnblockUser_error_unblocks `{GoRuntime} :
  let d := (BlockUser "u" NewMemoryDatabase).2 in
  blockedUsers d !! "u" = Some {| bu_Username := "u" |} ∧
  IsUserBlocked "u" d = Ok true ∧
  ∃ d', UnblockUser "u" d = (Some ErrVLANNotFound, d') ∧
        blockedUsers d' !! "u" = None ∧
        IsUserBlocked "u" d' = Ok false ∧
        d' ≠ d.
Proof.
  cbv zeta. split; [reflexivity|]. split; [reflexivity|].
  eexists. split.
  - by apply UnblockUser_no_vlan.
  - split; [reflexivity|]. split; [reflexivity|].
    intros Heq. apply (f_equal (λ d, blockedUsers d !! "u")) in Heq.
    vm_compute in Heq. discriminate.
Qed.

(** In the earlier revision [UnblockUser] creates no device and cannot
    fail for want of a VLAN. *)
Lemma earlier_UnblockUser_creates_no_device (u : string)
    (d : MemoryDatabase) :
  is_Some (blockedUsers d !! u) → users d !! u = None →
  ∃ d', memorydatabase_earlier.UnblockUser u d = (None, d') ∧
        GetUser u d' = Err ErrUserNotFound.
Proof.
  intros [b Hb] Hu. eexists. unfold memorydatabase_earlier.UnblockUser.
  rewrite Hb. split; [done|]. unfold GetUser. simpl. by rewrite Hu.
Qed.




End registry_facts.

(** ** The RADIUS pipeline *)

Module pipeline_facts.
Import radiusserver spec fixtures registry_facts.

(** The ladder over any implementation of the interface. *)
Lemma handler_ladder {DB} `{Database DB} (db : DB) (r : Request) :
  let username := UserName_GetString (reqPacket r) in
  let password := UserPassword_GetString (reqPacket r) in
  let macAddress := CallingStationID_GetString (reqPacket r) in
  (IsUserBlocked username db ≠ Ok false →
     handler db r = (Response r CodeAccessReject, [])) ∧
  (IsUserBlocked username db = Ok false →
   (is_Err (GetUser username db) →
      handler db r =
        (defaultResponse db r,
         [NotifyLoginAttempt username password macAddress])) ∧
   (∀ user, GetUser username db = Ok user →
      (Password user ≠ password →
         handler db r = (Response r CodeAccessReject, [])) ∧
      (Password user = password →
         (is_Err (GetVLAN (VlanID user) db) →
            handler db r = (defaultResponse db r, [])) ∧
         (∀ vlan, GetVLAN (VlanID user) db = Ok vlan →
            handler db r =
              (setPacketVLAN (Response r CodeAccessAccept) vlan, []))))).
Proof.
  cbv zeta. unfold handler, defaultResponse. split.
  - intros Hb. destruct (IsUserBlocked _ db) as [[|]|]; done.
  - intros ->. split.
    + intros He. destruct (GetUser _ db); [done|].
      by destruct (GetDefaultVLAN db).
    + intros user ->. split.
      * intros Hp. by case_bool_decide.
      * intros Hp. case_bool_decide; [done|].
        split.
        -- intros He. destruct (GetVLAN _ db); [done|].
           by destruct (GetDefaultVLAN db).
        -- by intros vlan ->.
Qed.





End pipeline_facts.

(** ** Save-on-mutate *)

Module persistence_facts.
Import yamldatabase spec fixtures runtime runtime_facts registry_facts.

(** C8.  For each of the eight mutators of the YAML-backed registry: when
    the method of the in-memory registry succeeds and the dump that follows
    fails, the call returns the error of the dump, and the registry it
    leaves in memory is the mutated one [m], not the one before the call. *)
Theorem dump_failure_keeps_mutation `{GoRuntime} (c : Mutation)
    (d : YAMLDatabase) (disk : Disk) (m : MemoryDatabase) :
  memorydatabase.call c (memory d) = (None, m) →
  is_Some (save (set_memory m d) disk).1 →
  ∃ e d' disk',
    call c d disk = (Some e, d', disk') ∧
    (save (set_memory m d) disk).1 = Some e ∧
    memory d' = m ∧ filePath d' = filePath d.
Proof.
  intros Hop [e He].
  exists e, (set_memory m d), (save (set_memory m d) disk).2.
  split; [|done].
  destruct c; simpl in Hop |- *;
    unfold CreateVLAN, UpdateVLAN, DeleteVLAN, CreateUser, UpdateUser,
      DeleteUser, BlockUser, UnblockUser;
    rewrite Hop; destruct (save (set_memory m d) disk) as [o disk'];
    simpl in He; by subst o.
Qed.

(** A device is created and a username blocked while the file cannot be
    created: both calls return an error, and the device and the blocklist
    entry are in the in-memory registry afterwards. *)
Lemma dump_failure_keeps_mutation_witness :
  let d := {| filePath := "/db.yaml"; memory := registryS1 |} in
  let disk := deniedDisk "/db.yaml" in
  (∃ e d' disk',
     call (mCreateUser (device "aa" "20")) d disk = (Some e, d', disk') ∧
     GetUser "aa" d' = Ok (device "aa" "20")) ∧
  (∃ e d' disk',
     call (mBlockUser "aa") d disk = (Some e, d', disk') ∧
     IsUserBlocked "aa" d' = Ok true).
Proof.
  cbv zeta. split.
  - destruct (dump_failure_keeps_mutation (mCreateUser (device "aa" "20"))
      {| filePath := "/db.yaml"; memory := registryS1 |}
      (deniedDisk "/db.yaml")
      (memorydatabase.CreateUser (device "aa" "20")
         registryS1).2)
      as (e & d' & disk' & Hc & _ & Hm & _).
    + vm_compute. reflexivity.
    + vm_compute. eexists. reflexivity.
    + exists e, d', disk'. split; [exact Hc|].
      unfold GetUser. rewrite Hm. vm_compute. reflexivity.
  - destruct (dump_failure_keeps_mutation (mBlockUser "aa")
      {| filePath := "/db.yaml"; memory := registryS1 |}
      (deniedDisk "/db.yaml")
      (memorydatabase.BlockUser "aa" registryS1).2)
      as (e & d' & disk' & Hc & _ & Hm & _).
    + vm_compute. reflexivity.
    + vm_compute. eexists. reflexivity.
    + exists e, d', disk'. split; [exact Hc|].
      unfold IsUserBlocked. rewrite Hm. vm_compute. reflexivity.
Defined.

End persistence_facts.

(** ** The order of the listings *)

Module ordering_facts.
Import runtime runtime_facts spec fixtures registry_facts.

Lemma string_le_trans (s1 s2 s3 : string) :
  string_le s1 s2 → string_le s2 s3 → string_le s1 s3.
Proof.
  unfold string_le. revert s2 s3.
  induction s1 as [|c1 s1 IH]; intros [|c2 s2] [|c3 s3]; simpl; try done.
  unfold Ascii.compare.
  destruct (N.compare_spec (N_of_ascii c1) (N_of_ascii c2)) as [E12|L12|G12];
    destruct (N.compare_spec (N_of_ascii c2) (N_of_ascii c3)) as [E23|L23|G23];
    try done.
  - rewrite E12, E23, N.compare_refl. apply IH.
  - intros _ _. rewrite E12.
    by rewrite (proj2 (N.compare_lt_iff _ _) L23).
  - intros _ _. rewrite <- E23.
    by rewrite (proj2 (N.compare_lt_iff _ _) L12).
  - intros _ _.
    by rewrite (proj2 (N.compare_lt_iff _ _) (N.lt_trans _ _ _ L12 L23)).
Qed.

Lemma cmp_Compare_string_swo : StrictWeakOrdering cmp_Compare_string.
Proof.
  split.
  - intros a b. unfold cmp_Compare_string.
    rewrite String.compare_antisym. by destruct (String.compare b a).
  - intros a b c. apply string_le_trans.
Qed.

Lemma cmp_Compare_int_swo : StrictWeakOrdering cmp_Compare_int.
Proof.
  split.
  - intros a b. unfold cmp_Compare_int. rewrite Z.compare_antisym.
    by destruct (Z.compare b a).
  - intros a b c. unfold cmp_le, cmp_Compare_int. apply Z.le_trans.
Qed.

(** Comparing by a key inherits the ordering of the keys. *)
Lemma swo_by_key {A K} (key : A → K) (cmp : K → K → comparison) :
  StrictWeakOrdering cmp → StrictWeakOrdering (λ a b, cmp (key a) (key b)).
Proof.
  intros [Ht Hr]. split.
  - intros a b. apply Ht.
  - intros a b c. apply Hr.
Qed.

Lemma cmpVLAN_swo : StrictWeakOrdering cmpVLAN.
Proof. apply (swo_by_key (λ v, Atoi (ID v))), cmp_Compare_int_swo. Qed.

Lemma cmpUser_swo `{GoRuntime} : StrictWeakOrdering cmpUser.
Proof.
  apply (swo_by_key (λ u, ToLower (Username u))), cmp_Compare_string_swo.
Qed.

Lemma cmpBlockedUser_swo `{GoRuntime} : StrictWeakOrdering cmpBlockedUser.
Proof.
  apply (swo_by_key (λ b, ToLower (bu_Username b))), cmp_Compare_string_swo.
Qed.

(** Two runtimes that differ from the concrete one in a single choice: the
    sort puts entries that compare equal in the opposite order, or the map
    is visited in the opposite order. *)
Definition tiesReversed : GoRuntime := {|
  ToLower := lower_string;
  mapRange := @values;
  mapRange_perm := λ A m, reflexivity _;
  SortFunc := λ A cmp l, insertionSort cmp (reverse l);
  SortFunc_perm := λ A cmp l,
    transitivity (insertionSort_perm cmp (reverse l)) (reverse_Permutation l);
  SortFunc_sorted := λ A cmp l Hs, insertionSort_sorted cmp Hs (reverse l)
|}.

Definition rangeReversed : GoRuntime := {|
  ToLower := lower_string;
  mapRange := λ A m, reverse (values m);
  mapRange_perm := λ A m, reverse_Permutation (values m);
  SortFunc := @insertionSort;
  SortFunc_perm := @insertionSort_perm;
  SortFunc_sorted := λ A cmp l Hs, insertionSort_sorted cmp Hs l
|}.



End ordering_facts.

(** ** Dump and load *)

Module roundtrip_facts.
Import yamldatabase memorydatabase spec fixtures runtime runtime_facts
  registry_facts.

(** A listing of a keyed map, in any order, rebuilds the map. *)
Lemma keyed_listing {A} (key : A → string) (m : gmap string A) (l : list A) :
  (∀ k v, m !! k = Some v → key v = k) →
  l ≡ₚ (map_to_list m).*2 →
  list_to_map ((λ v, (key v, v)) <$> l) = m ∧ NoDup (key <$> l).
Proof.
  intros Hk Hp.
  assert (Hm : (λ v, (key v, v)) <$> (map_to_list m).*2 = map_to_list m).
  { rewrite <- list_fmap_compose.
    rewrite <- (list_fmap_id (map_to_list m)) at 2.
    apply Forall_fmap_ext_1, Forall_forall. intros [k v] Hin. simpl.
    apply elem_of_map_to_list in Hin. by rewrite (Hk k v Hin). }
  assert (Hq : (λ v, (key v, v)) <$> l ≡ₚ map_to_list m).
  { by rewrite Hp, Hm. }
  assert (Hnd : NoDup (((λ v, (key v, v)) <$> l).*1)).
  { rewrite Hq. apply NoDup_fst_map_to_list. }
  split.
  - rewrite (list_to_map_proper _ _ Hnd Hq). apply list_to_map_to_list.
  - by rewrite <- list_fmap_compose in Hnd.
Qed.

Lemma registry_eq (d d' : MemoryDatabase) :
  users d' = users d → vlans d' = vlans d →
  blockedUsers d' = blockedUsers d → defaultVLAN d' = defaultVLAN d →
  d' = d.
Proof. destruct d, d'. simpl. by intros -> -> -> ->. Qed.

(** Under V1 the flagged VLAN is unique. *)
Lemma flagged_unique (d : MemoryDatabase) (k1 k2 : string) (v1 v2 : VLAN) :
  V1 d → vlans d !! k1 = Some v1 → vlans d !! k2 = Some v2 →
  Default v1 = true → Default v2 = true → k1 = k2.
Proof.
  unfold V1, defaultFlagged. intros Hsz H1 H2 D1 D2.
  destruct (decide (k1 = k2)) as [|Hne]; [done|exfalso].
  set (fm := filter (λ kv : string * VLAN, Default kv.2 = true) (vlans d))
    in Hsz.
  assert (F1 : fm !! k1 = Some v1) by by apply map_lookup_filter_Some.
  assert (F2 : fm !! k2 = Some v2) by by apply map_lookup_filter_Some.
  assert (Hz : size (delete k1 fm) = 0).
  { rewrite map_size_delete_Some by eauto. lia. }
  apply map_size_empty_inv in Hz.
  assert (Hl : delete k1 fm !! k2 = Some v2) by by rewrite lookup_delete_ne.
  by rewrite Hz, lookup_empty in Hl.
Qed.

(** The three loops of [loadFile]. *)
Lemma forEach_CreateVLAN (l : list VLAN) (d0 : MemoryDatabase) :
  NoDup (ID <$> l) →
  (∀ v, v ∈ l → vlans d0 !! ID v = None) →
  (∀ v, v ∈ l → Default v = true →
     defaultVLAN d0 = None ∧ ∀ w, w ∈ l → Default w = true → w = v) →
  ∃ d1, forEach CreateVLAN l d0 = (None, d1) ∧
    vlans d1 = list_to_map ((λ v, (ID v, v)) <$> l) ∪ vlans d0 ∧
    users d1 = users d0 ∧ blockedUsers d1 = blockedUsers d0 ∧
    (∀ v, defaultVLAN d1 = Some v ↔
          defaultVLAN d0 = Some v ∨ (v ∈ l ∧ Default v = true)).
Proof.
  revert d0. induction l as [|v l IH]; intros d0 Hnd Hfresh Hflag.
  - exists d0. simpl. split; [done|]. rewrite (left_id_L ∅ (∪)).
    repeat split; try done; [by left|].
    intros [?|[Hin _]]; [done|]. by apply not_elem_of_nil in Hin.
  - rewrite fmap_cons, NoDup_cons in Hnd. destruct Hnd as [Hv Hnd]. simpl.
    assert (Hother : ∀ w, w ∈ l → ID w ≠ ID v).
    { intros w Hw Heq. apply Hv. rewrite <- Heq.
      by apply list_elem_of_fmap_2. }
    unfold CreateVLAN at 1. rewrite (Hfresh v) by by left.
    destruct (Default v) eqn:Hdv.
    + destruct (Hflag v) as [Hd0 Huniq]; [by left|done|]. rewrite Hd0.
      destruct (IH (set_vlans (insert (ID v) v) (set_defaultVLAN (Some v) d0)))
        as (d1 & Hrun & Hvl & Hus & Hbl & Hdef); [done| | |].
      * intros w Hw. simpl. rewrite lookup_insert_ne by by apply not_eq_sym, Hother.
        apply Hfresh. by right.
      * intros w Hw Hdw. exfalso. apply (Hother w Hw).
        f_equal. apply Huniq; [by right|done].
      * exists d1. split; [done|]. simpl in *. rewrite Hvl, Hus, Hbl.
        split; [|split; [done|split; [done|]]].
        -- rewrite <- insert_union_l. symmetry. apply insert_union_r.
           apply not_elem_of_list_to_map. by rewrite <- list_fmap_compose.
        -- intros w. rewrite Hdef, elem_of_cons. split.
           ++ intros [[= <-]|[Hw Hdw]]; right; auto.
           ++ intros [?|[[->|Hw] Hdw]]; [done|by left|right; auto].
    + destruct (IH (set_vlans (insert (ID v) v) d0))
        as (d1 & Hrun & Hvl & Hus & Hbl & Hdef); [done| | |].
      * intros w Hw. simpl. rewrite lookup_insert_ne by by apply not_eq_sym, Hother.
        apply Hfresh. by right.
      * intros w Hw Hdw. destruct (Hflag w) as [Hd0 Huniq]; [by right|done|].
        split; [done|]. intros x Hx. apply Huniq. by right.
      * exists d1. split; [done|]. simpl in *. rewrite Hvl, Hus, Hbl.
        split; [|split; [done|split; [done|]]].
        -- rewrite <- insert_union_l. symmetry. apply insert_union_r.
           apply not_elem_of_list_to_map. by rewrite <- list_fmap_compose.
        -- intros w. rewrite Hdef, elem_of_cons. split.
           ++ intros [?|[Hw Hdw]]; auto.
           ++ intros [?|[[->|Hw] Hdw]]; [by left|congruence|right; auto].
Qed.

Lemma forEach_CreateUser (l : list User) (d0 : MemoryDatabase) :
  NoDup (Username <$> l) →
  (∀ u, u ∈ l → users d0 !! Username u = None) →
  (∀ u, u ∈ l → is_Some (vlans d0 !! VlanID u)) →
  ∃ d1, forEach CreateUser l d0 = (None, d1) ∧
    users d1 = list_to_map ((λ u, (Username u, u)) <$> l) ∪ users d0 ∧
    vlans d1 = vlans d0 ∧ blockedUsers d1 = blockedUsers d0 ∧
    defaultVLAN d1 = defaultVLAN d0.
Proof.
  revert d0. induction l as [|u l IH]; intros d0 Hnd Hfresh Hvlan.
  - exists d0. simpl. by rewrite (left_id_L ∅ (∪)).
  - rewrite fmap_cons, NoDup_cons in Hnd. destruct Hnd as [Hu Hnd]. simpl.
    assert (Hother : ∀ w, w ∈ l → Username w ≠ Username u).
    { intros w Hw Heq. apply Hu. rewrite <- Heq.
      by apply list_elem_of_fmap_2. }
    unfold CreateUser at 1, GetVLAN. rewrite (Hfresh u) by by left.
    destruct (Hvlan u) as [vl Hvl0]; [by left|]. rewrite Hvl0.
    destruct (IH (set_users (insert (Username u) u) d0))
      as (d1 & Hrun & Hus & Hvl & Hbl & Hdef); [done| | |].
    + intros w Hw. simpl.
      rewrite lookup_insert_ne by by apply not_eq_sym, Hother.
      apply Hfresh. by right.
    + intros w Hw. simpl. apply Hvlan. by right.
    + exists d1. split; [done|]. simpl in *. rewrite Hus, Hvl, Hbl, Hdef.
      split; [|done].
      rewrite <- insert_union_l. symmetry. apply insert_union_r.
      apply not_elem_of_list_to_map. by rewrite <- list_fmap_compose.
Qed.

Lemma forEach_BlockUser (l : list BlockedUser) (d0 : MemoryDatabase) :
  NoDup (bu_Username <$> l) →
  (∀ b, b ∈ l → blockedUsers d0 !! bu_Username b = None) →
  ∃ d1, forEach (λ bu, BlockUser (bu_Username bu)) l d0 = (None, d1) ∧
    blockedUsers d1
      = list_to_map ((λ b, (bu_Username b, b)) <$> l) ∪ blockedUsers d0 ∧
    vlans d1 = vlans d0 ∧ users d1 = users d0 ∧
    defaultVLAN d1 = defaultVLAN d0.
Proof.
  revert d0. induction l as [|b l IH]; intros d0 Hnd Hfresh.
  - exists d0. simpl. by rewrite (left_id_L ∅ (∪)).
  - rewrite fmap_cons, NoDup_cons in Hnd. destruct Hnd as [Hb Hnd]. simpl.
    assert (Hother : ∀ w, w ∈ l → bu_Username w ≠ bu_Username b).
    { intros w Hw Heq. apply Hb. rewrite <- Heq.
      by apply list_elem_of_fmap_2. }
    unfold BlockUser at 1. rewrite (Hfresh b) by by left.
    destruct (IH (set_blockedUsers
                    (insert (bu_Username b)
                       {| bu_Username := bu_Username b |}) d0))
      as (d1 & Hrun & Hbl & Hvl & Hus & Hdef); [done| |].
    + intros w Hw. simpl.
      rewrite lookup_insert_ne by by apply not_eq_sym, Hother.
      apply Hfresh. by right.
    + exists d1. split; [done|]. simpl in *. rewrite Hbl, Hvl, Hus, Hdef.
      split; [|done]. destruct b as [name]. simpl.
      rewrite <- insert_union_l. symmetry. apply insert_union_r.
      apply not_elem_of_list_to_map. by rewrite <- list_fmap_compose.
Qed.

(** What a dump followed by a load gives for a keyed registry under V1 and
    V2: the three maps come back as they were, and the default VLAN of the
    loaded registry is the flagged VLAN. *)
Lemma load_dump `{GoRuntime} (d : MemoryDatabase) (path : string)
    (disk : Disk) :
  keyed d → V1 d → V2 d →
  IsAbs path = true → path ∉ createDenied disk → writeFails disk = false →
  ∃ disk' d',
    dumpFile path d disk = (None, disk') ∧ loadFile path disk' = Ok d' ∧
    users d' = users d ∧ vlans d' = vlans d ∧
    blockedUsers d' = blockedUsers d ∧ defaultRecorded d'.
Proof.
  intros (Kv & Ku & Kb) HV1 HV2 Habs Hden Hwf.
  set (lu := SortFunc cmpUser (mapRange (users d))).
  set (lv := SortFunc cmpVLAN (mapRange (vlans d))).
  set (lb := SortFunc cmpBlockedUser (mapRange (blockedUsers d))).
  assert (Pu : lu ≡ₚ (map_to_list (users d)).*2) by apply sorted_range_perm.
  assert (Pv : lv ≡ₚ (map_to_list (vlans d)).*2) by apply sorted_range_perm.
  assert (Pb : lb ≡ₚ (map_to_list (blockedUsers d)).*2)
    by apply sorted_range_perm.
  destruct (keyed_listing Username _ lu Ku Pu) as [Mu Nu].
  destruct (keyed_listing ID _ lv Kv Pv) as [Mv Nv].
  destruct (keyed_listing bu_Username _ lb Kb Pb) as [Mb Nb].
  assert (Hin : ∀ v, v ∈ lv ↔ ∃ k, vlans d !! k = Some v).
  { intros v. rewrite Pv. apply elem_of_values. }
  destruct (forEach_CreateVLAN lv NewMemoryDatabase)
    as (d1 & R1 & Vl1 & Us1 & Bl1 & Df1); [done|done| |].
  { intros v Hv Dv. split; [done|]. intros w Hw Dw.
    apply Hin in Hv as [kv Hkv]. apply Hin in Hw as [kw Hkw].
    assert (kv = kw) by by eapply flagged_unique. subst kw. congruence. }
  destruct (forEach_CreateUser lu d1)
    as (d2 & R2 & Us2 & Vl2 & Bl2 & Df2); [done| | |].
  { intros u _. by rewrite Us1. }
  { intros u Hu. rewrite Vl1, Mv. simpl. rewrite (right_id_L ∅ (∪)).
    rewrite Pu in Hu. apply elem_of_values in Hu as [k Hk]. by eapply HV2. }
  destruct (forEach_BlockUser lb d2)
    as (d3 & R3 & Bl3 & Vl3 & Us3 & Df3); [done| |].
  { intros b _. by rewrite Bl2, Bl1. }
  exists (writeFile path
            (Document {| Users := lu; VLANs := lv; BlockedUsers := lb |})
            (writeFile path Undecodable disk)), d3.
  split; [|split].
  - unfold dumpFile. rewrite Habs. simpl negb. cbv iota.
    rewrite bool_decide_eq_false_2 by done.
    unfold GetUsers, GetVLANs, GetBlockedUsers. simpl writeFails.
    by rewrite Hwf.
  - unfold loadFile. rewrite Habs. simpl.
    rewrite lookup_insert_eq. cbn [VLANs Users BlockedUsers].
    by rewrite R1, R2, R3.
  - assert (Ev : vlans d3 = vlans d).
    { rewrite Vl3, Vl2, Vl1, Mv. apply (right_id_L ∅ (∪)). }
    assert (Eu : users d3 = users d).
    { rewrite Us3, Us2, Us1, Mu. apply (right_id_L ∅ (∪)). }
    assert (Eb : blockedUsers d3 = blockedUsers d).
    { rewrite Bl3, Bl2, Bl1, Mb. apply (right_id_L ∅ (∪)). }
    split; [done|]. split; [done|]. split; [done|].
    intros v. rewrite Df3, Df2, Df1, Ev. split.
    + intros [?|[Hv Dv]]; [done|].
      apply Hin in Hv as [k Hk]. by exists k.
    + intros (k & Hk & Dv). right. split; [|done]. apply Hin. by exists k.
Qed.

Lemma registryS3_invariants :
  keyed registryS3 ∧ V1 registryS3 ∧ V2 registryS3 ∧
  defaultRecorded registryS3.
Proof.
  assert (Hv : vlans registryS3 = <["20" := vlan20]> {["1" := vlan1]})
    by (vm_compute; reflexivity).
  assert (Hu : users registryS3 =
    {["aa:bb:cc:11:22:33" :=
       {| Username := "aa:bb:cc:11:22:33"; Password := "aa:bb:cc:11:22:33";
          VlanID := "20"; Description := "" |}]})
    by (vm_compute; reflexivity).
  assert (Hb : blockedUsers registryS3 =
    {["de:ad:be:ef:00:01" := {| bu_Username := "de:ad:be:ef:00:01" |}]})
    by (vm_compute; reflexivity).
  assert (Hd : defaultVLAN registryS3 = Some vlan1) by reflexivity.
  split; [|split; [|split]].
  - unfold keyed. rewrite Hv, Hu, Hb. repeat split.
    + intros k v [[<- <-]|[_ [<- <-]%lookup_singleton_Some]]%lookup_insert_Some;
        done.
    + by intros k u [<- <-]%lookup_singleton_Some.
    + by intros k b [<- <-]%lookup_singleton_Some.
  - unfold V1.
    assert (size (defaultFlagged registryS3) = 1) as ->
      by (vm_compute; reflexivity).
    done.
  - unfold V2. rewrite Hu, Hv. intros k u [<- <-]%lookup_singleton_Some.
    simpl. rewrite lookup_insert_eq. by eexists.
  - unfold defaultRecorded. rewrite Hd, Hv. intros v. split.
    + intros [= <-]. exists "1". split; [|done].
      by rewrite lookup_insert_ne, lookup_singleton_eq.
    + intros (k & [[<- <-]|[_ [<- <-]%lookup_singleton_Some]]%lookup_insert_Some
                & Dv); done.
Qed.




End roundtrip_facts.

(** ** The correlation cache *)

Module lru_facts.
Import lru lru_spec.

Section facts.
Context {K : Type} `{Countable K} {V : Type} (zeroValue : V).
Implicit Types (c : Cache K V) (k : K) (v : V) (e elem : nat).
Implicit Types (q : list nat) (h : gmap nat (entry K V)).

Lemma entries_cell c : entries c = omap (cell (heap c)) (queue c).
Proof. reflexivity. Qed.

Lemma wf_New (cap : Z) : wf (NewLRUCache cap : Cache K V).
Proof.
  split; simpl.
  - constructor.
  - intros k e. rewrite lookup_empty. split; [done|].
    intros [He _]. by apply not_elem_of_nil in He.
  - intros e He. by apply not_elem_of_nil in He.
  - intros e He. by apply not_elem_of_nil in He.
Qed.

Lemma bounded_New (cap : Z) : bounded (NewLRUCache cap : Cache K V).
Proof. unfold bounded. simpl. lia. Qed.

(** Two queued elements that hold the same key are the same element. *)
Lemma wf_key_inj c e1 e2 k v1 v2 :
  wf c → e1 ∈ queue c → e2 ∈ queue c →
  heap c !! e1 = Some {| key := k; value := v1 |} →
  heap c !! e2 = Some {| key := k; value := v2 |} → e1 = e2.
Proof.
  intros Hwf H1 H2 C1 C2.
  assert (cache c !! k = Some e1) as E1 by (apply (wf_cache c Hwf); eauto).
  assert (cache c !! k = Some e2) as E2 by (apply (wf_cache c Hwf); eauto).
  congruence.
Qed.

(** The keys of the entries are the keys of the map. *)
Lemma elem_of_entries c k v :
  wf c → (k, v) ∈ entries c ↔
         ∃ e, cache c !! k = Some e
              ∧ heap c !! e = Some {| key := k; value := v |}.
Proof.
  intros Hwf. rewrite entries_cell, list_elem_of_omap. unfold cell. split.
  - intros (e & He & Hc).
    destruct (heap c !! e) as [[k' v']|] eqn:Hh; simplify_eq/=.
    exists e. split; [|done]. apply (wf_cache c Hwf). eauto.
  - intros (e & Hm & Hh). exists e. split.
    + by apply (wf_cache c Hwf) in Hm as [? _].
    + by rewrite Hh.
Qed.

Lemma keys_entries c k :
  wf c → k ∈ (entries c).*1 ↔ is_Some (cache c !! k).
Proof.
  intros Hwf. rewrite list_elem_of_fmap. split.
  - intros ([k' v] & -> & Hin). apply (elem_of_entries c _ _ Hwf) in Hin
      as (e & He & _). eauto.
  - intros [e He]. pose proof He as He'.
    apply (wf_cache c Hwf) in He' as (_ & v & Hh).
    exists (k, v). split; [done|]. apply (elem_of_entries c _ _ Hwf). eauto.
Qed.

Lemma length_entries c : wf c → length (entries c) = length (queue c).
Proof.
  intros Hwf. rewrite entries_cell.
  assert (Hall : ∀ e, e ∈ queue c → is_Some (heap c !! e))
    by apply (wf_heap c Hwf).
  induction (queue c) as [|e q IH]; simpl; [done|].
  destruct (Hall e) as [en Hen]; [by left|].
  unfold cell at 1. rewrite Hen. simpl. f_equal. apply IH.
  intros x Hx. apply Hall. by right.
Qed.

Lemma omap_cons_eq {A B} (f : A → option B) (x : A) (l : list A) :
  omap f (x :: l)
  = match f x with Some y => y :: omap f l | None => omap f l end.
Proof. reflexivity. Qed.

(** Taking an element out of the queue takes its entry out of the
    entries. *)
Lemma omap_cell_remove h q elem k :
  (∀ e, e ∈ q → ∃ en, h !! e = Some en ∧ (key en = k ↔ e = elem)) →
  omap (cell h) (filter (λ e, e ≠ elem) q)
  = filter (λ p, p.1 ≠ k) (omap (cell h) q).
Proof.
  induction q as [|e q IH]; intros Hq; [done|].
  destruct (Hq e) as (en & Hen & Hk); [by left|].
  assert (IH' := IH (λ x Hx, Hq x (list_elem_of_further _ _ _ Hx))).
  rewrite filter_cons. simpl. unfold cell at 2. rewrite Hen. simpl.
  rewrite filter_cons. simpl. destruct (decide (e ≠ elem)) as [Hne|Heq].
  - rewrite decide_True by (intros Hkk; by apply Hne, Hk).
    simpl. unfold cell at 1. rewrite Hen. simpl. by f_equal.
  - rewrite decide_False; [done|].
    intros Hkk. apply Hkk, Hk. by destruct (decide (e = elem)).
Qed.

(** The cells of other elements do not change when one cell is written. *)
Lemma omap_cell_insert h q elem en :
  elem ∉ q → omap (cell (<[elem := en]> h)) q = omap (cell h) q.
Proof.
  induction q as [|e q IH]; intros Hq; [done|].
  apply not_elem_of_cons in Hq as [Hne Hq]. rewrite !omap_cons_eq.
  assert (cell (<[elem := en]> h) e = cell h e) as ->.
  { unfold cell. by rewrite lookup_insert_ne. }
  by rewrite IH.
Qed.

Lemma MoveToFront_in q elem :
  elem ∈ q → MoveToFront elem q = elem :: filter (λ e, e ≠ elem) q.
Proof. intros He. unfold MoveToFront. by rewrite bool_decide_eq_true_2. Qed.

Lemma moved_perm q elem :
  NoDup q → elem ∈ q → elem :: filter (λ e, e ≠ elem) q ≡ₚ q.
Proof.
  intros Hnd He. apply NoDup_Permutation; [|done|].
  - constructor; [|by apply NoDup_filter].
    rewrite list_elem_of_filter. by intros [? _].
  - intros x. rewrite elem_of_cons, list_elem_of_filter.
    destruct (decide (x = elem)) as [->|Hne].
    + split; [done|by left].
    + split; [by intros [?|[_ ?]]|by right].
Qed.

(** The invariant does not depend on the order of the queue. *)
Lemma wf_requeue c q :
  wf c → q ≡ₚ queue c →
  wf {| capacity := capacity c; cache := cache c; queue := q;
        heap := heap c; nextAddr := nextAddr c |}.
Proof.
  intros [Hnd Hc Hh Hf] Hp. split; simpl.
  - by rewrite Hp.
  - intros k e. rewrite Hp. apply Hc.
  - intros e. rewrite Hp. apply Hh.
  - intros e. rewrite Hp. apply Hf.
Qed.

(** Writing a new value into the cell of a queued element. *)
Lemma wf_update c elem k v0 v :
  wf c → heap c !! elem = Some {| key := k; value := v0 |} →
  wf {| capacity := capacity c; cache := cache c; queue := queue c;
        heap := <[elem := {| key := k; value := v |}]> (heap c);
        nextAddr := nextAddr c |}.
Proof.
  intros [Hnd Hc Hh Hf] Hel. split; simpl; [done| | |done].
  - intros k' e. rewrite Hc. destruct (decide (e = elem)) as [->|Hne].
    + rewrite lookup_insert_eq, Hel. split.
      * intros [? [v' [= <- _]]]. eauto.
      * intros [? [v' [= <- _]]]. eauto.
    + by rewrite lookup_insert_ne.
  - intros e He. destruct (decide (e = elem)) as [->|Hne].
    + rewrite lookup_insert_eq. eauto.
    + rewrite lookup_insert_ne by done. by apply Hh.
Qed.

(** Allocating an element for a key the map does not have and putting it in
    front. *)
Lemma wf_push c k v :
  wf c → cache c !! k = None →
  wf {| capacity := capacity c; cache := <[k := nextAddr c]> (cache c);
        queue := nextAddr c :: queue c;
        heap := <[nextAddr c := {| key := k; value := v |}]> (heap c);
        nextAddr := S (nextAddr c) |}.
Proof.
  intros [Hnd Hc Hh Hf] Hk.
  assert (Hnew : nextAddr c ∉ queue c).
  { intros Hin. apply Hf in Hin. lia. }
  split; simpl.
  - by constructor.
  - intros k' e. rewrite elem_of_cons.
    destruct (decide (e = nextAddr c)) as [->|Hne].
    + rewrite lookup_insert_eq. destruct (decide (k = k')) as [->|Hkk].
      * rewrite lookup_insert_eq. split; [|done].
        intros _. split; [by left|by exists v].
      * rewrite lookup_insert_ne by done. split.
        -- intros Hm. apply Hc in Hm as [? _]. done.
        -- intros [_ [v' [= ? _]]]. done.
    + rewrite (lookup_insert_ne (heap c)) by done.
      destruct (decide (k = k')) as [->|Hkk].
      * rewrite lookup_insert_eq. split; [by intros [= ?]|].
        intros [[?|Hin] Hv]; [done|].
        assert (cache c !! k' = Some e) as Hm by by apply Hc.
        congruence.
      * rewrite lookup_insert_ne by done. rewrite Hc. split.
        -- intros [Hin Hv]. split; [by right|done].
        -- intros [[?|Hin] Hv]; [done|by split].
  - intros e [->|Hin]%elem_of_cons.
    + rewrite lookup_insert_eq. eauto.
    + rewrite lookup_insert_ne; [by apply Hh|].
      intros <-. done.
  - intros e [->|Hin]%elem_of_cons; [lia|]. apply Hf in Hin. lia.
Qed.

(** Taking a queued element out of the queue and its key out of the map. *)
Lemma wf_evict c oldest en :
  wf c → oldest ∈ queue c → heap c !! oldest = Some en →
  wf {| capacity := capacity c; cache := delete (key en) (cache c);
        queue := Remove oldest (queue c);
        heap := heap c; nextAddr := nextAddr c |}.
Proof.
  intros [Hnd Hc Hh Hf] Hin Hen. destruct en as [ko vo]. simpl.
  assert (Hold : cache c !! ko = Some oldest) by (apply Hc; eauto).
  unfold Remove. split; simpl.
  - by apply NoDup_filter.
  - intros k e. rewrite list_elem_of_filter. split.
    + intros [Hne Hm]%lookup_delete_Some.
      apply Hc in Hm as [He [v Hv]]. split; [|eauto]. split; [|done].
      intros ->. rewrite Hen in Hv. by injection Hv.
    + intros [[Hne He] [v Hv]].
      assert (cache c !! k = Some e) as Hm by (apply Hc; eauto).
      apply lookup_delete_Some. split; [|done].
      intros <-. congruence.
  - intros e [_ He]%list_elem_of_filter. by apply Hh.
  - intros e [_ He]%list_elem_of_filter. by apply Hf.
Qed.

Lemma Remove_last q oldest :
  NoDup (q ++ [oldest]) → Remove oldest (q ++ [oldest]) = q.
Proof.
  intros (_ & Hno & _)%NoDup_app. unfold Remove.
  rewrite filter_app, filter_cons, decide_False by (by intros ?).
  rewrite filter_nil, app_nil_r.
  induction q as [|x q IH]; [done|].
  rewrite filter_cons, decide_True.
  - f_equal. apply IH. intros y Hy. apply Hno. by right.
  - intros ->. apply (Hno oldest); [by left|by left].
Qed.

(** [Get] on a key the map does not have. *)
Lemma Get_miss c k :
  cache c !! k = None → Get zeroValue k c = (zeroValue, false, c).
Proof. intros Hk. unfold Get. by rewrite Hk. Qed.

(** The entries once the element holding [k] has been moved to the front. *)
Lemma entries_moved c k elem v0 :
  wf c → cache c !! k = Some elem →
  heap c !! elem = Some {| key := k; value := v0 |} →
  omap (cell (heap c)) (filter (λ e, e ≠ elem) (queue c))
  = filter (λ p, p.1 ≠ k) (entries c).
Proof.
  intros Hwf Hm Hel. rewrite entries_cell. apply omap_cell_remove.
  intros e He. destruct (wf_heap c Hwf e He) as [[k' v'] Hen].
  exists {| key := k'; value := v' |}. split; [done|]. simpl. split.
  - intros ->.
    assert (cache c !! k = Some e) as Hm' by (apply (wf_cache c Hwf); eauto).
    congruence.
  - intros ->. rewrite Hel in Hen. by injection Hen.
Qed.

(** [Get] on a key the map has. *)
Lemma Get_hit c k elem v :
  wf c → cache c !! k = Some elem →
  heap c !! elem = Some {| key := k; value := v |} →
  ∃ c', Get zeroValue k c = (v, true, c') ∧ wf c' ∧
        capacity c' = capacity c ∧
        length (queue c') = length (queue c) ∧
        entries c' = (k, v) :: filter (λ p, p.1 ≠ k) (entries c).
Proof.
  intros Hwf Hm Hel.
  assert (Hin : elem ∈ queue c) by by apply (wf_cache c Hwf) in Hm as [? _].
  eexists. unfold Get. rewrite Hm, Hel. simpl. split; [reflexivity|].
  rewrite MoveToFront_in by done.
  pose proof (moved_perm (queue c) elem (wf_nodup c Hwf) Hin) as Hp.
  split; [by apply wf_requeue|]. split; [done|]. simpl.
  split; [exact (Permutation_length Hp)|].
  rewrite entries_cell. simpl queue. simpl heap. rewrite omap_cons_eq.
  unfold cell at 1. rewrite Hel. simpl. f_equal.
  by eapply entries_moved.
Qed.

(** [Set_] on a key the map has. *)
Lemma Set_hit c k elem v0 v :
  wf c → cache c !! k = Some elem →
  heap c !! elem = Some {| key := k; value := v0 |} →
  wf (Set_ k v c) ∧ capacity (Set_ k v c) = capacity c ∧
  length (queue (Set_ k v c)) = length (queue c) ∧
  entries (Set_ k v c) = (k, v) :: filter (λ p, p.1 ≠ k) (entries c).
Proof.
  intros Hwf Hm Hel.
  assert (Hin : elem ∈ queue c) by by apply (wf_cache c Hwf) in Hm as [? _].
  unfold Set_. rewrite Hm, Hel. simpl key.
  rewrite MoveToFront_in by done.
  pose proof (moved_perm (queue c) elem (wf_nodup c Hwf) Hin) as Hp.
  split; [|split; [done|split]].
  - pose proof (wf_update c elem k v0 v Hwf Hel) as Hu.
    exact (wf_requeue _ (elem :: filter (λ e, e ≠ elem) (queue c)) Hu Hp).
  - exact (Permutation_length Hp).
  - rewrite entries_cell. simpl queue. simpl heap. rewrite omap_cons_eq.
    unfold cell at 1. rewrite lookup_insert_eq. simpl. f_equal.
    rewrite omap_cell_insert.
    + by eapply entries_moved.
    + rewrite list_elem_of_filter. by intros [? _].
Qed.

(** [Set_] on a key the map does not have: the new entry goes in front, and
    when the queue has outgrown the capacity its last entry goes. *)
Lemma Set_miss c k v :
  wf c → bounded c → cache c !! k = None →
  wf (Set_ k v c) ∧ bounded (Set_ k v c) ∧
  capacity (Set_ k v c) = capacity c ∧
  if (capacity c <? Z.of_nat (S (length (entries c))))%Z
  then ∃ old, (k, v) :: entries c = (entries (Set_ k v c) ++ [old])%list
  else entries (Set_ k v c) = (k, v) :: entries c.
Proof.
  intros Hwf Hb Hk. rewrite (length_entries c Hwf).
  pose proof (wf_push c k v Hwf Hk) as Hwf1.
  set (c1 := {| capacity := capacity c;
                cache := <[k := nextAddr c]> (cache c);
                queue := nextAddr c :: queue c;
                heap := <[nextAddr c := {| key := k; value := v |}]> (heap c);
                nextAddr := S (nextAddr c) |}) in Hwf1.
  assert (Hnew : nextAddr c ∉ queue c).
  { intros Hin. apply (wf_fresh c Hwf) in Hin. lia. }
  assert (He1 : entries c1 = (k, v) :: entries c).
  { rewrite !entries_cell. simpl queue. simpl heap. rewrite omap_cons_eq.
    unfold cell at 1. rewrite lookup_insert_eq. simpl. f_equal.
    by apply omap_cell_insert. }
  unfold bounded in Hb |- *. unfold Set_. rewrite Hk. cbv zeta.
  change (length (nextAddr c :: queue c)) with (S (length (queue c))).
  destruct (capacity c <? Z.of_nat (S (length (queue c))))%Z eqn:Hfull.
  - apply Z.ltb_lt in Hfull.
    destruct (Back (nextAddr c :: queue c)) as [oldest|] eqn:Hlast.
    2:{ by apply last_None in Hlast. }
    apply last_Some in Hlast as [q' Hq'].
    assert (Hin : oldest ∈ queue c1).
    { simpl. rewrite Hq'. apply elem_of_app. right. by left. }
    destruct (wf_heap c1 Hwf1 oldest Hin) as [en Hen].
    simpl in Hen. rewrite Hen.
    pose proof (wf_evict c1 oldest en Hwf1 Hin Hen) as Hwf2.
    simpl in Hwf2. split; [exact Hwf2|].
    assert (Hrm : Remove oldest (nextAddr c :: queue c) = q').
    { rewrite Hq'. apply Remove_last. rewrite <- Hq'.
      apply (wf_nodup c1 Hwf1). }
    split; [|split; [done|]].
    + simpl. rewrite Hrm.
      assert (S (length (queue c)) = length q' + 1) as Hlen.
      { change (S (length (queue c)))
          with (length (nextAddr c :: queue c)).
        rewrite Hq', length_app. simpl. lia. }
      lia.
    + exists (key en, value en). rewrite <- He1.
      rewrite !entries_cell. simpl queue. simpl heap. rewrite Hrm, Hq'.
      rewrite omap_app. f_equal. rewrite omap_cons_eq.
      unfold cell at 1. by rewrite Hen.
  - apply Z.ltb_ge in Hfull. split; [exact Hwf1|].
    split; [|split; [done|exact He1]].
    simpl. lia.
Qed.

(** Every operation keeps the invariant, the bound and the capacity. *)
Lemma step_wf c (o : Op K V) :
  wf c → bounded c →
  wf (step zeroValue c o) ∧ bounded (step zeroValue c o) ∧
  capacity (step zeroValue c o) = capacity c.
Proof.
  intros Hwf Hb. destruct o as [k v|k]; simpl.
  - destruct (cache c !! k) as [elem|] eqn:Hm.
    + pose proof Hm as Hm'.
      apply (wf_cache c Hwf) in Hm' as (_ & v0 & Hel).
      destruct (Set_hit c k elem v0 v Hwf Hm Hel) as (W & C & L & _).
      split; [done|]. split; [|done]. unfold bounded. by rewrite L, C.
    + destruct (Set_miss c k v Hwf Hb Hm) as (W & B & C & _). done.
  - destruct (cache c !! k) as [elem|] eqn:Hm.
    + pose proof Hm as Hm'.
      apply (wf_cache c Hwf) in Hm' as (_ & v0 & Hel).
      destruct (Get_hit c k elem v0 Hwf Hm Hel) as (c' & -> & W & C & L & _).
      simpl. split; [done|]. split; [|done]. unfold bounded. by rewrite L, C.
    + by rewrite Get_miss.
Qed.

Lemma run_wf (ops : list (Op K V)) c :
  wf c → bounded c →
  wf (run zeroValue ops c) ∧ bounded (run zeroValue ops c) ∧
  capacity (run zeroValue ops c) = capacity c.
Proof.
  revert c. induction ops as [|o ops IH]; intros c Hwf Hb; [done|].
  simpl. destruct (step_wf c o Hwf Hb) as (W & B & C).
  destruct (IH _ W B) as (W' & B' & C'). by rewrite C' , C.
Qed.

(** No key is held by two entries. *)
Lemma NoDup_keys c : wf c → NoDup (entries c).*1.
Proof.
  intros Hwf. rewrite entries_cell.
  assert (Hsub : ∀ e, e ∈ queue c → e ∈ queue c) by done.
  pose proof (wf_nodup c Hwf) as Hnd.
  revert Hsub Hnd. generalize (queue c) at 1 3 4. intros q.
  induction q as [|e q IH]; intros Hsub Hnd; [constructor|].
  apply NoDup_cons in Hnd as [Hne Hnd].
  assert (He : e ∈ queue c) by (apply Hsub; by left).
  destruct (wf_heap c Hwf e He) as [[k v] Hen].
  rewrite omap_cons_eq. unfold cell at 1. rewrite Hen. simpl.
  constructor.
  - rewrite list_elem_of_fmap. intros ([k' v'] & Hk & Hin). simpl in Hk.
    subst k'. apply list_elem_of_omap in Hin as (e' & He' & Hc').
    unfold cell in Hc'.
    destruct (heap c !! e') as [[k2 v2]|] eqn:Hen'; simplify_eq/=.
    assert (e = e'); [|by subst].
    eapply (wf_key_inj c); eauto. apply Hsub. by right.
  - apply IH; [|done]. intros x Hx. apply Hsub. by right.
Qed.

Lemma size_cache c : wf c → size (cache c) = length (entries c).
Proof.
  intros Hwf. rewrite <- size_dom.
  assert (dom (cache c) = list_to_set (entries c).*1) as ->.
  { apply set_eq. intros k.
    rewrite elem_of_dom, elem_of_list_to_set. symmetry.
    by apply keys_entries. }
  rewrite size_list_to_set by by apply NoDup_keys.
  by rewrite length_fmap.
Qed.

(** C9.  A cache of capacity [cap ≥ 1], after any sequence of [Set_] and
    [Get] from the empty cache.  It holds at most [cap] entries, in the
    queue and in the map alike, and no key twice.  [Set_] always stores:
    the value is then read back by [Get], with [true].  [Set_] of a new key
    on a full cache drops exactly the last entry in order of use and keeps
    the others in order behind the new one; on a cache that is not full it
    drops nothing; [Set_] of a key already present replaces its value and
    drops nothing.  [Get] of a key that is present returns its value and
    [true] and moves the entry to the front; [Get] of a key that is absent
    returns the zero value and [false] and changes nothing. *)
Theorem cache_contract (cap : Z) (ops : list (Op K V)) :
  (1 ≤ cap)%Z →
  let c := run zeroValue ops (NewLRUCache cap) in
  (Z.of_nat (length (entries c)) ≤ cap)%Z ∧
  size (cache c) = length (entries c) ∧
  NoDup (entries c).*1 ∧
  (∀ k v, (Get zeroValue k (Set_ k v c)).1 = (v, true)) ∧
  (∀ k v l old,
     k ∉ (entries c).*1 → entries c = (l ++ [old])%list →
     Z.of_nat (length (entries c)) = cap →
     entries (Set_ k v c) = (k, v) :: l) ∧
  (∀ k v,
     k ∉ (entries c).*1 → (Z.of_nat (length (entries c)) < cap)%Z →
     entries (Set_ k v c) = (k, v) :: entries c) ∧
  (∀ k v,
     k ∈ (entries c).*1 →
     entries (Set_ k v c) = (k, v) :: filter (λ p, p.1 ≠ k) (entries c)) ∧
  (∀ k v,
     (k, v) ∈ entries c →
     ∃ c', Get zeroValue k c = (v, true, c') ∧
           entries c' = (k, v) :: filter (λ p, p.1 ≠ k) (entries c)) ∧
  (∀ k, k ∉ (entries c).*1 → Get zeroValue k c = (zeroValue, false, c)).
Proof.
  intros Hcap c.
  destruct (run_wf ops (NewLRUCache cap) (wf_New cap) (bounded_New cap))
    as (Hwf & Hb & Hc).
  fold c in Hwf, Hb, Hc. simpl in Hc. unfold bounded in Hb.
  rewrite Hc in Hb. rewrite <- (length_entries c Hwf) in Hb.
  assert (Hmiss : ∀ k, k ∉ (entries c).*1 → cache c !! k = None).
  { intros k Hk. apply eq_None_not_Some. intros Hs. apply Hk.
    by apply keys_entries. }
  assert (Hhit : ∀ k, k ∈ (entries c).*1 →
            ∃ elem v0, cache c !! k = Some elem ∧
                       heap c !! elem = Some {| key := k; value := v0 |}).
  { intros k Hk. apply (keys_entries c k Hwf) in Hk as [elem Hm].
    pose proof Hm as Hm'.
    apply (wf_cache c Hwf) in Hm' as (_ & v0 & Hel). eauto. }
  assert (Hread : ∀ c' k v rest,
            wf c' → entries c' = (k, v) :: rest →
            (Get zeroValue k c').1 = (v, true)).
  { intros c' k v rest Hwf' He.
    assert ((k, v) ∈ entries c') as Hin by (rewrite He; by left).
    apply (elem_of_entries c' k v Hwf') in Hin as (e & Hm & Hel).
    by destruct (Get_hit c' k e v Hwf' Hm Hel) as (c2 & -> & _). }
  split; [lia|]. split; [by apply size_cache|].
  split; [by apply NoDup_keys|].
  split; [|split; [|split; [|split; [|split]]]].
  - intros k v. destruct (decide (k ∈ (entries c).*1)) as [Hk|Hk].
    + destruct (Hhit k Hk) as (elem & v0 & Hm & Hel).
      destruct (Set_hit c k elem v0 v Hwf Hm Hel) as (W & _ & _ & E).
      by eapply Hread.
    + destruct (Set_miss c k v Hwf) as (W & _ & _ & E);
        [unfold bounded; rewrite <- (length_entries c Hwf), Hc; lia
        |by apply Hmiss|].
      rewrite Hc in E.
      destruct (cap <? Z.of_nat (S (length (entries c))))%Z eqn:Hfull.
      * destruct E as [old E]. apply Z.ltb_lt in Hfull.
        destruct (entries (Set_ k v c)) as [|p rest] eqn:Hs.
        -- simpl in E. injection E as _ E. rewrite E in Hfull.
           simpl in Hfull. lia.
        -- simpl in E. injection E as <- _. by eapply Hread.
      * by eapply Hread.
  - intros k v l old Hk Hl Hlen.
    destruct (Set_miss c k v Hwf) as (_ & _ & _ & E);
      [unfold bounded; rewrite <- (length_entries c Hwf), Hc; lia
      |by apply Hmiss|].
    rewrite Hc in E.
    destruct (cap <? Z.of_nat (S (length (entries c))))%Z eqn:Hfull.
    + destruct E as [old' E]. rewrite Hl in E.
      change ((k, v) :: l ++ [old])%list
        with (((k, v) :: l) ++ [old])%list in E.
      by apply app_inj_tail in E as [<- _].
    + apply Z.ltb_ge in Hfull. lia.
  - intros k v Hk Hlen.
    destruct (Set_miss c k v Hwf) as (_ & _ & _ & E);
      [unfold bounded; rewrite <- (length_entries c Hwf), Hc; lia
      |by apply Hmiss|].
    rewrite Hc in E.
    destruct (cap <? Z.of_nat (S (length (entries c))))%Z eqn:Hfull; [|done].
    apply Z.ltb_lt in Hfull. lia.
  - intros k v Hk. destruct (Hhit k Hk) as (elem & v0 & Hm & Hel).
    by destruct (Set_hit c k elem v0 v Hwf Hm Hel) as (_ & _ & _ & E).
  - intros k v Hin.
    apply (elem_of_entries c k v Hwf) in Hin as (e & Hm & Hel).
    destruct (Get_hit c k e v Hwf Hm Hel) as (c' & Hg & _ & _ & _ & E).
    eauto.
  - intros k Hk. by apply Get_miss, Hmiss.
Qed.

End facts.

(** A cache of capacity 2: "a" and "b" are set, "a" is read, "c" is set.
    The cache was full and "b" was the entry used least recently: it is
    the one dropped. *)
Lemma cache_contract_witness :
  entries (Set_ "c" 3%Z
             (run 0%Z [opSet "a" 1%Z; opSet "b" 2%Z; opGet "a"]
                (NewLRUCache 2)))
  = [("c", 3%Z); ("a", 1%Z)].
Proof.
  refine (proj1 (proj2 (proj2 (proj2 (proj2
            (cache_contract 0%Z 2 [opSet "a" 1%Z; opSet "b" 2%Z; opGet "a"]
               _)))))
            "c" 3%Z [("a", 1%Z)] ("b", 2%Z) _ _ _).
  - lia.
  - vm_compute. intros Hin.
    repeat (apply elem_of_cons in Hin as [Hin|Hin]; [discriminate|]).
    by apply not_elem_of_nil in Hin.
  - vm_compute. reflexivity.
  - vm_compute. reflexivity.
Defined.

End lru_facts.

(** ** Laws of the registry *)

Module registry_laws.
Import runtime runtime_facts spec fixtures registry_runs registry_facts.

(** The calls that are not VLAN mutations leave the VLANs and the default
    VLAN alone. *)
Lemma UnblockUser_result `{GoRuntime} (u : string) (d : MemoryDatabase) :
  (blockedUsers d !! u = None ∧
   UnblockUser u d = (Some ErrBlockedUserNotFound, d)) ∨
  (is_Some (blockedUsers d !! u) ∧ is_Some (users d !! u) ∧
   UnblockUser u d = (None, set_blockedUsers (delete u) d)) ∨
  (is_Some (blockedUsers d !! u) ∧ users d !! u = None ∧
   ((∃ v, defaultVLAN d = Some v ∧
          UnblockUser u d = (None, unblocked u v d)) ∨
    (defaultVLAN d = None ∧ vlans d = ∅ ∧
     UnblockUser u d
     = (Some ErrVLANNotFound, set_blockedUsers (delete u) d)) ∨
    (defaultVLAN d = None ∧
     ∃ k v, vlans d !! k = Some v ∧
            UnblockUser u d = (None, unblocked u v d)))).
Proof.
  destruct (blockedUsers d !! u) as [b|] eqn:Hb.
  - right. destruct (users d !! u) as [x|] eqn:Hu.
    + left. split; [eauto|]. split; [eauto|].
      unfold UnblockUser. rewrite Hb. simpl users. by rewrite Hu.
    + right. split; [eauto|]. split; [done|].
      apply UnblockUser_cases; eauto.
  - left. split; [done|]. by apply UnblockUser_not_blocked.
Qed.

Lemma call_frame `{GoRuntime} (m : Mutation) (d : MemoryDatabase) :
  (∀ v, m ≠ mCreateVLAN v) → (∀ v, m ≠ mUpdateVLAN v) →
  (∀ id, m ≠ mDeleteVLAN id) →
  vlans (call m d).2 = vlans d ∧ defaultVLAN (call m d).2 = defaultVLAN d.
Proof.
  intros H1 H2 H3. destruct m; simpl;
    try (by destruct (H1 v)); try (by destruct (H2 v));
    try (by destruct (H3 id));
    unfold CreateUser, UpdateUser, DeleteUser, BlockUser, GetVLAN;
    repeat case_match; simpl; try done.
  destruct (UnblockUser_result username d)
    as [[_ ->]|[(_ & _ & ->)|(_ & _ & [(v & _ & ->)|[(_ & _ & ->)|
         (_ & k & v & _ & ->)]])]]; done.
Qed.

Lemma call_keeps_default `{GoRuntime} (m : Mutation) (d : MemoryDatabase)
    (v : VLAN) :
  defaultVLAN d = Some v → defaultVLAN (call m d).2 = Some v.
Proof.
  intros Hv. destruct m.
  - simpl. unfold CreateVLAN. repeat case_match; simpl; congruence.
  - simpl. unfold UpdateVLAN. by case_match.
  - simpl. unfold DeleteVLAN. by case_match.
  - by destruct (call_frame (mCreateUser u) d) as [_ ->].
  - by destruct (call_frame (mUpdateUser u) d) as [_ ->].
  - by destruct (call_frame (mDeleteUser username) d) as [_ ->].
  - by destruct (call_frame (mBlockUser username) d) as [_ ->].
  - by destruct (call_frame (mUnblockUser username) d) as [_ ->].
Qed.

Lemma run_keeps_default `{GoRuntime} (ms : list Mutation)
    (d : MemoryDatabase) (v : VLAN) :
  defaultVLAN d = Some v → defaultVLAN (run ms d) = Some v.
Proof.
  revert d. induction ms as [|m ms IH]; intros d Hv; [done|].
  simpl. apply IH. by apply call_keeps_default.
Qed.

(** X1.  The default VLAN is written once.  Once [GetDefaultVLAN] answers
    with a VLAN, it answers with that same VLAN after any sequence of calls
    to the eight mutators, whatever they return. *)
Theorem default_is_write_once `{GoRuntime} (ms : list Mutation)
    (d : MemoryDatabase) (v : VLAN) :
  GetDefaultVLAN d = Ok v → GetDefaultVLAN (run ms d) = Ok v.
Proof.
  unfold GetDefaultVLAN. intros Hd.
  assert (Hv : defaultVLAN d = Some v)
    by (destruct (defaultVLAN d); by simplify_eq).
  by rewrite (run_keeps_default ms d v Hv).
Qed.

Lemma default_is_write_once_witness :
  GetDefaultVLAN
    (run [mDeleteVLAN "1"; mCreateVLAN (withDefault true vlan20);
          mUpdateVLAN (withDefault false vlan1); mBlockUser "u";
          mUnblockUser "u"] registryS1) = Ok vlan1.
Proof.
  apply (default_is_write_once _ registryS1 vlan1). reflexivity.
Defined.

(** X2.  After a default VLAN has been created, no call to [CreateVLAN]
    with [default = true] succeeds any more, not even after the default VLAN
    was deleted: it fails with [ErrVLANAlreadyExists] or
    [ErrDefaultVLANAlreadyExists] and leaves the registry as it is. *)
Theorem second_default_never_created `{GoRuntime} (ms : list Mutation)
    (d : MemoryDatabase) (v w : VLAN) :
  GetDefaultVLAN d = Ok v → Default w = true →
  ∃ e, CreateVLAN w (run ms d) = (Some e, run ms d) ∧
       (e = ErrVLANAlreadyExists ∨ e = ErrDefaultVLANAlreadyExists).
Proof.
  unfold GetDefaultVLAN. intros Hd Hw.
  assert (Hv : defaultVLAN d = Some v)
    by (destruct (defaultVLAN d); by simplify_eq).
  pose proof (run_keeps_default ms d v Hv) as Hr.
  unfold CreateVLAN. rewrite Hw.
  destruct (vlans (run ms d) !! ID w); [eauto|].
  by rewrite Hr; eauto.
Qed.

Lemma second_default_never_created_witness :
  ∃ e, CreateVLAN (withDefault true vlan20)
         (run [mDeleteVLAN "1"; mDeleteVLAN "20"] registryS1)
       = (Some e, run [mDeleteVLAN "1"; mDeleteVLAN "20"] registryS1) ∧
       (e = ErrVLANAlreadyExists ∨ e = ErrDefaultVLANAlreadyExists).
Proof.
  apply (second_default_never_created _ registryS1 vlan1); reflexivity.
Defined.

Lemma keyed_run `{GoRuntime} (ms : list Mutation) (d : MemoryDatabase) :
  keyed d → keyed (run ms d).
Proof.
  revert d. induction ms as [|m ms IH]; intros d Hk; [done|].
  simpl. apply IH. by apply keyed_call.
Qed.

(** X3.  In a registry built from the empty one by any sequence of calls to
    the mutators, an entry is found under its own key only: the VLAN that
    [GetVLAN id] returns has that id, the device that [GetUser u] returns
    has that username, and so for every blocklist entry. *)
Theorem lookups_return_their_key `{GoRuntime} (ms : list Mutation) :
  let d := run ms NewMemoryDatabase in
  (∀ id v, GetVLAN id d = Ok v → ID v = id) ∧
  (∀ u x, GetUser u d = Ok x → Username x = u) ∧
  (∀ u b, blockedUsers d !! u = Some b → bu_Username b = u).
Proof.
  intros d. destruct (keyed_run ms _ keyed_New) as (Kv & Ku & Kb).
  fold d in Kv, Ku, Kb. unfold GetVLAN, GetUser. repeat split.
  - intros id v. destruct (vlans d !! id) eqn:E; intros [= <-]. eauto.
  - intros u x. destruct (users d !! u) eqn:E; intros [= <-]. eauto.
  - done.
Qed.

Lemma flaggedIsDefault_V1 (d : MemoryDatabase) : flaggedIsDefault d → V1 d.
Proof.
  intros [(Kv & _ & _) Hf]. unfold V1, defaultFlagged.
  set (fm := filter (λ kv : string * VLAN, Default kv.2 = true) (vlans d)).
  destruct (map_choose_or_empty fm) as [(k & v & Hk)| ->].
  2:{ rewrite map_size_empty. lia. }
  assert (fm = {[k := v]}) as ->.
  { apply map_eq. intros i. destruct (decide (i = k)) as [->|Hne].
    - by rewrite lookup_singleton_eq.
    - rewrite lookup_singleton_ne by done.
      destruct (fm !! i) as [w|] eqn:Hi; [exfalso|done].
      apply map_lookup_filter_Some in Hk as [Hk Dk].
      apply map_lookup_filter_Some in Hi as [Hi Di]. simpl in *.
      assert (Some w = Some v) as [= ->] by (rewrite <- (Hf i w), <- (Hf k v); done).
      apply Hne. by rewrite <- (Kv i v Hi), <- (Kv k v Hk). }
  by rewrite map_size_singleton.
Qed.

Lemma flaggedIsDefault_call `{GoRuntime} (m : Mutation) (d : MemoryDatabase) :
  isUpdateVLAN m = false → flaggedIsDefault d → flaggedIsDefault (call m d).2.
Proof.
  intros Hm [Hk Hf]. split; [by apply keyed_call|].
  destruct m; try discriminate.
  - simpl. unfold CreateVLAN.
    destruct (vlans d !! ID v) eqn:Hv; [simpl; eauto|].
    destruct (Default v) eqn:Dv.
    + destruct (defaultVLAN d) eqn:Hd.
      * simpl. intros k w Hw Dw. rewrite Hd. eauto.
      * simpl. intros k w [[<- <-]|[_ Hw]]%lookup_insert_Some Dw; [done|].
        by specialize (Hf k w Hw Dw).
    + simpl. intros k w [[<- <-]|[_ Hw]]%lookup_insert_Some Dw;
        [congruence|eauto].
  - simpl. unfold DeleteVLAN. destruct (vlans d !! id); [|simpl; eauto]. simpl.
    intros k w [_ Hw]%lookup_delete_Some. eauto.
  - destruct (call_frame (mCreateUser u) d) as [Ev Ed]; [done..|]. by rewrite Ev, Ed.
  - destruct (call_frame (mUpdateUser u) d) as [Ev Ed]; [done..|]. by rewrite Ev, Ed.
  - destruct (call_frame (mDeleteUser username) d) as [Ev Ed]; [done..|]. by rewrite Ev, Ed.
  - destruct (call_frame (mBlockUser username) d) as [Ev Ed]; [done..|]. by rewrite Ev, Ed.
  - destruct (call_frame (mUnblockUser username) d) as [Ev Ed]; [done..|]. by rewrite Ev, Ed.
Qed.

Lemma flaggedIsDefault_New : flaggedIsDefault NewMemoryDatabase.
Proof.
  split; [apply keyed_New|]. intros k v. simpl. by rewrite lookup_empty.
Qed.

Lemma flaggedIsDefault_run `{GoRuntime} (ms : list Mutation)
    (d : MemoryDatabase) :
  forallb (λ m, negb (isUpdateVLAN m)) ms = true →
  flaggedIsDefault d → flaggedIsDefault (run ms d).
Proof.
  revert d. induction ms as [|m ms IH]; intros d Hms H0; [done|].
  simpl in Hms. apply andb_prop in Hms as [Hm Hms].
  simpl. apply IH; [done|]. apply flaggedIsDefault_call; [|done].
  by destruct (isUpdateVLAN m).
Qed.

(** X4.  A sequence of calls to the mutators in which [UpdateVLAN] does not
    occur, run from the empty registry, leaves at most one VLAN with
    [default = true], and [GetDefaultVLAN] answers with every VLAN that has
    it. *)
Theorem one_default_without_UpdateVLAN `{GoRuntime} (ms : list Mutation) :
  forallb (λ m, negb (isUpdateVLAN m)) ms = true →
  let d := run ms NewMemoryDatabase in
  V1 d ∧
  ∀ id v, GetVLAN id d = Ok v → Default v = true → GetDefaultVLAN d = Ok v.
Proof.
  intros Hms d.
  assert (Hinv : flaggedIsDefault d)
    by apply (flaggedIsDefault_run ms _ Hms flaggedIsDefault_New).
  split; [by apply flaggedIsDefault_V1|].
  intros id v. unfold GetVLAN, GetDefaultVLAN.
  destruct (vlans d !! id) eqn:E; intros [= <-] Dv.
  by rewrite (proj2 Hinv id _ E Dv).
Qed.

Lemma one_default_without_UpdateVLAN_witness :
  V1 (run [mCreateVLAN vlan1; mCreateVLAN (withDefault true vlan20);
           mDeleteVLAN "1"; mCreateVLAN (withDefault true vlan20)]
        NewMemoryDatabase).
Proof.
  refine (proj1 (one_default_without_UpdateVLAN
            [mCreateVLAN vlan1; mCreateVLAN (withDefault true vlan20);
             mDeleteVLAN "1"; mCreateVLAN (withDefault true vlan20)] _)).
  reflexivity.
Defined.

Lemma references_step (d d' : MemoryDatabase) :
  (∀ k, is_Some (vlans d !! k) → is_Some (vlans d' !! k)) →
  (∀ k u, users d' !! k = Some u →
          users d !! k = Some u ∨ is_Some (vlans d' !! VlanID u)) →
  (∀ v, defaultVLAN d' = Some v →
        defaultVLAN d = Some v ∨ is_Some (vlans d' !! ID v)) →
  V2 d → (∀ v, defaultVLAN d = Some v → is_Some (vlans d !! ID v)) →
  V2 d' ∧ ∀ v, defaultVLAN d' = Some v → is_Some (vlans d' !! ID v).
Proof.
  intros Hv Hu Hd H2 H3. split.
  - intros k u Hk. destruct (Hu k u Hk) as [Hold|?]; [|done].
    apply Hv. by eapply H2.
  - intros v Hdv. destruct (Hd v Hdv) as [Hold|?]; [|done].
    apply Hv. by apply H3.
Qed.

Lemma referencesResolve_call `{GoRuntime} (m : Mutation)
    (d : MemoryDatabase) :
  isDeleteVLAN m = false → isUpdateUser m = false →
  referencesResolve d → referencesResolve (call m d).2.
Proof.
  intros Hm1 Hm2 (Hk & H2 & H3). split; [by apply keyed_call|].
  pose proof Hk as (Kv & _ & _).
  assert (Hsame : V2 d ∧ ∀ v, defaultVLAN d = Some v →
                              is_Some (vlans d !! ID v)) by done.
  assert (Hunb : ∀ u v, is_Some (vlans d !! ID v) →
    V2 (unblocked u v d) ∧
    ∀ w, defaultVLAN (unblocked u v d) = Some w →
         is_Some (vlans (unblocked u v d) !! ID w)).
  { intros u v Hv. apply (references_step d); simpl; try done.
    - intros k x [[<- <-]|[_ Hx]]%lookup_insert_Some; [by right|by left].
    - intros w Hw. by left. }
  destruct m; try discriminate; simpl.
  - assert (Hgrow : ∀ k, is_Some (vlans d !! k) →
                         is_Some (<[ID v := v]> (vlans d) !! k)).
    { intros k Hs. apply lookup_insert_is_Some.
      destruct (decide (ID v = k)); [by left|by right]. }
    unfold CreateVLAN. destruct (vlans d !! ID v); [done|].
    destruct (Default v).
    + destruct (defaultVLAN d) eqn:Hd; [by rewrite <- Hd in H3|].
      apply (references_step d); simpl; try done.
      * intros k x Hx. by left.
      * intros w [= <-]. right. rewrite lookup_insert_eq. by eexists.
      * intros w Hw. by rewrite Hd in Hw.
    + apply (references_step d); simpl; try done.
      * intros k x Hx. by left.
      * intros w Hw. by left.
  - unfold UpdateVLAN. destruct (vlans d !! ID v) eqn:Hv; [|done].
    apply (references_step d); simpl; try done.
    + intros k Hs. apply lookup_insert_is_Some.
      destruct (decide (ID v = k)); [by left|by right].
    + intros k x Hx. by left.
    + intros w Hw. by left.
  - unfold CreateUser, GetVLAN.
    destruct (users d !! Username u); [done|].
    destruct (vlans d !! VlanID u) eqn:Hv; [|done].
    apply (references_step d); simpl; try done.
    + intros k x [[<- <-]|[_ Hx]]%lookup_insert_Some; [right|by left].
      by rewrite Hv.
    + intros w Hw. by left.
  - unfold DeleteUser. destruct (users d !! username); [|done].
    apply (references_step d); simpl; try done.
    + intros k x [_ Hx]%lookup_delete_Some. by left.
    + intros w Hw. by left.
  - unfold BlockUser. by case_match.
  - destruct (UnblockUser_result username d)
      as [[_ ->]|[(_ & _ & ->)|(_ & _ & [(v & Hv & ->)|[(_ & _ & ->)|
           (_ & k & v & Hv & ->)]])]]; simpl; try done.
    + apply Hunb. by apply H3.
    + apply Hunb. rewrite (Kv k v Hv). by eexists.
Qed.

Lemma referencesResolve_New : referencesResolve NewMemoryDatabase.
Proof.
  split; [apply keyed_New|]. split; [|done].
  intros k u. simpl. by rewrite lookup_empty.
Qed.

Lemma referencesResolve_run `{GoRuntime} (ms : list Mutation)
    (d : MemoryDatabase) :
  forallb (λ m, negb (isDeleteVLAN m) && negb (isUpdateUser m)) ms = true →
  referencesResolve d → referencesResolve (run ms d).
Proof.
  revert d. induction ms as [|m ms IH]; intros d Hms H0; [done|].
  simpl in Hms. apply andb_prop in Hms as [Hm Hms].
  apply andb_prop in Hm as [Hm1 Hm2].
  simpl. apply IH; [done|].
  apply referencesResolve_call; [| |done].
  - by destruct (isDeleteVLAN m).
  - by destruct (isUpdateUser m).
Qed.

(** X5.  A sequence of calls to the mutators in which neither [DeleteVLAN]
    nor [UpdateUser] occurs, run from the empty registry, leaves every
    reference resolved: [GetVLAN] finds the VLAN of every device, and the
    VLAN [GetDefaultVLAN] answers with is a VLAN of the registry. *)
Theorem references_resolve_without_delete `{GoRuntime} (ms : list Mutation) :
  forallb (λ m, negb (isDeleteVLAN m) && negb (isUpdateUser m)) ms = true →
  let d := run ms NewMemoryDatabase in
  (∀ u x, GetUser u d = Ok x → is_Ok (GetVLAN (VlanID x) d)) ∧
  (∀ v, GetDefaultVLAN d = Ok v → is_Ok (GetVLAN (ID v) d)).
Proof.
  intros Hms d.
  assert (Hinv : referencesResolve d)
    by apply (referencesResolve_run ms _ Hms referencesResolve_New).
  destruct Hinv as (_ & H2 & H3). unfold GetUser, GetVLAN, GetDefaultVLAN.
  split.
  - intros u x. destruct (users d !! u) eqn:E; intros [= <-].
    by destruct (H2 u _ E) as [w ->].
  - intros v. destruct (defaultVLAN d) eqn:E; intros [= <-].
    by destruct (H3 _ eq_refl) as [w ->].
Qed.

Lemma references_resolve_without_delete_witness :
  is_Ok (GetVLAN "20"
           (run [mCreateVLAN vlan20; mBlockUser "u"; mUnblockUser "u";
                 mUpdateVLAN (withDefault true vlan20)]
              NewMemoryDatabase)).
Proof.
  refine (proj1 (references_resolve_without_delete
            [mCreateVLAN vlan20; mBlockUser "u"; mUnblockUser "u";
             mUpdateVLAN (withDefault true vlan20)] _)
            "u" (mkUser "u" "u" "20" "") _); vm_compute; reflexivity.
Defined.

(** X6.  Blocking and then unblocking a username that has a device gives
    back the registry that was there before, exactly; both calls return
    nil. *)
Theorem block_unblock_restores `{GoRuntime} (u : string) (x : User)
    (d : MemoryDatabase) :
  GetUser u d = Ok x → IsUserBlocked u d = Ok false →
  ∃ d1, BlockUser u d = (None, d1) ∧ IsUserBlocked u d1 = Ok true ∧
        UnblockUser u d1 = (None, d).
Proof.
  unfold GetUser, IsUserBlocked. intros Hx Hb.
  destruct (users d !! u) as [x'|] eqn:Hu; [|done].
  case_bool_decide as Hs; [done|]. apply eq_None_not_Some in Hs.
  eexists. unfold BlockUser. rewrite Hs. split; [done|]. split.
  - simpl. rewrite lookup_insert_eq. by rewrite bool_decide_eq_true_2.
  - unfold UnblockUser. simpl. rewrite lookup_insert_eq, Hu.
    f_equal. destruct d as [us vs bs dv]. unfold set_blockedUsers. simpl in *.
    f_equal. by apply delete_insert_id.
Qed.

Lemma block_unblock_restores_witness :
  ∃ d1, BlockUser "aa:bb:cc:11:22:33"
          (CreateUser (device "aa:bb:cc:11:22:33" "20") registryS1).2
        = (None, d1) ∧
        IsUserBlocked "aa:bb:cc:11:22:33" d1 = Ok true ∧
        UnblockUser "aa:bb:cc:11:22:33" d1
        = (None, (CreateUser (device "aa:bb:cc:11:22:33" "20")
                    registryS1).2).
Proof.
  apply (block_unblock_restores "aa:bb:cc:11:22:33"
           (device "aa:bb:cc:11:22:33" "20")); vm_compute; reflexivity.
Defined.

(** X7.  [DeleteUser] takes the device and its blocklist entry together:
    when it returns nil, [GetUser] no longer finds the username,
    [IsUserBlocked] answers false, and every other device, every other
    blocklist entry, the VLANs and the default VLAN are as before.  When no
    device has the username it returns [ErrUserNotFound] and a blocklist
    entry of that username stays. *)
Theorem DeleteUser_clears_block (u : string) (d : MemoryDatabase) :
  (∀ d', DeleteUser u d = (None, d') →
     GetUser u d' = Err ErrUserNotFound ∧ IsUserBlocked u d' = Ok false ∧
     (∀ k, k ≠ u → users d' !! k = users d !! k ∧
                   blockedUsers d' !! k = blockedUsers d !! k) ∧
     vlans d' = vlans d ∧ defaultVLAN d' = defaultVLAN d) ∧
  (GetUser u d = Err ErrUserNotFound →
     DeleteUser u d = (Some ErrUserNotFound, d)).
Proof.
  unfold DeleteUser, GetUser, IsUserBlocked. split.
  - intros d'. destruct (users d !! u); intros [= <-]. simpl.
    rewrite !lookup_delete_eq. split; [done|]. split.
    + by rewrite bool_decide_eq_false_2 by by intros [? ?].
    + split; [|done]. intros k Hk. by rewrite !lookup_delete_ne.
  - by destruct (users d !! u).
Qed.

Lemma DeleteUser_clears_block_witness :
  IsUserBlocked "aa:bb:cc:11:22:33"
    (DeleteUser "aa:bb:cc:11:22:33"
       (BlockUser "aa:bb:cc:11:22:33" registryS3).2).2 = Ok false.
Proof.
  refine (proj1 (proj2 (proj1 (DeleteUser_clears_block "aa:bb:cc:11:22:33"
            (BlockUser "aa:bb:cc:11:22:33" registryS3).2) _ _))).
  vm_compute. reflexivity.
Defined.

(** X8.  Blocking twice: when [BlockUser] has returned nil, a second call
    for the same username returns [ErrUserAlreadyBlocked] and changes
    nothing, and the blocklist listing of a keyed registry holds exactly one
    entry with that username. *)
Theorem BlockUser_twice `{GoRuntime} (u : string) (d d1 : MemoryDatabase) :
  keyed d → BlockUser u d = (None, d1) →
  BlockUser u d1 = (Some ErrUserAlreadyBlocked, d1) ∧
  ∃ l, GetBlockedUsers d1 = Ok l ∧
       length (filter (λ b, bu_Username b = u) l) = 1.
Proof.
  intros Hk Hb.
  assert (Hk1 : keyed d1).
  { change d1 with (None : option Error, d1).2. rewrite <- Hb.
    apply (keyed_call (mBlockUser u) d Hk). }
  unfold BlockUser in Hb. destruct (blockedUsers d !! u) eqn:E; [done|].
  injection Hb as <-. split.
  - unfold BlockUser. simpl. by rewrite lookup_insert_eq.
  - eexists. split; [reflexivity|].
    set (d1 := set_blockedUsers _ d) in *.
    pose proof (sorted_range_perm cmpBlockedUser (blockedUsers d1)) as Hp.
    rewrite Hp. destruct Hk1 as (_ & _ & Kb).
    assert (Hl : filter (λ b, bu_Username b = u)
                   (map_to_list (blockedUsers d1)).*2
                 ≡ₚ [{| bu_Username := u |}]).
    { apply NoDup_Permutation.
      - apply NoDup_filter.
        apply (NoDup_fmap_2_strong snd).
        + intros [k1 b1] [k2 b2] H1 H2 Heq. simpl in Heq. subst b2.
          apply elem_of_map_to_list in H1, H2.
          by rewrite <- (Kb _ _ H1), <- (Kb _ _ H2).
        + apply NoDup_map_to_list.
      - apply NoDup_singleton.
      - intros b. rewrite list_elem_of_filter, elem_of_values,
          list_elem_of_singleton. split.
        + intros [Hu [k Hkb]]. pose proof (Kb _ _ Hkb) as Hkey.
          destruct b as [name]. simpl in *. by subst.
        + intros ->. split; [done|]. exists u. subst d1. simpl.
          by rewrite lookup_insert_eq. }
    by rewrite Hl.
Qed.

Lemma BlockUser_twice_witness :
  BlockUser "u" (BlockUser "u" NewMemoryDatabase).2
  = (Some ErrUserAlreadyBlocked, (BlockUser "u" NewMemoryDatabase).2).
Proof.
  refine (proj1 (BlockUser_twice "u" NewMemoryDatabase _ keyed_New _)).
  reflexivity.
Defined.

(** X9.  [GetUserByDescription] answers with a device of the registry whose
    description is the one asked for, and returns [ErrUserNotFound] exactly
    when no device has that description. *)
Theorem GetUserByDescription_finds `{GoRuntime} (desc : string)
    (d : MemoryDatabase) :
  (∀ x, GetUserByDescription desc d = Ok x →
     Description x = desc ∧ ∃ k, users d !! k = Some x) ∧
  (GetUserByDescription desc d = Err ErrUserNotFound ↔
     ∀ k x, users d !! k = Some x → Description x ≠ desc) ∧
  (∀ e, GetUserByDescription desc d = Err e → e = ErrUserNotFound).
Proof.
  unfold GetUserByDescription.
  assert (Hin : ∀ x, x ∈ filter (λ u, Description u = desc)
                          (mapRange (users d))
                 ↔ Description x = desc ∧ ∃ k, users d !! k = Some x).
  { intros x. by rewrite list_elem_of_filter, mapRange_perm, elem_of_values. }
  destruct (filter _ (mapRange (users d))) as [|x l] eqn:El.
  - split; [done|]. split; [|by intros e [= <-]]. split; [|done].
    intros _ k x Hk Hd.
    assert (x ∈ @nil User) as Hx by (apply Hin; eauto).
    by apply not_elem_of_nil in Hx.
  - assert (Hx : Description x = desc ∧ ∃ k, users d !! k = Some x).
    { apply Hin. by left. }
    split; [by intros ? [= <-]|]. split; [|done]. split; [done|].
    intros Hno. destruct Hx as [Hd [k Hk]]. by destruct (Hno k x Hk).
Qed.

End registry_laws.

(** ** The registry file: what loads, and what a mutation leaves on disk *)

Module persistence_laws.
Import yamldatabase memorydatabase spec fixtures documents runtime
  runtime_facts registry_runs registry_facts roundtrip_facts registry_laws.

Lemma forEach_CreateVLAN_inv (l : list VLAN) (d0 d1 : MemoryDatabase) :
  forEach CreateVLAN l d0 = (None, d1) →
  NoDup (ID <$> l) ∧
  (∀ v, v ∈ l → vlans d0 !! ID v = None) ∧
  (∀ v, v ∈ l → Default v = true →
     defaultVLAN d0 = None ∧ ∀ w, w ∈ l → Default w = true → w = v).
Proof.
  revert d0. induction l as [|v l IH]; intros d0 Hr.
  - split; [constructor|].
    split; intros v Hv; by apply not_elem_of_nil in Hv.
  - simpl in Hr. unfold CreateVLAN at 1 in Hr.
    destruct (vlans d0 !! ID v) eqn:Hv; [done|].
    destruct (Default v) eqn:Dv.
    + destruct (defaultVLAN d0) eqn:Hd; [done|].
      apply IH in Hr as (Hnd & Hfresh & Hflag). simpl in Hfresh, Hflag.
      assert (Hno : ∀ w, w ∈ l → Default w = false).
      { intros w Hw. destruct (Default w) eqn:Dw; [|done].
        by destruct (Hflag w Hw Dw) as [? _]. }
      assert (Hne : ∀ w, w ∈ l → vlans d0 !! ID w = None ∧ ID v ≠ ID w).
      { intros w Hw. specialize (Hfresh w Hw).
      by apply lookup_insert_None in Hfresh. }
      split; [|split].
      * rewrite fmap_cons. apply NoDup_cons. split; [|done].
        intros [w [Hw1 Hw2]]%list_elem_of_fmap.
        by destruct (Hne w Hw2) as [_ ?].
      * intros w [->|Hw]%elem_of_cons; [done|]. by apply Hne.
      * intros w [->|Hw]%elem_of_cons Dw.
        -- split; [done|]. intros x [->|Hx]%elem_of_cons Dx; [done|].
           by rewrite (Hno x Hx) in Dx.
        -- by rewrite (Hno w Hw) in Dw.
    + apply IH in Hr as (Hnd & Hfresh & Hflag). simpl in Hfresh, Hflag.
      assert (Hne : ∀ w, w ∈ l → vlans d0 !! ID w = None ∧ ID v ≠ ID w).
      { intros w Hw. specialize (Hfresh w Hw).
      by apply lookup_insert_None in Hfresh. }
      split; [|split].
      * rewrite fmap_cons. apply NoDup_cons. split; [|done].
        intros [w [Hw1 Hw2]]%list_elem_of_fmap.
        by destruct (Hne w Hw2) as [_ ?].
      * intros w [->|Hw]%elem_of_cons; [done|]. by apply Hne.
      * intros w [->|Hw]%elem_of_cons Dw; [congruence|].
        destruct (Hflag w Hw Dw) as [Hd Hu]. split; [done|].
        intros x [->|Hx]%elem_of_cons Dx; [congruence|]. by apply Hu.
Qed.

Lemma forEach_CreateUser_inv (l : list User) (d0 d1 : MemoryDatabase) :
  forEach CreateUser l d0 = (None, d1) →
  NoDup (Username <$> l) ∧
  (∀ u, u ∈ l → users d0 !! Username u = None) ∧
  (∀ u, u ∈ l → is_Some (vlans d0 !! VlanID u)).
Proof.
  revert d0. induction l as [|u l IH]; intros d0 Hr.
  - split; [constructor|].
    split; intros v Hv; by apply not_elem_of_nil in Hv.
  - simpl in Hr. unfold CreateUser at 1, GetVLAN in Hr.
    destruct (users d0 !! Username u) eqn:Hu; [done|].
    destruct (vlans d0 !! VlanID u) eqn:Hv; [|done].
    apply IH in Hr as (Hnd & Hfresh & Hvl). simpl in Hfresh, Hvl.
    assert (Hne : ∀ w, w ∈ l →
              users d0 !! Username w = None ∧ Username u ≠ Username w).
    { intros w Hw. specialize (Hfresh w Hw).
      by apply lookup_insert_None in Hfresh. }
    split; [|split].
    + rewrite fmap_cons. apply NoDup_cons. split; [|done].
      intros [w [Hw1 Hw2]]%list_elem_of_fmap.
      by destruct (Hne w Hw2) as [_ ?].
    + intros w [->|Hw]%elem_of_cons; [done|]. by apply Hne.
    + intros w [->|Hw]%elem_of_cons; [by rewrite Hv|]. by apply Hvl.
Qed.

Lemma forEach_BlockUser_inv (l : list BlockedUser) (d0 d1 : MemoryDatabase) :
  forEach (λ bu, BlockUser (bu_Username bu)) l d0 = (None, d1) →
  NoDup (bu_Username <$> l) ∧
  (∀ b, b ∈ l → blockedUsers d0 !! bu_Username b = None).
Proof.
  revert d0. induction l as [|b l IH]; intros d0 Hr.
  - split; [constructor|]. intros v Hv. by apply not_elem_of_nil in Hv.
  - simpl in Hr. unfold BlockUser at 1 in Hr.
    destruct (blockedUsers d0 !! bu_Username b) eqn:Hb; [done|].
    apply IH in Hr as (Hnd & Hfresh). simpl in Hfresh.
    assert (Hne : ∀ w, w ∈ l → blockedUsers d0 !! bu_Username w = None ∧
                               bu_Username b ≠ bu_Username w).
    { intros w Hw. specialize (Hfresh w Hw).
      by apply lookup_insert_None in Hfresh. }
    split.
    + rewrite fmap_cons. apply NoDup_cons. split; [|done].
      intros [w [Hw1 Hw2]]%list_elem_of_fmap.
      by destruct (Hne w Hw2) as [_ ?].
    + intros w [->|Hw]%elem_of_cons; [done|]. by apply Hne.
Qed.

(** Lookups in the map built from a listing. *)
Lemma listed_lookup {A} (key : A → string) (l : list A) (k : string)
    (v : A) :
  (list_to_map ((λ v, (key v, v)) <$> l) : gmap string A) !! k = Some v →
  key v = k ∧ v ∈ l.
Proof.
  intros Hl. apply elem_of_list_to_map_2, list_elem_of_fmap in Hl
    as [w [[= -> ->] Hw]]. done.
Qed.

Lemma listed_elem {A} (key : A → string) (l : list A) (v : A) :
  NoDup (key <$> l) → v ∈ l →
  (list_to_map ((λ v, (key v, v)) <$> l) : gmap string A) !! key v = Some v.
Proof.
  intros Hnd Hv. apply elem_of_list_to_map_1.
  - by rewrite <- list_fmap_compose.
  - apply list_elem_of_fmap. by exists v.
Qed.

Lemma listed_key {A} (key : A → string) (l : list A) (k : string) :
  is_Some ((list_to_map ((λ v, (key v, v)) <$> l) : gmap string A) !! k)
  ↔ k ∈ key <$> l.
Proof.
  split.
  - intros [v [<- Hv]%listed_lookup]. by apply list_elem_of_fmap_2.
  - intros Hk. apply not_eq_None_Some. intros Hn.
    apply not_elem_of_list_to_map in Hn. apply Hn.
    by rewrite <- list_fmap_compose.
Qed.

(** What a document that loads looks like, and what it loads to. *)
Lemma loadFile_sound (path : string) (disk : Disk) (yf : yamlFile)
    (d : MemoryDatabase) :
  files disk !! path = Some (Document yf) → loadFile path disk = Ok d →
  accepted yf ∧
  vlans d = list_to_map ((λ v, (ID v, v)) <$> VLANs yf) ∧
  users d = list_to_map ((λ u, (Username u, u)) <$> Users yf) ∧
  blockedUsers d
    = list_to_map ((λ b, (bu_Username b, b)) <$> BlockedUsers yf) ∧
  (∀ v, defaultVLAN d = Some v ↔ v ∈ VLANs yf ∧ Default v = true).
Proof.
  intros Hf. unfold loadFile. destruct (negb (IsAbs path)); [done|].
  rewrite Hf.
  destruct (forEach CreateVLAN (VLANs yf) NewMemoryDatabase)
    as [[e|] d1] eqn:R1; [done|].
  destruct (forEach CreateUser (Users yf) d1) as [[e|] d2] eqn:R2; [done|].
  destruct (forEach _ (BlockedUsers yf) d2) as [[e|] d3] eqn:R3; [done|].
  intros [= <-].
  pose proof (forEach_CreateVLAN_inv _ _ _ R1) as (Nv & Fv & Gv).
  destruct (forEach_CreateVLAN _ _ Nv Fv Gv)
    as (d1' & R1' & Vl1 & Us1 & Bl1 & Df1).
  rewrite R1 in R1'. injection R1' as <-.
  pose proof (forEach_CreateUser_inv _ _ _ R2) as (Nu & Fu & Gu).
  destruct (forEach_CreateUser _ _ Nu Fu Gu)
    as (d2' & R2' & Us2 & Vl2 & Bl2 & Df2).
  rewrite R2 in R2'. injection R2' as <-.
  pose proof (forEach_BlockUser_inv _ _ _ R3) as (Nb & Fb).
  destruct (forEach_BlockUser _ _ Nb Fb)
    as (d3' & R3' & Bl3 & Vl3 & Us3 & Df3).
  rewrite R3 in R3'. injection R3' as <-.
  simpl in Vl1, Us1, Bl1, Df1.
  rewrite (right_id_L ∅ (∪)) in Vl1.
  assert (Ev : vlans d3 = list_to_map ((λ v, (ID v, v)) <$> VLANs yf))
    by by rewrite Vl3, Vl2.
  assert (Eu : users d3
               = list_to_map ((λ u, (Username u, u)) <$> Users yf)).
  { rewrite Us3, Us2, Us1. apply (right_id_L ∅ (∪)). }
  assert (Eb : blockedUsers d3
               = list_to_map ((λ b, (bu_Username b, b)) <$> BlockedUsers yf)).
  { rewrite Bl3, Bl2, Bl1. apply (right_id_L ∅ (∪)). }
  split; [|split; [done|split; [done|split; [done|]]]].
  - split; [done|]. split; [|split; [done|split; [|done]]].
    + intros v w Hv Hw Dv Dw. destruct (Gv v Hv Dv) as [_ Hu].
      symmetry. by apply Hu.
    + intros u Hu. apply (listed_key ID). rewrite <- Vl1. by apply Gu.
  - intros v. rewrite Df3, Df2, Df1. split; [by intros [?|?]|by right].
Qed.

Lemma loadFile_complete (path : string) (disk : Disk) (yf : yamlFile) :
  IsAbs path = true → files disk !! path = Some (Document yf) →
  accepted yf → is_Ok (loadFile path disk).
Proof.
  intros Ha Hf (Nv & Gv & Nu & Ru & Nb).
  destruct (forEach_CreateVLAN (VLANs yf) NewMemoryDatabase)
    as (d1 & R1 & Vl1 & Us1 & Bl1 & Df1); [done|done| |].
  { intros v Hv Dv. split; [done|]. intros w Hw Dw. by apply Gv. }
  destruct (forEach_CreateUser (Users yf) d1)
    as (d2 & R2 & Us2 & Vl2 & Bl2 & Df2); [done| | |].
  { intros u _. by rewrite Us1. }
  { intros u Hu. rewrite Vl1. simpl. rewrite (right_id_L ∅ (∪)).
    by apply (listed_key ID), Ru. }
  destruct (forEach_BlockUser (BlockedUsers yf) d2)
    as (d3 & R3 & _); [done| |].
  { intros b _. by rewrite Bl2, Bl1. }
  unfold loadFile. rewrite Ha, Hf. simpl. by rewrite R1, R2, R3.
Qed.

(** X10.  Which registry files load.  For an absolute path whose file
    decodes to a document, [loadFile] succeeds exactly when the document has
    pairwise different VLAN ids, at most one VLAN with [default = true],
    pairwise different device usernames, devices that all name a VLAN of the
    document, and pairwise different blocked usernames; and what it returns
    is the document itself: the three maps are the three listings under
    their keys, and [GetDefaultVLAN] answers with the flagged VLAN. *)
Theorem loadFile_accepts (path : string) (disk : Disk) (yf : yamlFile) :
  IsAbs path = true → files disk !! path = Some (Document yf) →
  (is_Ok (loadFile path disk) ↔ accepted yf) ∧
  ∀ d, loadFile path disk = Ok d →
    (∀ id v, GetVLAN id d = Ok v ↔ v ∈ VLANs yf ∧ ID v = id) ∧
    (∀ n u, GetUser n d = Ok u ↔ u ∈ Users yf ∧ Username u = n) ∧
    (∀ n, IsUserBlocked n d = Ok true ↔ n ∈ bu_Username <$> BlockedUsers yf) ∧
    (∀ v, GetDefaultVLAN d = Ok v ↔ v ∈ VLANs yf ∧ Default v = true).
Proof.
  intros Ha Hf. split.
  - split; [|by apply loadFile_complete].
    destruct (loadFile path disk) as [d|] eqn:Hl; [intros _|done].
    by destruct (loadFile_sound _ _ _ _ Hf Hl).
  - intros d Hl.
    destruct (loadFile_sound _ _ _ _ Hf Hl)
      as ((Nv & _ & Nu & _ & Nb) & Ev & Eu & Eb & Hd).
    unfold GetVLAN, GetUser, IsUserBlocked, GetDefaultVLAN.
    rewrite Ev, Eu, Eb. split; [|split; [|split]].
    + intros id v. split.
      * destruct (list_to_map _ !! id) eqn:E; intros [= <-].
        apply listed_lookup in E as [? ?]. done.
      * intros [Hv <-]. by rewrite (listed_elem ID _ v Nv Hv).
    + intros n u. split.
      * destruct (list_to_map _ !! n) eqn:E; intros [= <-].
        apply listed_lookup in E as [? ?]. done.
      * intros [Hu <-]. by rewrite (listed_elem Username _ u Nu Hu).
    + intros n. rewrite <- (listed_key bu_Username). split.
      * intros [= Hb]. by apply bool_decide_eq_true in Hb.
      * intros Hs. by rewrite bool_decide_eq_true_2.
    + intros v. rewrite <- Hd. destruct (defaultVLAN d); split; congruence.
Qed.

Lemma loadFile_accepts_witness :
  is_Ok (loadFile "/db.yaml" diskS3) ↔ accepted documentS3.
Proof.
  refine (proj1 (loadFile_accepts "/db.yaml" diskS3 documentS3 _ _));
    reflexivity.
Defined.

(** X11.  Whatever [loadFile] returns is a sound registry: every entry is
    under its own key, at most one VLAN has [default = true], every device
    names a VLAN of the registry, and the default VLAN is exactly the
    flagged VLAN. *)
Theorem loaded_registry_is_sound (path : string) (disk : Disk)
    (d : MemoryDatabase) :
  loadFile path disk = Ok d → keyed d ∧ V1 d ∧ V2 d ∧ defaultRecorded d.
Proof.
  intros Hl.
  assert (∃ yf, files disk !! path = Some (Document yf)) as [yf Hf].
  { unfold loadFile in Hl. destruct (negb (IsAbs path)); [done|].
    destruct (files disk !! path) as [[yf|]|]; [eauto|done|done]. }
  destruct (loadFile_sound _ _ _ _ Hf Hl)
    as ((Nv & _ & Nu & Ru & Nb) & Ev & Eu & Eb & Hd).
  assert (Hk : keyed d).
  { split; [|split]; intros k x; rewrite ?Ev, ?Eu, ?Eb;
      by intros [? ?]%listed_lookup. }
  assert (Hfl : flaggedIsDefault d).
  { split; [done|]. intros k v Hv Dv. apply Hd. split; [|done].
    rewrite Ev in Hv. by apply listed_lookup in Hv as [_ ?]. }
  split; [done|]. split; [by apply flaggedIsDefault_V1|]. split.
  - intros k u Hu. rewrite Eu in Hu. apply listed_lookup in Hu as [_ Hu].
    rewrite Ev. by apply (listed_key ID), Ru.
  - intros v. rewrite Hd. split.
    + intros [Hv Dv]. exists (ID v). split; [|done].
      rewrite Ev. by apply listed_elem.
    + intros (k & Hv & Dv). split; [|done].
      rewrite Ev in Hv. by apply listed_lookup in Hv as [_ ?].
Qed.

Lemma loaded_registry_is_sound_witness :
  ∃ d, loadFile "/db.yaml" diskS3 = Ok d ∧
       keyed d ∧ V1 d ∧ V2 d ∧ defaultRecorded d.
Proof.
  eexists. split; [vm_compute; reflexivity|].
  apply (loaded_registry_is_sound "/db.yaml" diskS3). vm_compute. reflexivity.
Defined.

(** What a successful dump has written. *)
Lemma dumpFile_ok `{GoRuntime} (path : string) (db : MemoryDatabase)
    (disk disk' : Disk) :
  dumpFile path db disk = (None, disk') →
  IsAbs path = true ∧ (path ∉ createDenied disk) ∧
  writeFails disk = false ∧
  disk' = writeFile path (Document (document db))
            (writeFile path Undecodable disk).
Proof.
  unfold dumpFile. destruct (IsAbs path); [|done]. simpl.
  case_bool_decide as Hden; [done|].
  unfold GetUsers, GetVLANs, GetBlockedUsers. simpl writeFails.
  destruct (writeFails disk); [done|]. by intros [= <-].
Qed.

(** The shape the eight mutators share. *)
Lemma saved_call `{GoRuntime} (r : option Error * MemoryDatabase)
    (d d' : YAMLDatabase) (disk disk' : Disk) :
  match r with
  | (Some err, m) => (Some err, set_memory m d, disk)
  | (None, m) =>
      match save (set_memory m d) disk with
      | (Some err, disk) => (Some err, set_memory m d, disk)
      | (None, disk) => (None, set_memory m d, disk)
      end
  end = (None, d', disk') →
  ∃ m, r = (None, m) ∧ d' = set_memory m d ∧
       dumpFile (filePath d) m disk = (None, disk').
Proof.
  destruct r as [[e|] m]; [done|]. unfold save. simpl.
  destruct (dumpFile (filePath d) m disk) as [[e|] disk1] eqn:Hs; [done|].
  intros [= <- <-]. eauto.
Qed.



(** X13.  A mutation of the YAML-backed registry whose in-memory method
    returns an error returns that error and does not touch the disk; unless
    the method is [UnblockUser], the registry in memory is unchanged too. *)
Theorem failed_mutation_writes_nothing `{GoRuntime} (c : Mutation)
    (d : YAMLDatabase) (disk : Disk) (e : Error) (m : MemoryDatabase) :
  call c (memory d) = (Some e, m) →
  yamldatabase.call c d disk = (Some e, set_memory m d, disk) ∧
  ((∀ u, c ≠ mUnblockUser u) → set_memory m d = d).
Proof.
  intros Hop. split.
  - destruct c; simpl in Hop |- *;
      unfold yamldatabase.CreateVLAN, yamldatabase.UpdateVLAN,
        yamldatabase.DeleteVLAN, yamldatabase.CreateUser,
        yamldatabase.UpdateUser, yamldatabase.DeleteUser,
        yamldatabase.BlockUser, yamldatabase.UnblockUser;
      by rewrite Hop.
  - intros Hc. rewrite (error_leaves_registry c _ _ _ Hc Hop).
    by destruct d.
Qed.

Lemma failed_mutation_writes_nothing_witness :
  yamldatabase.call (mCreateUser (device station "30"))
    {| filePath := "/db.yaml"; memory := registryS1 |} diskS3
  = (Some ErrVLANNotFound,
     {| filePath := "/db.yaml"; memory := registryS1 |}, diskS3).
Proof.
  refine (proj1 (failed_mutation_writes_nothing
    (mCreateUser (device station "30"))
    {| filePath := "/db.yaml"; memory := registryS1 |} diskS3
    ErrVLANNotFound registryS1 _)).
  vm_compute. reflexivity.
Defined.

End persistence_laws.

(** ** The pipeline on a registry that changes *)

Module pipeline_laws.
Import radiusserver spec fixtures runtime runtime_facts registry_runs
  registry_facts registry_laws.

(** X14.  The shape of every response.  It carries the identifier of the
    request; it is either an Access-Accept or the bare Access-Reject, which
    has no attribute at all; it never carries User-Name, User-Password or
    Calling-Station-Id; and at most one notification goes to the bot. *)
Theorem response_shape {DB} `{Database DB} (db : DB) (r : Request) :
  let p := (handler db r).1 in
  pktIdentifier p = pktIdentifier (reqPacket r) ∧
  (pktCode p = CodeAccessAccept ∨ p = Response r CodeAccessReject) ∧
  attrUserName p = None ∧ attrUserPassword p = None ∧
  attrCallingStationID p = None ∧
  (length (handler db r).2 ≤ 1)%nat.
Proof.
  assert (Hset : ∀ vlan,
    let p := setPacketVLAN (Response r CodeAccessAccept) vlan in
    pktIdentifier p = pktIdentifier (reqPacket r) ∧
    (pktCode p = CodeAccessAccept ∨ p = Response r CodeAccessReject) ∧
    attrUserName p = None ∧ attrUserPassword p = None ∧
    attrCallingStationID p = None).
  { intros vlan. unfold setPacketVLAN.
    repeat case_bool_decide; simpl; repeat split; by left. }
  assert (Hrej : let p := Response r CodeAccessReject in
    pktIdentifier p = pktIdentifier (reqPacket r) ∧
    (pktCode p = CodeAccessAccept ∨ p = Response r CodeAccessReject) ∧
    attrUserName p = None ∧ attrUserPassword p = None ∧
    attrCallingStationID p = None).
  { simpl. repeat split. by right. }
  cbv zeta in *. unfold handler.
  destruct (IsUserBlocked _ db) as [[|]|]; simpl;
    try (destruct Hrej as (?&?&?&?&?); repeat split; done || lia).
  destruct (GetUser _ db) as [user|]; simpl.
  - case_bool_decide; simpl;
      [destruct Hrej as (?&?&?&?&?); repeat split; done || lia|].
    destruct (GetVLAN _ db) as [vlan|]; simpl.
    + destruct (Hset vlan) as (?&?&?&?&?). repeat split; done || lia.
    + destruct (GetDefaultVLAN db) as [vlan|]; simpl.
      * destruct (Hset vlan) as (?&?&?&?&?). repeat split; done || lia.
      * destruct Hrej as (?&?&?&?&?). repeat split; done || lia.
  - destruct (GetDefaultVLAN db) as [vlan|]; simpl.
    + destruct (Hset vlan) as (?&?&?&?&?). repeat split; done || lia.
    + destruct Hrej as (?&?&?&?&?). repeat split; done || lia.
Qed.

(** What the pipeline answers for a device [CreateUser] has registered. *)
Lemma served_after_CreateUser (x : User) (d d' : MemoryDatabase)
    (r : Request) :
  memorydatabase.CreateUser x d = (None, d') →
  memorydatabase.IsUserBlocked (Username x) d = Ok false →
  UserName_GetString (reqPacket r) = Username x →
  ∃ vlan, memorydatabase.GetVLAN (VlanID x) d = Ok vlan ∧
    handler d' r =
      if bool_decide (UserPassword_GetString (reqPacket r) = Password x)
      then (setPacketVLAN (Response r CodeAccessAccept) vlan, [])
      else (Response r CodeAccessReject, []).
Proof.
  unfold memorydatabase.CreateUser, memorydatabase.IsUserBlocked,
    memorydatabase.GetVLAN.
  destruct (users d !! Username x) eqn:Hu; [done|].
  destruct (vlans d !! VlanID x) as [vlan|] eqn:Hv; [|done].
  intros [= <-] [= Hb] Hn. exists vlan. split; [done|].
  unfold handler. rewrite Hn. simpl.
  unfold memorydatabase.IsUserBlocked, memorydatabase.GetUser,
    memorydatabase.GetVLAN. simpl.
  rewrite Hb, lookup_insert_eq, Hv. clear Hb.
  case_bool_decide as Hp1; case_bool_decide as Hp2; congruence.
Qed.

(** What the pipeline answers for a device that is registered on a VLAN
    of the registry and not blocked. *)
Lemma served_after_update (x : User) (d d' : MemoryDatabase) (vlan : VLAN)
    (r : Request) :
  d' = set_users (insert (UserName_GetString (reqPacket r)) x) d →
  memorydatabase.IsUserBlocked (UserName_GetString (reqPacket r)) d
    = Ok false →
  vlans d !! VlanID x = Some vlan →
  UserPassword_GetString (reqPacket r) = Password x →
  handler d' r = (setPacketVLAN (Response r CodeAccessAccept) vlan, []) ∧
  memorydatabase.GetUser (UserName_GetString (reqPacket r)) d' = Ok x.
Proof.
  intros -> [= Hb] Hv Hp. unfold handler. simpl.
  unfold memorydatabase.IsUserBlocked, memorydatabase.GetUser,
    memorydatabase.GetVLAN. simpl.
  rewrite Hb, lookup_insert_eq, Hv, Hp.
  by rewrite bool_decide_eq_false_2 by (intros Hne; by apply Hne).
Qed.

(** A request for a username on the blocklist. *)
Lemma rejected_when_blocked (u : string) (d : MemoryDatabase) (r : Request) :
  is_Some (blockedUsers d !! u) → UserName_GetString (reqPacket r) = u →
  handler d r = (Response r CodeAccessReject, []).
Proof.
  intros Hb Hn. unfold handler. rewrite Hn. simpl.
  unfold memorydatabase.IsUserBlocked. by rewrite bool_decide_eq_true_2.
Qed.



Lemma blocked_call `{GoRuntime} (u : string) (m : Mutation)
    (d : MemoryDatabase) :
  releases u m = false → is_Some (blockedUsers d !! u) →
  is_Some (blockedUsers (call m d).2 !! u).
Proof.
  intros Hm Hb. destruct m; simpl in Hm |- *;
    unfold CreateVLAN, UpdateVLAN, DeleteVLAN, CreateUser, UpdateUser,
      DeleteUser, BlockUser, memorydatabase.GetVLAN;
    repeat case_match; simpl; try done.
  - rewrite lookup_delete_ne; [done|]. by apply bool_decide_eq_false in Hm.
  - apply lookup_insert_is_Some.
    destruct (decide (username = u)); [by left|by right].
  - apply bool_decide_eq_false in Hm.
    destruct (UnblockUser_result username d)
      as [[_ ->]|[(_ & _ & ->)|(_ & _ & [(v & _ & ->)|[(_ & _ & ->)|
           (_ & k & v & _ & ->)]])]]; simpl; try done;
      by rewrite lookup_delete_ne.
Qed.

(** X16.  Once blocked, always rejected.  After [BlockUser u], whatever it
    returned, and after any further sequence of calls to the mutators in
    which neither [UnblockUser u] nor [DeleteUser u] occurs, every request
    with username [u] is answered with the bare Access-Reject and no
    notification is sent. *)
Theorem blocked_stays_rejected `{GoRuntime} (u : string)
    (ms : list Mutation) (d : MemoryDatabase) (r : Request) :
  UserName_GetString (reqPacket r) = u →
  forallb (λ m, negb (releases u m)) ms = true →
  handler (run ms (BlockUser u d).2) r = (Response r CodeAccessReject, []).
Proof.
  intros Hn Hms.
  assert (Hb : is_Some (blockedUsers (run ms (BlockUser u d).2) !! u)).
  { assert (H0 : is_Some (blockedUsers (BlockUser u d).2 !! u)).
    { unfold BlockUser. destruct (blockedUsers d !! u) eqn:E; simpl.
      - by rewrite E.
      - by rewrite lookup_insert_eq. }
    revert H0. generalize (BlockUser u d).2. clear d.
    induction ms as [|m ms IH]; intros d H0; [done|].
    simpl in Hms. apply andb_prop in Hms as [Hm Hms].
    simpl. apply IH; [done|]. apply blocked_call; [|done].
    by destruct (releases u m). }
  unfold handler. rewrite Hn. simpl. unfold memorydatabase.IsUserBlocked.
  by rewrite bool_decide_eq_true_2.
Qed.

Lemma blocked_stays_rejected_witness :
  handler
    (run [mCreateUser (device station "20"); mUnblockUser "other";
          mDeleteVLAN "1"]
       (BlockUser station registryS1).2)
    (accessRequest station station station)
  = (Response (accessRequest station station station) CodeAccessReject, []).
Proof.
  apply (blocked_stays_rejected station); reflexivity.
Defined.

(** X17.  A deleted device is unknown again.  After [DeleteUser u] has
    returned nil, a request with username [u] gets the default response and
    one notification is sent, also when [u] was blocked before. *)
Theorem deleted_device_is_unknown (u : string) (d d' : MemoryDatabase)
    (r : Request) :
  DeleteUser u d = (None, d') → UserName_GetString (reqPacket r) = u →
  handler d' r =
    (defaultResponse d' r,
     [NotifyLoginAttempt u (UserPassword_GetString (reqPacket r))
        (CallingStationID_GetString (reqPacket r))]).
Proof.
  unfold DeleteUser. destruct (users d !! u) eqn:Hu; [|done].
  intros [= <-] Hn. unfold handler, defaultResponse. rewrite Hn. simpl.
  unfold memorydatabase.IsUserBlocked, memorydatabase.GetUser. simpl.
  rewrite !lookup_delete_eq.
  rewrite bool_decide_eq_false_2 by by intros [? ?].
  by destruct (memorydatabase.GetDefaultVLAN d).
Qed.

Lemma deleted_device_is_unknown_witness :
  handler (DeleteUser station (BlockUser station registryS3).2).2
    (accessRequest station station station)
  = (defaultResponse (DeleteUser station (BlockUser station registryS3).2).2
       (accessRequest station station station),
     [NotifyLoginAttempt station station station]).
Proof.
  apply (deleted_device_is_unknown station (BlockUser station registryS3).2);
    reflexivity.
Defined.

End pipeline_laws.

(** ** The cache at the edge of its capacity *)

Module lru_laws.
Import lru lru_spec lru_facts.

Section laws.
Context {K : Type} `{Countable K} {V : Type}.
Variable zeroValue : V.

Lemma empty_stays_empty (c : Cache K V) (o : Op K V) :
  (capacity c ≤ 0)%Z → cache c = ∅ → queue c = [] →
  capacity (step zeroValue c o) = capacity c ∧
  cache (step zeroValue c o) = ∅ ∧ queue (step zeroValue c o) = [].
Proof.
  intros Hcap Hc Hq. destruct o as [k v|k]; simpl.
  - unfold Set_. rewrite Hc, lookup_empty, Hq. simpl.
    destruct (Z.ltb_spec (capacity c) (Z.of_nat 1)) as [_|?]; [|lia]. simpl.
    rewrite ?lookup_insert_eq. simpl.
    rewrite delete_insert_eq, delete_empty. split; [done|]. split; [done|].
    unfold Remove. rewrite filter_cons.
    by rewrite decide_False by (intros Hne; by apply Hne).
  - unfold Get. by rewrite Hc, lookup_empty.
Qed.

(** X18.  A cache created with a capacity of zero or less keeps nothing:
    after any sequence of [Set_] and [Get] it has no entry, and every [Get]
    returns the zero value and [false], also for the key set last. *)
Theorem no_capacity_keeps_nothing (cap : Z) (ops : list (Op K V)) :
  (cap ≤ 0)%Z →
  let c := run zeroValue ops (NewLRUCache cap) in
  entries c = [] ∧ cache c = ∅ ∧
  ∀ k, Get zeroValue k c = (zeroValue, false, c).
Proof.
  intros Hcap c.
  assert (Hinv : (capacity c ≤ 0)%Z ∧ cache c = ∅ ∧ queue c = []).
  { unfold c, run. clear c.
    assert (H0 : (capacity (NewLRUCache cap : Cache K V) ≤ 0)%Z ∧
                 cache (NewLRUCache cap : Cache K V) = ∅ ∧
                 queue (NewLRUCache cap : Cache K V) = []) by done.
    revert H0. generalize (NewLRUCache cap : Cache K V).
    induction ops as [|o ops IH]; intros c0 H0; [done|].
    simpl. apply IH. destruct H0 as (H1 & H2 & H3).
    destruct (empty_stays_empty c0 o H1 H2 H3) as (-> & ? & ?). done. }
  destruct Hinv as (_ & Hc & Hq). split; [|split; [done|]].
  - unfold entries. by rewrite Hq.
  - intros k. unfold Get. by rewrite Hc, lookup_empty.
Qed.

Lemma filter_lookup_le {A} (P : A → Prop) `{∀ x, Decision (P x)}
    (l : list A) (i : nat) (x : A) :
  l !! i = Some x → P x → ∃ j, (j ≤ i)%nat ∧ filter P l !! j = Some x.
Proof.
  revert i. induction l as [|y l IH]; intros i Hi Hx; [done|].
  destruct i as [|i]; simpl in Hi.
  - injection Hi as ->. exists 0. split; [lia|].
    by rewrite filter_cons_True.
  - destruct (IH i Hi Hx) as (j & Hj & Hl).
    destruct (decide (P y)).
    + exists (S j). split; [lia|]. by rewrite filter_cons_True.
    + exists j. split; [lia|]. by rewrite filter_cons_False.
Qed.

(** An operation on another key moves an entry back by one place at
    most, and does not drop it unless it is the last of a full cache. *)
Lemma step_keeps (c : Cache K V) (o : Op K V) (k : K) (v : V) (i : nat) :
  wf c → bounded c → entries c !! i = Some (k, v) →
  (Z.of_nat (S i) < capacity c)%Z →
  (∀ v', o ≠ opSet k v') →
  ∃ j, (j ≤ S i)%nat ∧ entries (step zeroValue c o) !! j = Some (k, v).
Proof.
  intros Hwf Hb Hi Hcap Ho.
  assert (Hmoved : ∀ k' w, k' ≠ k →
    ∃ j, (j ≤ S i)%nat ∧
      ((k', w) :: filter (λ p : K * V, p.1 ≠ k') (entries c)) !! j
      = Some (k, v)).
  { intros k' w Hne.
    destruct (filter_lookup_le (λ p : K * V, p.1 ≠ k') _ i (k, v) Hi)
      as (j & Hj & Hl); [by apply not_eq_sym|].
    exists (S j). split; [lia|done]. }
  destruct o as [k' v'|k']; simpl.
  - assert (Hne : k' ≠ k) by (intros ->; by apply (Ho v')).
    destruct (cache c !! k') as [elem|] eqn:Hc.
    + pose proof Hc as Hc'. apply (wf_cache c Hwf) in Hc' as (_ & v0 & Hel).
      destruct (Set_hit c k' elem v0 v' Hwf Hc Hel) as (_ & _ & _ & ->).
      by apply Hmoved.
    + destruct (Set_miss c k' v' Hwf Hb Hc) as (_ & _ & _ & Hs).
      destruct (Z.ltb_spec (capacity c) (Z.of_nat (S (length (entries c)))))
        as [Hfull|_].
      * destruct Hs as [old Hs]. exists (S i). split; [lia|].
        assert (Hlen : length (entries (Set_ k' v' c))
                       = length (entries c)).
        { apply (f_equal length) in Hs. rewrite length_app in Hs.
          simpl in Hs. lia. }
        assert (Hl : ((k', v') :: entries c) !! S i = Some (k, v)) by done.
        rewrite Hs, lookup_app_l in Hl; [done|]. lia.
      * rewrite Hs. exists (S i). split; [lia|done].
  - destruct (cache c !! k') as [elem|] eqn:Hc.
    + pose proof Hc as Hc'. apply (wf_cache c Hwf) in Hc' as (_ & v0 & Hel).
      destruct (Get_hit zeroValue c k' elem v0 Hwf Hc Hel)
        as (c' & Hg & _ & _ & _ & Hen). rewrite Hg. simpl. rewrite Hen.
      destruct (decide (k' = k)) as [->|Hne]; [|by apply Hmoved].
      exists 0. split; [lia|]. simpl. do 2 f_equal.
      assert (Hin : (k, v) ∈ entries c) by by eapply list_elem_of_lookup_2.
      apply (elem_of_entries c k v Hwf) in Hin as (e & He & Hh).
      rewrite Hc in He. injection He as <-. rewrite Hel in Hh.
      by injection Hh.
    + rewrite Get_miss by done. simpl. exists i. split; [lia|done].
Qed.

Lemma run_keeps (ops : list (Op K V)) (c : Cache K V) (k : K) (v : V)
    (i : nat) :
  wf c → bounded c → entries c !! i = Some (k, v) →
  (Z.of_nat (i + length ops) < capacity c)%Z →
  (∀ v', opSet k v' ∉ ops) →
  ∃ j, entries (run zeroValue ops c) !! j = Some (k, v).
Proof.
  revert c i. induction ops as [|o ops IH]; intros c i Hwf Hb Hi Hcap Ho.
  - by exists i.
  - simpl in Hcap |- *.
    destruct (step_keeps c o k v i Hwf Hb Hi) as (j & Hj & Hl); [lia| |].
    { intros v' ->. apply (Ho v'). by left. }
    destruct (step_wf zeroValue c o Hwf Hb) as (Hwf' & Hb' & Hc').
    apply (IH _ j Hwf' Hb' Hl).
    + rewrite Hc'. lia.
    + intros v' Hin. apply (Ho v'). by right.
Qed.

(** Reading an entry that is there. *)
Lemma Get_entry (c : Cache K V) (k : K) (v : V) :
  wf c → bounded c → (k, v) ∈ entries c →
  ∃ c', Get zeroValue k c = (v, true, c') ∧ wf c' ∧ bounded c' ∧
        capacity c' = capacity c.
Proof.
  intros Hwf Hb Hin.
  apply (elem_of_entries c k v Hwf) in Hin as (e & He & Hh).
  destruct (Get_hit zeroValue c k e v Hwf He Hh) as (c' & Hg & _).
  exists c'. split; [done|].
  destruct (step_wf zeroValue c (opGet k) Hwf Hb) as (W & B & C).
  simpl in W, B, C. by rewrite Hg in W, B, C.
Qed.

(** An entry is at the front when it has been set. *)
Lemma Set_front (c : Cache K V) (k : K) (v : V) :
  wf c → bounded c → (1 ≤ capacity c)%Z →
  entries (Set_ k v c) !! 0 = Some (k, v).
Proof.
  intros Hwf0 Hb0 Hcap.
  destruct (cache c !! k) as [elem|] eqn:Hc.
  - pose proof Hc as Hc'.
    apply (wf_cache c Hwf0) in Hc' as (_ & v0 & Hel).
    by destruct (Set_hit c k elem v0 v Hwf0 Hc Hel) as (_ & _ & _ & ->).
  - destruct (Set_miss c k v Hwf0 Hb0 Hc) as (_ & _ & _ & Hs).
    destruct (Z.ltb_spec (capacity c)
                (Z.of_nat (S (length (entries c))))) as [Hfull|_];
      [|by rewrite Hs].
    destruct Hs as [old Hs].
    destruct (entries (Set_ k v c)) as [|x l]; [|by injection Hs as ->].
    apply (f_equal length) in Hs. simpl in Hs.
    assert (length (entries c) = 0) as Hz by lia.
    rewrite Hz in Hfull. lia.
Qed.

(** An entry that has been set is there after fewer further operations
    than the capacity, if none of them sets its key. *)
Lemma survives (c : Cache K V) (after : list (Op K V)) (k : K) (v : V) :
  wf c → bounded c → (Z.of_nat (length after) < capacity c)%Z →
  (∀ v', opSet k v' ∉ after) →
  (k, v) ∈ entries (run zeroValue after (Set_ k v c)).
Proof.
  intros Hwf0 Hb0 Hcap Ho.
  destruct (step_wf zeroValue c (opSet k v) Hwf0 Hb0) as (Hwf1 & Hb1 & Hc1).
  simpl in Hwf1, Hb1, Hc1.
  destruct (run_keeps after _ k v 0 Hwf1 Hb1) as (j & Hj); [| |done|].
  - apply Set_front; [done|done|lia].
  - rewrite Hc1. simpl. lia.
  - by eapply list_elem_of_lookup_2.
Qed.

(** X22.  The least recently used entry goes first, so a fresh one stays:
    in a cache of capacity [cap], an entry that has just been set is still
    there, with its value, after any [cap - 1] or fewer further operations
    that do not set its key again. *)
Theorem fresh_entry_survives (cap : Z) (before after : list (Op K V))
    (k : K) (v : V) :
  (Z.of_nat (length after) < cap)%Z →
  (∀ v', opSet k v' ∉ after) →
  (Get zeroValue k
     (run zeroValue (before ++ opSet k v :: after) (NewLRUCache cap))).1
  = (v, true).
Proof.
  intros Hcap Ho. unfold run. rewrite fold_left_app. simpl.
  fold (run zeroValue before (NewLRUCache cap : Cache K V)).
  set (c0 := run zeroValue before (NewLRUCache cap)).
  fold (run zeroValue after (Set_ k v c0)).
  destruct (run_wf zeroValue before (NewLRUCache cap) (wf_New cap)
              (bounded_New cap)) as (Hwf0 & Hb0 & Hc0).
  fold c0 in Hwf0, Hb0, Hc0. simpl in Hc0.
  destruct (step_wf zeroValue c0 (opSet k v) Hwf0 Hb0) as (Hwf1 & Hb1 & Hc1).
  simpl in Hwf1, Hb1, Hc1.
  destruct (run_wf zeroValue after _ Hwf1 Hb1) as (Hwf2 & Hb2 & _).
  assert (Hin : (k, v) ∈ entries (run zeroValue after (Set_ k v c0))).
  { apply survives; [done|done| |done]. by rewrite Hc0. }
  by destruct (Get_entry _ k v Hwf2 Hb2 Hin) as (c' & -> & _).
Qed.

End laws.

Lemma fresh_entry_survives_witness :
  (Get 0%Z "a"
     (run 0%Z ([opSet "x" 9%Z] ++
               opSet "a" 1%Z :: [opSet "b" 2%Z; opGet "x"; opSet "c" 3%Z])
        (NewLRUCache 4))).1
  = (1%Z, true).
Proof.
  apply (fresh_entry_survives 0%Z 4 [opSet "x" 9%Z]
           [opSet "b" 2%Z; opGet "x"; opSet "c" 3%Z] "a" 1%Z).
  - simpl. lia.
  - intros v' Hin.
    repeat (apply elem_of_cons in Hin as [Hin|Hin]; [discriminate|]).
    by apply not_elem_of_nil in Hin.
Defined.

Lemma no_capacity_keeps_nothing_witness :
  Get 0%Z "a" (run 0%Z [opSet "a" 1%Z] (NewLRUCache 0))
  = (0%Z, false, run 0%Z [opSet "a" 1%Z] (NewLRUCache 0)).
Proof.
  refine (proj2 (proj2 (no_capacity_keeps_nothing 0%Z 0 [opSet "a" 1%Z] _))
            "a").
  lia.
Defined.

End lru_laws.

(** ** The configuration *)

Module config_laws.
Import config logging.

Section laws.
Variable JoinHostPort : string → string → string.
Variable ParseRequestURI : string → bool.

Lemma set_Debug_id (c : Config) : set_Debug (Debug c) c = c.
Proof. by destruct c. Qed.

Lemma set_Verbose_id (c : Config) : set_Verbose (Verbose c) c = c.
Proof. by destruct c. Qed.

(** [Validate] with its two writes gathered. *)
Lemma Validate_eq (c : Config) :
  Validate JoinHostPort ParseRequestURI c =
  if negb (ParseRequestURI ("http://" ++ JoinHostPort (Host c) (Port c)))
  then (Some InvalidHostPort, c)
  else if (Verbose c <? 0)%Z || (2 <? Verbose c)%Z
  then (Some (InvalidVerbosity (Verbose c)), c)
  else if negb (Verbose c =? 0)%Z && Quiet c
  then (Some VerboseAndQuiet, c)
  else
    let c2 := set_Verbose (if Quiet c then VerboseLevelQuiet else Verbose c)
                (set_Debug (Debug c || (Verbose c =? 2)%Z) c) in
    if bool_decide (DatabaseFilePath c = "")
    then (Some EmptyDatabaseFilePath, c2)
    else if bool_decide (RadiusSecret c = "")
    then (Some EmptyRadiusSecret, c2)
    else
      match List.find Atoi_fails (TelegramChatIDs c) with
      | Some chatID => (Some (InvalidChatID chatID), c2)
      | None => (None, c2)
      end.
Proof.
  unfold Validate, VerboseLevelInfo, VerboseLevelDebug.
  destruct (negb (ParseRequestURI _)); [done|].
  destruct ((Verbose c <? 0)%Z || (2 <? Verbose c)%Z) eqn:Hr; [done|].
  destruct (negb (Verbose c =? 0)%Z && Quiet c); [done|].
  apply orb_false_elim in Hr as [Hlo Hhi].
  apply Z.ltb_ge in Hlo, Hhi. cbv zeta.
  set (c1 := if (2 <=? Verbose c)%Z then set_Debug true c else c).
  set (c2 := if Quiet c1 then set_Verbose VerboseLevelQuiet c1 else c1).
  assert (E1 : c1 = set_Debug (Debug c || (Verbose c =? 2)%Z) c).
  { unfold c1. destruct (Z.leb_spec 2 (Verbose c));
      destruct (Z.eqb_spec (Verbose c) 2); try lia.
    - by rewrite orb_true_r.
    - by rewrite orb_false_r, set_Debug_id. }
  assert (E2 : c2 = set_Verbose (if Quiet c then VerboseLevelQuiet
                                 else Verbose c) c1).
  { assert (Hq1 : Quiet c1 = Quiet c) by by rewrite E1.
    assert (Hv1 : Verbose c1 = Verbose c) by by rewrite E1.
    unfold c2. rewrite Hq1. destruct (Quiet c); [done|].
    by rewrite <- Hv1, set_Verbose_id. }
  assert (Hd : DatabaseFilePath c2 = DatabaseFilePath c) by by rewrite E2, E1.
  assert (Hs : RadiusSecret c2 = RadiusSecret c) by by rewrite E2, E1.
  assert (Hi : TelegramChatIDs c2 = TelegramChatIDs c) by by rewrite E2, E1.
  rewrite Hd, Hs, Hi. by rewrite E2, E1.
Qed.

(** The checks [Validate] makes, and the configuration it leaves when all
    of them pass. *)
Lemma Validate_nil (c c' : Config) :
  Validate JoinHostPort ParseRequestURI c = (None, c') ↔
  ParseRequestURI ("http://" ++ JoinHostPort (Host c) (Port c)) = true ∧
  (0 ≤ Verbose c ≤ 2)%Z ∧ (Quiet c = true → Verbose c = 0%Z) ∧
  DatabaseFilePath c ≠ "" ∧ RadiusSecret c ≠ "" ∧
  List.find Atoi_fails (TelegramChatIDs c) = None ∧
  c' = set_Verbose (if Quiet c then VerboseLevelQuiet else Verbose c)
         (set_Debug (Debug c || (Verbose c =? VerboseLevelDebug)%Z) c).
Proof.
  rewrite Validate_eq. unfold VerboseLevelDebug. split.
  - destruct (ParseRequestURI _) eqn:Hp; [|done]. simpl negb. cbv iota.
    destruct (Z.ltb_spec (Verbose c) 0) as [|Hlo]; [done|].
    destruct (Z.ltb_spec 2 (Verbose c)) as [|Hhi]; [done|].
    simpl orb. cbv iota.
    destruct (negb (Verbose c =? 0)%Z && Quiet c) eqn:Hvq; [done|].
    cbv zeta.
    case_bool_decide as Hdb; [done|]. case_bool_decide as Hrs; [done|].
    destruct (List.find _ _) eqn:Hf; [done|]. intros [= <-].
    split; [done|]. split; [lia|]. split; [|done].
    intros Hq. rewrite Hq, andb_true_r in Hvq.
    by destruct (Z.eqb_spec (Verbose c) 0).
  - intros (-> & Hv & Hq & Hd & Hs & -> & ->). simpl negb. cbv iota.
    destruct (Z.ltb_spec (Verbose c) 0) as [|Hlo]; [lia|].
    destruct (Z.ltb_spec 2 (Verbose c)) as [|Hhi]; [lia|].
    simpl orb. cbv iota.
    assert (negb (Verbose c =? 0)%Z && Quiet c = false) as ->.
    { destruct (Quiet c); [|by rewrite andb_false_r].
      by rewrite (Hq eq_refl). }
    cbv zeta. by rewrite !bool_decide_eq_false_2 by done.
Qed.

(** X19.  What a configuration is like when [Validate] returns nil: the
    address parses; the verbosity is one of -1, 0, 1, 2, and it is -1
    exactly when [Quiet] is set; [Debug] is set when the verbosity is 2;
    the database path and the RADIUS secret are not empty; [strconv.Atoi]
    accepts every chat id; and the host, the port, the token, the chat ids
    and the flags [Prod] and [Quiet] are as they were. *)
Theorem Validate_establishes (c c' : Config) :
  Validate JoinHostPort ParseRequestURI c = (None, c') →
  ParseRequestURI ("http://" ++ JoinHostPort (Host c') (Port c')) = true ∧
  (-1 ≤ Verbose c' ≤ 2)%Z ∧
  (Quiet c' = true ↔ Verbose c' = VerboseLevelQuiet) ∧
  (Verbose c' = VerboseLevelDebug → Debug c' = true) ∧
  DatabaseFilePath c' ≠ "" ∧ RadiusSecret c' ≠ "" ∧
  Forall (λ chatID, Atoi_fails chatID = false) (TelegramChatIDs c') ∧
  Host c' = Host c ∧ Port c' = Port c ∧ Prod c' = Prod c ∧
  Quiet c' = Quiet c ∧ TelegramBotToken c' = TelegramBotToken c ∧
  TelegramChatIDs c' = TelegramChatIDs c.
Proof.
  intros (Hp & Hv & Hq & Hd & Hs & Hf & ->)%Validate_nil. simpl.
  unfold VerboseLevelQuiet, VerboseLevelDebug.
  split; [done|]. split; [destruct (Quiet c); lia|]. split.
  { destruct (Quiet c); [done|]. split; [done|lia]. }
  split.
  { destruct (Quiet c); [lia|]. intros ->. by rewrite orb_true_r. }
  split; [done|]. split; [done|]. split; [|done].
  apply Forall_forall. intros x Hx%list_elem_of_In.
  by apply (find_none _ _ Hf).
Qed.

(** X20.  [Validate] is not idempotent.  On a configuration it has
    accepted, a second call returns nil and changes nothing when [Quiet] is
    not set; when [Quiet] is set, the first call has written the verbosity
    -1, which the second call rejects as an invalid verbosity level. *)
Theorem Validate_twice (c c' : Config) :
  Validate JoinHostPort ParseRequestURI c = (None, c') →
  Validate JoinHostPort ParseRequestURI c' =
    if Quiet c then (Some (InvalidVerbosity VerboseLevelQuiet), c')
    else (None, c').
Proof.
  intros (Hp & Hv & Hq & Hd & Hs & Hf & ->)%Validate_nil.
  destruct (Quiet c) eqn:Eq.
  - rewrite Validate_eq. simpl. by rewrite Hp.
  - apply Validate_nil. simpl. rewrite Eq.
    split; [done|]. split; [done|]. split; [done|]. split; [done|].
    split; [done|]. split; [done|].
    unfold set_Verbose, set_Debug. simpl. f_equal.
    by destruct (Debug c), (Verbose c =? VerboseLevelDebug)%Z.
Qed.

(** X21.  The logger of an accepted configuration, as [serve] builds it:
    with [Quiet] it logs errors only; with verbosity 2 it logs at debug
    level and adds the source position; else it logs at info level.  The
    handler writes JSON exactly in production mode. *)
Theorem logger_of_valid_config (c c' : Config) :
  Validate JoinHostPort ParseRequestURI c = (None, c') →
  level (NewLogger c') =
    (if Quiet c then LevelError
     else if (Verbose c =? 2)%Z then LevelDebug else LevelInfo) ∧
  addSource (NewLogger c') = (negb (Quiet c) && (Verbose c =? 2)%Z) ∧
  handler (NewLogger c') = if Prod c then JSONHandler else TextHandler.
Proof.
  intros (Hp & Hv & Hq & Hd & Hs & Hf & ->)%Validate_nil.
  unfold NewLogger. simpl.
  unfold VerboseLevelQuiet, VerboseLevelDebug.
  destruct (Quiet c) eqn:Eq.
  - rewrite (Hq eq_refl). simpl. by destruct (Prod c).
  - destruct (Z.leb_spec 2 (Verbose c)); destruct (Z.eqb_spec (Verbose c) 2);
      destruct (Z.leb_spec (Verbose c) (-1)); try lia; by destruct (Prod c).
Qed.

End laws.

Lemma Validate_establishes_witness :
  Verbose (Validate (λ h p, h ++ ":" ++ p) (λ _, true) quietConfig).2
  = VerboseLevelQuiet.
Proof.
  refine (proj1 (proj1 (proj2 (proj2 (Validate_establishes
    (λ h p, h ++ ":" ++ p) (λ _, true) quietConfig
    (Validate (λ h p, h ++ ":" ++ p) (λ _, true) quietConfig).2 _)))) _);
    reflexivity.
Defined.

Lemma Validate_twice_witness :
  Validate (λ h p, h ++ ":" ++ p) (λ _, true)
    (Validate (λ h p, h ++ ":" ++ p) (λ _, true) quietConfig).2
  = (Some (InvalidVerbosity VerboseLevelQuiet),
     (Validate (λ h p, h ++ ":" ++ p) (λ _, true) quietConfig).2).
Proof.
  apply (Validate_twice (λ h p, h ++ ":" ++ p) (λ _, true) quietConfig).
  reflexivity.
Defined.

Lemma logger_of_valid_config_witness :
  level (NewLogger
           (Validate (λ h p, h ++ ":" ++ p) (λ _, true) quietConfig).2)
  = LevelError.
Proof.
  refine (proj1 (logger_of_valid_config (λ h p, h ++ ":" ++ p) (λ _, true)
            quietConfig _ _)).
  reflexivity.
Defined.

End config_laws.

(** ** The approval flows *)

Module telegram_laws.
Import radiusserver lru lru_spec lru_facts lru_laws telegram telegram_spec.

Section layout.
Context {A : Type}.
Implicit Types (l p : list A) (x : A).

Lemma chunk3_three a b c l :
  chunk3 (a :: b :: c :: l) = [a; b; c] :: chunk3 l.
Proof. reflexivity. Qed.

(** Induction in steps of three. *)
Lemma list_ind3 (P : list A → Prop) :
  P [] → (∀ a, P [a]) → (∀ a b, P [a; b]) →
  (∀ a b c l, P l → P (a :: b :: c :: l)) → ∀ l, P l.
Proof.
  intros H0 H1 H2 H3 l.
  assert (Hall : P l ∧ (∀ a, P (a :: l)) ∧ ∀ a b, P (a :: b :: l)).
  { induction l as [|x l (IH0 & IH1 & IH2)]; [by auto|].
    split; [apply IH1|]. split; [intros a; apply IH2|].
    intros a b. by apply H3. }
  apply Hall.
Qed.

Lemma chunk3_nil l : chunk3 l = [] → l = [].
Proof. by destruct l as [|a [|b [|c l]]]. Qed.

Lemma concat_chunk3 l : concat (chunk3 l) = l.
Proof.
  induction l as [|a|a b|a b c l IH] using list_ind3; try done.
  rewrite chunk3_three. simpl. by rewrite IH.
Qed.

Lemma rows_chunk3 l :
  Forall (λ row, (1 ≤ length row ≤ 3)%nat) (chunk3 l).
Proof.
  induction l as [|a|a b|a b c l IH] using list_ind3.
  - constructor.
  - repeat constructor.
  - repeat constructor.
  - rewrite chunk3_three. constructor; [simpl; lia|done].
Qed.

Lemma length_chunk3 l :
  (3 * length (chunk3 l) = length l + (3 - length l mod 3) mod 3)%nat.
Proof.
  induction l as [|a|a b|a b c l IH] using list_ind3; try done.
  rewrite chunk3_three. simpl length.
  replace (S (S (S (length l)))) with (length l + 1 * 3)%nat by lia.
  rewrite Nat.Div0.mod_add. lia.
Qed.

(** One more element: a new row after a full one, else it joins the last
    row. *)
Lemma chunk3_snoc l x :
  chunk3 (l ++ [x]) =
  if (length l mod 3 =? 0)%nat then (chunk3 l ++ [[x]])%list
  else
    match chunk3 l !! (length (chunk3 l) - 1)%nat with
    | Some row =>
        <[(length (chunk3 l) - 1)%nat := (row ++ [x])%list]> (chunk3 l)
    | None => chunk3 l
    end.
Proof.
  induction l as [|a|a b|a b c l IH] using list_ind3; try done.
  change ((a :: b :: c :: l) ++ [x])%list with (a :: b :: c :: (l ++ [x]))%list.
  rewrite !chunk3_three, IH. simpl length.
  replace (S (S (S (length l)))) with (length l + 1 * 3)%nat by lia.
  rewrite Nat.Div0.mod_add.
  destruct (length l mod 3 =? 0)%nat eqn:Hm; [done|].
  assert (Hne : chunk3 l ≠ []).
  { intros Hn. apply chunk3_nil in Hn. by subst l. }
  destruct (chunk3 l) as [|r rs] eqn:Hc; [done|]. simpl length.
  replace (S (S (length rs)) - 1)%nat with (S (S (length rs) - 1))%nat by lia.
  change (([a; b; c] :: r :: rs) !! S (S (length rs) - 1)%nat)
    with ((r :: rs) !! (S (length rs) - 1)%nat).
  by destruct ((r :: rs) !! (S (length rs) - 1)%nat).
Qed.

End layout.

Section flows.
Context {DB : Type} `{Database DB}.
Variable randomID : nat → string.
Variable extractNew extractEdit : string → string.

Implicit Types (b : Bot DB) (c : Context).

(** The loop, from any point on: the rows so far hold the buttons laid
    out so far, and so they do at the end. *)
Lemma vlanButtons_layout (unique : string)
    (getDataID : string → Bot DB → string * Bot DB)
    (vlans : list VLAN) (done_ : list InlineButton) b :
  vlanButtons unique getDataID (length done_) vlans (chunk3 done_) b =
  (Some (chunk3 (done_ ++ (buttonsOf unique getDataID vlans b).1)),
   (buttonsOf unique getDataID vlans b).2).
Proof.
  revert done_ b. induction vlans as [|vlan rest IH]; intros done_ b.
  - simpl. by rewrite (right_id_L [] (++)).
  - simpl. destruct (getDataID (ID vlan) b) as [id b1].
    set (btn := {| Text := capVLAN (Name vlan); Unique := unique;
                   Data := id |}).
    assert (Ha : appendButton (length done_) btn (chunk3 done_)
                 = Some (chunk3 (done_ ++ [btn]))).
    { unfold appendButton, ReplyMarkup. rewrite chunk3_snoc.
      destruct (length done_ mod 3 =? 0)%nat eqn:Hm; [done|].
      destruct (chunk3 done_ !! (length (chunk3 done_) - 1)%nat) eqn:Hl;
        [done|].
      exfalso. apply lookup_ge_None in Hl.
      assert (chunk3 done_ = []) as Hn
        by (destruct (chunk3 done_); [done|simpl in Hl; lia]).
      apply chunk3_nil in Hn. by subst done_. }
    rewrite Ha.
    replace (S (length done_)) with (length (done_ ++ [btn]))
      by (rewrite length_app; simpl; lia).
    rewrite IH. destruct (buttonsOf unique getDataID rest b1) as [btns b2].
    simpl. by rewrite <- (assoc_L (++)).
Qed.

(** X23.  The VLAN menu.  The loop that lays the buttons out never indexes
    an empty keyboard: it ends with one button for every VLAN of the
    listing, in the order of the listing and captioned with the VLAN's
    name, in rows of three with what is left in the last row; every row has
    one to three buttons. *)
Theorem vlan_menu_layout (unique : string)
    (getDataID : string → Bot DB → string * Bot DB)
    (vlans : list VLAN) b :
  let btns := (buttonsOf unique getDataID vlans b).1 in
  vlanButtons unique getDataID 0 vlans [] b =
    (Some (chunk3 btns), (buttonsOf unique getDataID vlans b).2) ∧
  concat (chunk3 btns) = btns ∧
  Forall (λ row, (1 ≤ length row ≤ 3)%nat) (chunk3 btns) ∧
  Text <$> btns = (λ vlan, capVLAN (Name vlan)) <$> vlans ∧
  Forall (λ btn, Unique btn = unique) btns.
Proof.
  intros btns. split; [apply (vlanButtons_layout unique getDataID vlans [])|].
  split; [apply concat_chunk3|]. split; [apply rows_chunk3|].
  unfold btns. clear btns. revert b.
  induction vlans as [|vlan rest IH]; intros b; [done|].
  simpl. destruct (getDataID (ID vlan) b) as [id b1].
  specialize (IH b1).
  destruct (buttonsOf unique getDataID rest b1) as [btns b2].
  destruct IH as [Ht Hu]. simpl fst in *.
  rewrite !fmap_cons. split; [by rewrite Ht|]. by constructor.
Qed.

Lemma set_newDeviceCache_id b : set_newDeviceCache (newDeviceCache b) b = b.
Proof. by destruct b. Qed.

Lemma set_editDeviceCache_id b :
  set_editDeviceCache (editDeviceCache b) b = b.
Proof. by destruct b. Qed.

(** X24.  A stale token changes nothing.  Whatever button is pressed, when
    its data is a key of neither cache the handler returns
    [ErrFailedToReadData], and the database, the caches and the chat are as
    they were: nothing was read from the database, no id drawn, no message
    sent or edited. *)
Theorem stale_token_changes_nothing (unique : string)
    (handler : Context → Bot DB → Outcome * Bot DB) c b :
  handlerOf randomID unique = Some handler →
  cache (newDeviceCache b) !! cData c = None →
  cache (editDeviceCache b) !! cData c = None →
  handler c b = (Returned (Some ErrFailedToReadData), b).
Proof.
  intros Hh Hn He. unfold handlerOf in Hh.
  repeat (case_bool_decide; [injection Hh as <-|]); [..|done];
    unfold onAdd, onSelectVLAN, onBackAdd, onIgnore, onBlocklist,
      onEditChangeVLAN, onEditBlock, onEditUnblock, onEditDelete,
      onEditBack, onEditSelectVLAN, Get;
    rewrite ?Hn, ?He; simpl;
    by rewrite ?set_newDeviceCache_id, ?set_editDeviceCache_id.
Qed.

End flows.

(** *** Tokens in the cache *)

Section tokens.
Context {DB : Type} `{Database DB}.
Variable randomID : nat → string.
Implicit Types (b : Bot DB) (c : Context).

Lemma NoDup_fmap_seq_app (d m n : nat) :
  NoDup (randomID <$> seq d (m + n)) →
  NoDup (randomID <$> seq d m) ∧ NoDup (randomID <$> seq (d + m) n).
Proof.
  rewrite seq_app, fmap_app. intros Hnd. apply NoDup_app in Hnd. tauto.
Qed.

Lemma run_cons {V} (zero : V) (o : Op string V) ops (cch : Cache string V) :
  run zero (o :: ops) cch = run zero ops (step zero cch o).
Proof. reflexivity. Qed.

Lemma setsOf_keys {V} (d0 : nat) (vs : list V) (k : string) (v : V) :
  opSet k v ∈ setsOf randomID d0 vs → k ∈ randomID <$> seq d0 (length vs).
Proof.
  revert d0. induction vs as [|x vs IH]; intros d0 Hin; simpl in *.
  - by apply not_elem_of_nil in Hin.
  - apply elem_of_cons in Hin as [[= -> ->]|Hin]; [by left|].
    right. by apply IH.
Qed.

Lemma length_setsOf {V} (d0 : nat) (vs : list V) :
  length (setsOf randomID d0 vs) = length vs.
Proof.
  revert d0. induction vs as [|x vs IH]; intros d0; [done|].
  simpl. by rewrite IH.
Qed.

(** Ids drawn in one batch that fits the cache are all there at the end
    of the batch, each with what was stored under it. *)
Lemma batch_survives {V} (zero : V) (cch : Cache string V) (d0 : nat)
    (vs : list V) (t : nat) (v : V) :
  wf cch → bounded cch → vs !! t = Some v →
  (Z.of_nat (length vs) ≤ capacity cch)%Z →
  NoDup (randomID <$> seq d0 (length vs)) →
  (randomID (d0 + t), v) ∈ entries (run zero (setsOf randomID d0 vs) cch).
Proof.
  revert cch d0 t. induction vs as [|x vs IH]; intros cch d0 t Hwf Hb Ht Hcap Hnd;
    [done|].
  simpl in Hcap.
  change (seq d0 (length (x :: vs))) with (d0 :: seq (S d0) (length vs))
    in Hnd.
  rewrite fmap_cons, NoDup_cons in Hnd.
  destruct Hnd as [Hfresh Hnd].
  simpl setsOf. rewrite run_cons. simpl step.
  destruct (step_wf zero cch (opSet (randomID d0) x) Hwf Hb)
    as (Hwf1 & Hb1 & Hc1). simpl in Hwf1, Hb1, Hc1.
  destruct t as [|t]; simpl in Ht.
  - injection Ht as ->. rewrite Nat.add_0_r.
    apply survives; [done|done| |].
    + rewrite length_setsOf. lia.
    + intros v' Hin. apply Hfresh. by eapply setsOf_keys.
  - replace (d0 + S t)%nat with (S d0 + t)%nat by lia.
    apply IH; [done|done|done| |done]. rewrite Hc1. lia.
Qed.

Lemma batch_wf {V} (zero : V) (cch : Cache string V) (d0 : nat)
    (vs : list V) :
  wf cch → bounded cch →
  wf (run zero (setsOf randomID d0 vs) cch) ∧
  bounded (run zero (setsOf randomID d0 vs) cch) ∧
  capacity (run zero (setsOf randomID d0 vs) cch) = capacity cch.
Proof. apply run_wf. Qed.

Lemma notifyChats_outbox (now : nat → string) (fails : nat → bool) (i : nat)
    (chats : list Z) (data : newDeviceData) b (a : Action) :
  a ∈ outbox b → a ∈ outbox (notifyChats randomID now fails i chats data b).
Proof.
  revert i b. induction chats as [|chat rest IH]; intros i b Hin; [done|].
  simpl. apply IH. unfold createNotifyMessage, createRandomID. simpl.
  destruct (fails i); simpl; [done|]. apply elem_of_app. by left.
Qed.

(** The bot after [NotifyLoginAttempt]'s loop. *)
Lemma notifyChats_state (now : nat → string) (fails : nat → bool) (i : nat)
    (chats : list Z) (data : newDeviceData) b :
  let b' := notifyChats randomID now fails i chats data b in
  db b' = db b ∧ chatIDs b' = chatIDs b ∧
  editDeviceCache b' = editDeviceCache b ∧
  drawn b' = (drawn b + length chats)%nat ∧
  newDeviceCache b' =
    run nilNewDeviceData
      (setsOf randomID (drawn b) (replicate (length chats) data))
      (newDeviceCache b) ∧
  ∀ j chat, chats !! j = Some chat → fails (i + j)%nat = false →
    SendTo chat
      (msgNewDevice (nd_Username data) (nd_MacAddress data) (now (i + j)%nat))
      (Some (notifyMarkup (randomID (drawn b + j)))) ∈ outbox b'.
Proof.
  revert i b. induction chats as [|chat0 rest IH]; intros i b.
  - simpl. rewrite Nat.add_0_r. repeat split; done.
  - simpl notifyChats. unfold createNotifyMessage, createRandomID.
    cbv zeta. simpl.
    set (b1 := set_newDeviceCache _ (set_drawn _ b)).
    set (b2 := if fails i then b1 else set_outbox _ b1).
    assert (E2 : db b2 = db b ∧ chatIDs b2 = chatIDs b ∧
                 editDeviceCache b2 = editDeviceCache b ∧
                 drawn b2 = S (drawn b) ∧
                 newDeviceCache b2
                 = Set_ (randomID (drawn b)) data (newDeviceCache b)).
    { unfold b2. by destruct (fails i). }
    destruct E2 as (E1 & E2 & E3 & E4 & E5).
    destruct (IH (S i) b2) as (I1 & I2 & I3 & I4 & I5 & I6).
    cbv zeta in *.
    split; [by rewrite I1|]. split; [by rewrite I2|].
    split; [by rewrite I3|]. split; [rewrite I4, E4; lia|].
    split; [by rewrite I5, E4, E5|].
    intros j chat Hj Hf. destruct j as [|j]; simpl in Hj.
    + injection Hj as ->. rewrite !Nat.add_0_r in *.
      apply notifyChats_outbox.
      unfold b2. rewrite Hf. simpl. apply elem_of_app. right. by left.
    + specialize (I6 j chat Hj).
      replace (S i + j)%nat with (i + S j)%nat in I6 by lia.
      rewrite E4 in I6.
      replace (S (drawn b) + j)%nat with (drawn b + S j)%nat in I6 by lia.
      by apply I6.
Qed.

(** The bot after the loop of the Add handler, and the buttons it made. *)
Lemma buttonsOf_state (data : newDeviceData) (vlans : list VLAN) b :
  let r := buttonsOf btnSelectVLANUnique (storeSelection randomID data)
             vlans b in
  db r.2 = db b ∧ outbox r.2 = outbox b ∧
  drawn r.2 = (drawn b + length vlans)%nat ∧
  newDeviceCache r.2 =
    run nilNewDeviceData
      (setsOf randomID (drawn b) (selected data <$> vlans))
      (newDeviceCache b) ∧
  length r.1 = length vlans ∧
  ∀ k vlan, vlans !! k = Some vlan →
    r.1 !! k = Some (vlanButton vlan (randomID (drawn b + k))).
Proof.
  revert b. induction vlans as [|vlan0 rest IH]; intros b.
  - simpl. rewrite Nat.add_0_r. repeat split; done.
  - simpl buttonsOf. unfold storeSelection at 1, createRandomID. simpl.
    set (b1 := set_newDeviceCache _ (set_drawn _ b)).
    destruct (IH b1) as (I1 & I2 & I3 & I4 & I5 & I6). cbv zeta in *.
    destruct (buttonsOf _ _ rest b1) as [btns b2]. simpl in *.
    split; [done|]. split; [done|]. split; [lia|]. split; [done|].
    split; [by rewrite I5|].
    intros k vlan Hk. destruct k as [|k]; simpl in Hk.
    + injection Hk as ->. by rewrite Nat.add_0_r.
    + simpl. rewrite (I6 k vlan Hk). do 3 f_equal. lia.
Qed.

(** What the press of the Add button does. *)
Lemma add_spec c b (data : newDeviceData) (l : list VLAN) :
  wf (newDeviceCache b) → bounded (newDeviceCache b) →
  (cData c, data) ∈ entries (newDeviceCache b) →
  GetVLANs (db b) = Ok l →
  ∃ cch b2 btns,
    wf cch ∧ bounded cch ∧ capacity cch = capacity (newDeviceCache b) ∧
    onAdd randomID c b =
      (Returned (if cFails c (length (outbox b)) then Some ErrChat
                 else None), b2) ∧
    db b2 = db b ∧
    newDeviceCache b2 =
      run nilNewDeviceData
        (setsOf randomID (drawn b) (selected data <$> l)) cch ∧
    length btns = length l ∧
    (∀ k vlan, l !! k = Some vlan →
       btns !! k = Some (vlanButton vlan (randomID (drawn b + k)))) ∧
    outbox b2 =
      (if cFails c (length (outbox b)) then outbox b
       else outbox b ++
            [Edit (msgSelectNetwork (nd_Username data))
               (Some (chunk3 btns ++ [[backButton (cData c)]]))])%list.
Proof.
  intros Hwf Hb Hin Hl.
  destruct (Get_entry nilNewDeviceData _ _ _ Hwf Hb Hin)
    as (cch & Hg & Hwf1 & Hb1 & Hc1).
  unfold onAdd. rewrite Hg. cbv beta iota zeta. simpl negb. cbv iota.
  change (db (set_newDeviceCache cch b)) with (db b). rewrite Hl.
  pose proof (vlanButtons_layout btnSelectVLANUnique
                (storeSelection randomID data) l []
                (set_newDeviceCache cch b)) as Hlay.
  simpl length in Hlay. simpl chunk3 in Hlay at 1. rewrite Hlay. clear Hlay.
  destruct (buttonsOf_state data l (set_newDeviceCache cch b))
    as (S1 & S2 & S3 & S4 & S5 & S6). cbv zeta in *.
  destruct (buttonsOf btnSelectVLANUnique (storeSelection randomID data) l
              (set_newDeviceCache cch b)) as [btns b2].
  simpl in S1, S2, S3, S4, S5, S6. simpl app. simpl snd. simpl fst.
  exists cch. unfold deliver. rewrite S2.
  destruct (cFails c (length (outbox b))).
  - exists b2, btns. split; [done|]. split; [done|]. split; [done|].
    split; [done|]. split; [done|]. split; [done|]. done.
  - eexists _, btns. split; [done|]. split; [done|]. split; [done|].
    split; [reflexivity|]. simpl. done.
Qed.

End tokens.

(** *** The flows on the in-memory registry, and the pipeline after them *)

Section registry.
Context `{GoRuntime}.
Implicit Types (b : Bot MemoryDatabase) (c : Context).

(** The methods of the interface are those of the in-memory registry. *)
Ltac on_registry :=
  change (@GetVLANs MemoryDatabase _) with memorydatabase.GetVLANs;
  change (@GetVLAN MemoryDatabase _) with memorydatabase.GetVLAN;
  change (@GetUser MemoryDatabase _) with memorydatabase.GetUser;
  change (@GetUserByDescription MemoryDatabase _)
    with memorydatabase.GetUserByDescription;
  change (@IsUserBlocked MemoryDatabase _) with memorydatabase.IsUserBlocked;
  change (@CreateUser MemoryDatabase _) with memorydatabase.CreateUser;
  change (@UpdateUser MemoryDatabase _) with memorydatabase.UpdateUser;
  change (@DeleteUser MemoryDatabase _) with memorydatabase.DeleteUser;
  change (@BlockUser MemoryDatabase _) with memorydatabase.BlockUser;
  change (@UnblockUser MemoryDatabase _) with memorydatabase.UnblockUser.

(** The handler that reads the token finds what was stored under it. *)
Lemma read_token {V} (zero : V) (cch : Cache string V) (k : string) (v : V) :
  wf cch → (k, v) ∈ entries cch → ∃ cch', Get zero k cch = (v, true, cch').
Proof.
  intros Hwf Hin.
  apply (elem_of_entries cch k v Hwf) in Hin as (e & He & Hh).
  destruct (Get_hit zero cch k e v Hwf He Hh) as (c' & Hg & _). eauto.
Qed.

(** What the press of a VLAN button does for a device the registry does
    not know. *)
Lemma select_spec c b (data : newDeviceData) (vlan : VLAN)
    (r : radiusserver.Request) :
  wf (newDeviceCache b) → (cData c, data) ∈ entries (newDeviceCache b) →
  spec.keyed (db b) →
  memorydatabase.GetVLAN (nd_VlanID data) (db b) = Ok vlan →
  memorydatabase.GetUser (nd_Username data) (db b) = Err ErrUserNotFound →
  memorydatabase.IsUserBlocked (nd_Username data) (db b) = Ok false →
  radiusserver.UserName_GetString (radiusserver.reqPacket r)
    = nd_Username data →
  radiusserver.UserPassword_GetString (radiusserver.reqPacket r)
    = nd_Password data →
  let user := {| Username := nd_Username data; Password := nd_Password data;
                 VlanID := ID vlan; Description := "" |} in
  ∃ b', onSelectVLAN c b =
          (Returned (if cFails c (length (outbox b)) then Some ErrChat
                     else None), b') ∧
    db b' = (memorydatabase.CreateUser user (db b)).2 ∧
    memorydatabase.GetUser (nd_Username data) (db b') = Ok user ∧
    outbox b' =
      (if cFails c (length (outbox b)) then outbox b
       else outbox b ++ [Edit (msgAdded (nd_Username data) (Name vlan))
                           None])%list ∧
    radiusserver.handler (db b') r =
      (radiusserver.setPacketVLAN
         (radiusserver.Response r radiusserver.CodeAccessAccept) vlan, []).
Proof.
  intros Hwf Hin Hk Hv Hu Hbl Hn Hp user.
  destruct (read_token nilNewDeviceData _ _ _ Hwf Hin) as (c' & Hg).
  assert (Hid : ID vlan = nd_VlanID data).
  { unfold memorydatabase.GetVLAN in Hv.
    destruct (vlans (db b) !! nd_VlanID data) eqn:E; [|done].
    injection Hv as ->. by apply Hk. }
  assert (Hcr : memorydatabase.CreateUser user (db b)
                = (None, set_users (insert (nd_Username data) user) (db b))).
  { unfold memorydatabase.CreateUser. simpl.
    unfold memorydatabase.GetUser in Hu.
    destruct (users (db b) !! nd_Username data); [done|].
    by rewrite Hid, Hv. }
  destruct (pipeline_laws.served_after_CreateUser user (db b) _ r Hcr Hbl Hn)
    as (vlan' & Hv' & Hh).
  simpl in Hv'. rewrite Hid, Hv in Hv'. injection Hv' as <-.
  rewrite bool_decide_eq_true_2 in Hh by done.
  unfold onSelectVLAN. rewrite Hg. simpl. rewrite Hv. fold user.
  rewrite Hcr. unfold deliver. simpl.
  destruct (cFails c (length (outbox b))); simpl;
    (eexists; split; [reflexivity|]); simpl; rewrite ?Hcr; simpl;
    (split; [done|]); (split; [|done]);
    unfold memorydatabase.GetUser; simpl; by rewrite lookup_insert_eq.
Qed.


(** X26.  The Block button blocks.  When it is pressed with a token the
    cache holds, [BlockUser] runs for the username of the notification:
    afterwards every request with that username gets the bare
    Access-Reject and no notification, whether the handler returned nil,
    the error of the chat, or [ErrUserAlreadyBlocked] because the username
    had been blocked before. *)
Theorem block_button_blocks c b (data : newDeviceData)
    (r : radiusserver.Request) :
  wf (newDeviceCache b) → (cData c, data) ∈ entries (newDeviceCache b) →
  radiusserver.UserName_GetString (radiusserver.reqPacket r)
    = nd_Username data →
  ∃ o b', onBlocklist c b = (o, b') ∧
    db b' = (memorydatabase.BlockUser (nd_Username data) (db b)).2 ∧
    memorydatabase.IsUserBlocked (nd_Username data) (db b') = Ok true ∧
    radiusserver.handler (db b') r =
      (radiusserver.Response r radiusserver.CodeAccessReject, []) ∧
    o = Returned
          (if bool_decide (is_Some (blockedUsers (db b) !! nd_Username data))
           then Some (ErrDatabase ErrUserAlreadyBlocked)
           else if cFails c (length (outbox b)) then Some ErrChat else None).
Proof.
  intros Hwf Hin Hn.
  destruct (read_token nilNewDeviceData _ _ _ Hwf Hin) as (c' & Hg).
  unfold onBlocklist. rewrite Hg. simpl.
  unfold memorydatabase.BlockUser, memorydatabase.IsUserBlocked.
  destruct (blockedUsers (db b) !! nd_Username data) as [x|] eqn:Hb.
  - rewrite bool_decide_eq_true_2 by eauto.
    eexists _, _. split; [reflexivity|]. simpl.
    split; [done|]. split; [by rewrite Hb, bool_decide_eq_true_2 by eauto|].
    split; [|done]. apply (pipeline_laws.rejected_when_blocked _ _ _ ltac:(eauto) Hn).
  - rewrite (bool_decide_eq_false_2 (is_Some None)) by by intros [? ?].
    unfold deliver. simpl.
    assert (Hs : is_Some (<[nd_Username data := mkBlockedUser (nd_Username data)]>
                            (blockedUsers (db b)) !! nd_Username data))
      by (rewrite lookup_insert_eq; eauto).
    destruct (cFails c (length (outbox b)));
      (eexists _, _; split; [reflexivity|]); simpl;
      (split; [done|]);
      (split; [by rewrite bool_decide_eq_true_2|]);
      (split; [|done]);
      by apply (pipeline_laws.rejected_when_blocked (nd_Username data)).
Qed.

Lemma press_add (randomID : nat → string) (t : Caption) (d now : string)
    (fails : nat → bool) b :
  press randomID {| Text := t; Unique := btnAddUnique; Data := d |}
    now fails b
  = onAdd randomID {| cData := d; cPayload := ""; cText := "";
                      cReplyTo := None; cNow := now; cFails := fails |} b.
Proof. reflexivity. Qed.

Lemma press_select (randomID : nat → string) (t : Caption) (d now : string)
    (fails : nat → bool) b :
  press randomID {| Text := t; Unique := btnSelectVLANUnique; Data := d |}
    now fails b
  = onSelectVLAN {| cData := d; cPayload := ""; cText := "";
                    cReplyTo := None; cNow := now; cFails := fails |} b.
Proof. reflexivity. Qed.


(** X28.  Naming a blocked device.  A reply with a name to the edit
    message of a username that is blocked and has no device unblocks the
    username, which creates its device, and blocks it again.  With a default
    VLAN the device ends up registered on it, with the username as its
    password and the reply as its name, and the username is still blocked.
    With no VLAN at all [UnblockUser] fails after it has removed the
    blocklist entry: the handler returns [ErrVLANNotFound], no device
    exists, and the username is not blocked any more. *)
Theorem naming_a_blocked_device (extractEdit : string → string) c b
    (original u : string) :
  cReplyTo c = Some original → extractEdit original = u → u ≠ "" →
  memorydatabase.GetUser u (db b) = Err ErrUserNotFound →
  memorydatabase.IsUserBlocked u (db b) = Ok true →
  let res := onReplyToEditDevice extractEdit c b in
  (∀ v, memorydatabase.GetDefaultVLAN (db b) = Ok v →
     memorydatabase.GetUser u (db res.2)
       = Ok {| Username := u; Password := u; VlanID := ID v;
               Description := cText c |} ∧
     memorydatabase.IsUserBlocked u (db res.2) = Ok true ∧
     res.1 = Returned (if cFails c (length (outbox b)) then Some ErrChat
                       else None)) ∧
  (memorydatabase.GetDefaultVLAN (db b) = Err ErrDefaultVLANNotFound →
   vlans (db b) = ∅ →
     res.1 = Returned (Some (ErrDatabase ErrVLANNotFound)) ∧
     memorydatabase.GetUser u (db res.2) = Err ErrUserNotFound ∧
     memorydatabase.IsUserBlocked u (db res.2) = Ok false).
Proof.
  intros Hr He Hu Hg Hb res.
  assert (Hus : users (db b) !! u = None).
  { unfold memorydatabase.GetUser in Hg.
    by destruct (users (db b) !! u). }
  assert (Hbl : is_Some (blockedUsers (db b) !! u)).
  { unfold memorydatabase.IsUserBlocked in Hb. injection Hb as Hb.
    by apply bool_decide_eq_true in Hb. }
  assert (Hres : res =
    match memorydatabase.UnblockUser u (db b) with
    | (Some e, d) => (Returned (Some (ErrDatabase e)), set_db d b)
    | (None, d) =>
        match memorydatabase.BlockUser u d with
        | (Some e, d) => (Returned (Some (ErrDatabase e)), set_db d b)
        | (None, d) =>
            match memorydatabase.GetUser u d with
            | Err e => (Returned (Some (ErrDatabase e)), set_db d b)
            | Ok user =>
                let user := {| Username := Username user;
                               Password := Password user;
                               VlanID := VlanID user;
                               Description := cText c |} in
                match memorydatabase.UpdateUser user d with
                | (Some e, d) => (Returned (Some (ErrDatabase e)), set_db d b)
                | (None, d) =>
                    deliver c
                      (Send (msgSavedName (Description user) (Username user))
                         None) (set_db d b)
                end
            end
        end
    end).
  { unfold res, onReplyToEditDevice. rewrite Hr, He.
    rewrite bool_decide_eq_false_2 by done. simpl.
    rewrite Hg. rewrite bool_decide_eq_true_2 by done.
    destruct (memorydatabase.UnblockUser u (db b)) as [[e|] d1]; [done|].
    simpl. destruct (memorydatabase.BlockUser u d1) as [[e|] d2]; [done|].
    simpl. destruct (memorydatabase.GetUser u d2); [|done]. simpl.
    by destruct (memorydatabase.UpdateUser _ d2) as [[e|] d3]. }
  rewrite Hres. clear Hres res. split.
  - intros v Hv.
    assert (Hd : defaultVLAN (db b) = Some v).
    { unfold memorydatabase.GetDefaultVLAN in Hv.
      destruct (defaultVLAN (db b)); by simplify_eq. }
    destruct (registry_facts.UnblockUser_cases u (db b) Hbl Hus)
      as [(v' & Hd' & ->)|[(Hn & _)|(Hn & _)]]; [|congruence..].
    rewrite Hd in Hd'. injection Hd' as <-.
    unfold memorydatabase.BlockUser, spec.unblocked. simpl.
    rewrite lookup_delete_eq. unfold memorydatabase.GetUser. simpl.
    rewrite lookup_insert_eq. unfold memorydatabase.UpdateUser. simpl.
    rewrite lookup_insert_eq. unfold deliver. simpl.
    unfold memorydatabase.IsUserBlocked.
    destruct (cFails c (length (outbox b))); simpl;
      rewrite !lookup_insert_eq;
      (split; [done|]); (split; [|done]);
      by rewrite bool_decide_eq_true_2 by eauto.
  - intros Hv He0.
    assert (Hd : defaultVLAN (db b) = None).
    { unfold memorydatabase.GetDefaultVLAN in Hv.
      by destruct (defaultVLAN (db b)). }
    rewrite (registry_facts.UnblockUser_no_vlan u (db b) Hbl Hus Hd He0).
    simpl. split; [done|].
    unfold memorydatabase.GetUser, memorydatabase.IsUserBlocked. simpl.
    rewrite Hus, lookup_delete_eq. split; [done|].
    by rewrite bool_decide_eq_false_2 by by intros [? ?].
Qed.

(** The edit message and its buttons for a device that is not blocked. *)
Lemma buildEditMessage_device (randomID : nat → string) b (u : string)
    (user : User) (vlan : VLAN) :
  memorydatabase.IsUserBlocked u (db b) = Ok false →
  memorydatabase.GetUser u (db b) = Ok user →
  memorydatabase.GetVLAN (VlanID user) (db b) = Ok vlan →
  ∃ b', buildEditMessage randomID u b =
          (Ok (msgEditDevice false (Description user) u (Name vlan),
               Some [[{| Text := capChangeVLAN;
                         Unique := btnEditChangeVLANUnique;
                         Data := randomID (drawn b) |}];
                     [{| Text := capBlock; Unique := btnEditBlockUnique;
                         Data := randomID (drawn b) |}];
                     [{| Text := capDelete; Unique := btnEditDeleteUnique;
                         Data := randomID (drawn b) |}]]), b') ∧
        db b' = db b ∧ outbox b' = outbox b.
Proof.
  intros Hb Hu Hv. unfold buildEditMessage. on_registry.
  rewrite Hb, Hu. simpl failed. cbv beta iota zeta.
  rewrite Hv. simpl. eauto.
Qed.


(** X30.  The chat allowlist of an accepted configuration converts: after
    [Validate] has returned nil, the loop of [NewBotServer] over the chat
    ids returns no error and gives the ids as integers, in order. *)
Theorem validated_chats_convert (JoinHostPort : string → string → string)
    (ParseRequestURI : string → bool) (cfg cfg' : config.Config) :
  config.Validate JoinHostPort ParseRequestURI cfg = (None, cfg') →
  allowedChats (config.TelegramChatIDs cfg')
  = Some (Atoi <$> config.TelegramChatIDs cfg').
Proof.
  intros (_ & _ & _ & _ & _ & Hf & ->)%config_laws.Validate_nil. simpl.
  induction (config.TelegramChatIDs cfg) as [|id ids IH]; [done|].
  simpl in Hf |- *. destruct (config.Atoi_fails id); [done|].
  by rewrite (IH Hf).
Qed.

End registry.

Import runtime runtime_facts fixtures.

Lemma stale_token_changes_nothing_witness :
  onAdd idOf (pressedS1 "gone") botS1
  = (Returned (Some ErrFailedToReadData), botS1).
Proof.
  apply (stale_token_changes_nothing idOf btnAddUnique (onAdd idOf)
           (pressedS1 "gone") botS1); reflexivity.
Defined.

Lemma botPending_wf : wf (newDeviceCache botPending).
Proof.
  apply (step_wf nilNewDeviceData (NewLRUCache newDeviceDataCacheSize)
           (opSet "tok" pendingS1)); [apply wf_New|apply bounded_New].
Qed.

Lemma botPending_token :
  ("tok", pendingS1) ∈ entries (newDeviceCache botPending).
Proof.
  apply (list_elem_of_lookup_2 _ 0).
  apply (Set_front (NewLRUCache newDeviceDataCacheSize));
    [apply wf_New|apply bounded_New|done].
Qed.

Lemma registryS1_keyed : spec.keyed registryS1.
Proof.
  apply (registry_facts.keyed_call (mCreateVLAN vlan20)).
  apply (registry_facts.keyed_call (mCreateVLAN vlan1)).
  apply registry_facts.keyed_New.
Qed.


Lemma block_button_blocks_witness :
  handler (db (onBlocklist (pressedS1 "tok") botPending).2) requestS1
  = (Response requestS1 CodeAccessReject, []).
Proof.
  destruct (block_button_blocks (pressedS1 "tok") botPending pendingS1
              requestS1 botPending_wf botPending_token)
    as (o & b' & Hs & _ & _ & Hh & _); [reflexivity|].
  by rewrite Hs.
Defined.


Lemma naming_a_blocked_device_witness :
  memorydatabase.GetUser "de:ad:be:ef:00:01"
    (db (onReplyToEditDevice (λ _, "de:ad:be:ef:00:01") replyS1
           botBlocked).2)
  = Ok {| Username := "de:ad:be:ef:00:01"; Password := "de:ad:be:ef:00:01";
          VlanID := "1"; Description := "printer" |}.
Proof.
  refine (proj1 (proj1 (naming_a_blocked_device (λ _, "de:ad:be:ef:00:01")
            replyS1 botBlocked "Username: de:ad:be:ef:00:01"
            "de:ad:be:ef:00:01" _ _ _ _ _) vlan1 _));
    try reflexivity.
  discriminate.
Defined.

Lemma botEditing_wf : wf (editDeviceCache botEditing).
Proof.
  apply (step_wf nilEditDeviceData (NewLRUCache editDeviceDataCacheSize)
           (opSet "tok" {| ed_Username := station; ed_VlanID := "1" |}));
    [apply wf_New|apply bounded_New].
Qed.

Lemma botEditing_token :
  ("tok", {| ed_Username := station; ed_VlanID := "1" |})
  ∈ entries (editDeviceCache botEditing).
Proof.
  apply (list_elem_of_lookup_2 _ 0).
  apply (Set_front (NewLRUCache editDeviceDataCacheSize));
    [apply wf_New|apply bounded_New|done].
Qed.


Lemma validated_chats_convert_witness :
  allowedChats
    (config.TelegramChatIDs
       (config.Validate (λ h p, h ++ ":" ++ p) (λ _, true)
          config.quietConfig).2)
  = Some [42%Z; (-1001234)%Z].
Proof.
  apply (validated_chats_convert (λ h p, h ++ ":" ++ p) (λ _, true)
           config.quietConfig).
  reflexivity.
Defined.

End telegram_laws.
